(** * TowerOps Terraform provider: the reconciliation handlers and their API client

    A shallow embedding of [internal/provider]: the API client
    ([Client.doRequest] and the eight resource calls), the device and site
    data models, the resource schemas, and the Create / Read / Update /
    Delete handlers of [DeviceResource] and [SiteResource].  The remote API and the HTTP transport are an arbitrary
    deterministic state machine; every request handed to [doRequest] is
    recorded so that statements can speak about what was sent. *)

From Stdlib Require Import String Ascii List ZArith Bool.
Import ListNotations.
Local Open Scope string_scope.
Local Open Scope Z_scope.

(** ** Attribute values of the plugin framework ([types.String] and friends)

    A framework value is null, unknown (computed, not yet known at plan time)
    or known.  [IsNull] holds of the null state only; the [Value*] accessors
    return the Go zero value for null and unknown. *)
Module types.

Inductive Value (A : Type) : Type :=
| Null
| Unknown
| Known (a : A).
Arguments Null {A}.
Arguments Unknown {A}.
Arguments Known {A} a.

Definition String := Value string.
Definition Bool := Value bool.
Definition Int64 := Value Z.

Definition IsNull {A} (v : Value A) : bool :=
  match v with Null => true | _ => false end.

Definition IsUnknown {A} (v : Value A) : bool :=
  match v with Unknown => true | _ => false end.

Definition ValueString (v : String) : string :=
  match v with Known s => s | _ => "" end.

Definition ValueBool (v : Bool) : bool :=
  match v with Known b => b | _ => false end.

Definition ValueInt64 (v : Int64) : Z :=
  match v with Known n => n | _ => 0 end.

Definition StringValue (s : string) : String := Known s.
Definition StringNull : String := Null.
Definition BoolValue (b : bool) : Bool := Known b.
Definition Int64Value (n : Z) : Int64 := Known n.

Definition Equal {A} (eqb : A -> A -> bool) (a b : Value A) : bool :=
  match a, b with
  | Null, Null => true
  | Unknown, Unknown => true
  | Known x, Known y => eqb x y
  | _, _ => false
  end.

End types.

(** ** Go integers

    [int] and [int64] are 64-bit two's-complement on every platform the
    provider is built for; a conversion between them wraps into that range
    and is the identity on it. *)
Definition wrap64 (z : Z) : Z := (z + 2 ^ 63) mod 2 ^ 64 - 2 ^ 63.
Definition int (z : Z) : Z := wrap64 z.
Definition int64 (z : Z) : Z := wrap64 z.
Definition in_int64 (z : Z) : bool := (- 2 ^ 63 <=? z) && (z <? 2 ^ 63).

(** ** JSON documents

    A document is kept as its parse tree; numbers are the integer literals
    (the API carries no fractional number).  Object members keep their order
    and may repeat a key, as on the wire. *)
#[local] Set Warnings "-register-all".
Inductive json : Type :=
| JNull
| JBool (b : bool)
| JNumber (n : Z)
| JString (s : string)
| JArray (items : list json)
| JObject (members : list (string * json)).

(** The bytes of an HTTP body: a JSON document, or bytes that do not parse. *)
Inductive bytes : Type :=
| Malformed (raw : string)
| Document (j : json).

Module encoding_json.

(** Struct tag [omitempty] on a [string]: the member is left out when empty. *)
Definition omitempty_string (key s : string) : list (string * json) :=
  if (s =? "")%string then [] else [(key, JString s)].

(** Struct tag [omitempty] on a pointer: the member is left out when nil, and
    present (whatever it points to) otherwise. *)
Definition omitempty_ptr {A} (key : string) (enc : A -> json) (p : option A)
  : list (string * json) :=
  match p with None => [] | Some a => [(key, enc a)] end.

Definition lower (c : ascii) : ascii :=
  let n := nat_of_ascii c in
  if ((65 <=? n)%nat && (n <=? 90)%nat)%bool then ascii_of_nat (n + 32) else c.

Definition is_byte (c : ascii) (n : nat) : bool := (nat_of_ascii c =? n)%nat.

(** Case folding of a member name, byte by byte over its UTF-8 form: an
    ASCII capital becomes its small letter, and the two letters outside
    ASCII that fold to an ASCII one do so: U+017F (long s, bytes C5 BF) to
    s, and U+212A (Kelvin sign, bytes E2 84 AA) to k. *)
Fixpoint fold_bytes (l : list ascii) : list ascii :=
  match l with
  | [] => []
  | c1 :: rest1 =>
      match rest1 with
      | [] => [lower c1]
      | c2 :: rest2 =>
          if (is_byte c1 197 && is_byte c2 191)%bool
          then "s"%char :: fold_bytes rest2
          else
            match rest2 with
            | [] => lower c1 :: fold_bytes rest1
            | c3 :: rest3 =>
                if (is_byte c1 226 && is_byte c2 132 && is_byte c3 170)%bool
                then "k"%char :: fold_bytes rest3
                else lower c1 :: fold_bytes rest1
            end
      end
  end.

(** Member names are matched to struct tags without regard to case.  The
    tags of this package are small ASCII letters, digits and underscores, so
    a name matches a tag exactly when its folding is the tag. *)
Definition fold_key (k : string) : string :=
  string_of_list_ascii (fold_bytes (list_ascii_of_string k)).

(** Decoding a member into a [string] field; [null] leaves the field alone. *)
Definition into_string (v : json) (old : string) : option string :=
  match v with JString s => Some s | JNull => Some old | _ => None end.

(** Decoding a member into a [*string] field; [null] sets the pointer to nil. *)
Definition into_string_ptr (v : json) : option (option string) :=
  match v with JString s => Some (Some s) | JNull => Some None | _ => None end.

Definition into_bool_ptr (v : json) : option (option bool) :=
  match v with JBool b => Some (Some b) | JNull => Some None | _ => None end.

Definition into_int_ptr (v : json) : option (option Z) :=
  match v with
  | JNumber n => if in_int64 n then Some (Some n) else None
  | JNull => Some None
  | _ => None
  end.

(** Decoding an object: the members are applied in order (a repeated key is
    decoded again over the earlier value); the first member that does not fit
    its field makes the whole decode fail. *)
Fixpoint members {T} (step : T -> string -> json -> option T)
         (ms : list (string * json)) (acc : T) : option T :=
  match ms with
  | [] => Some acc
  | (k, v) :: rest =>
      match step acc (fold_key k) v with
      | Some acc' => members step rest acc'
      | None => None
      end
  end.

(** [json.Unmarshal(body, &result)] for a struct target that starts at its
    zero value: an object is decoded member by member, [null] is a no-op,
    anything else (and bytes that are not JSON) is an error. *)
Definition Unmarshal {T} (zero : T) (step : T -> string -> json -> option T)
           (body : bytes) : option T :=
  match body with
  | Malformed _ => None
  | Document (JObject ms) => members step ms zero
  | Document JNull => Some zero
  | Document _ => None
  end.

End encoding_json.

(** ** API payloads ([client.go]) *)

(** [type Site struct]: pointer fields are optional members. *)
Module Site.

Record t : Type := mk {
  ID : string;                    (* json:"id,omitempty" *)
  Name : string;                  (* json:"name" *)
  Location : option string;       (* json:"location,omitempty" *)
  SNMPCommunity : option string;  (* json:"snmp_community,omitempty" *)
  InsertedAt : string             (* json:"inserted_at,omitempty" *)
}.

Definition zero : t :=
  {| ID := ""; Name := ""; Location := None; SNMPCommunity := None; InsertedAt := "" |}.

Definition set_ID (v : string) (x : t) : t :=
  {| ID := v ; Name := Name x ; Location := Location x ; SNMPCommunity := SNMPCommunity x ; InsertedAt := InsertedAt x |}.
Definition set_Name (v : string) (x : t) : t :=
  {| ID := ID x ; Name := v ; Location := Location x ; SNMPCommunity := SNMPCommunity x ; InsertedAt := InsertedAt x |}.
Definition set_Location (v : option string) (x : t) : t :=
  {| ID := ID x ; Name := Name x ; Location := v ; SNMPCommunity := SNMPCommunity x ; InsertedAt := InsertedAt x |}.
Definition set_SNMPCommunity (v : option string) (x : t) : t :=
  {| ID := ID x ; Name := Name x ; Location := Location x ; SNMPCommunity := v ; InsertedAt := InsertedAt x |}.
Definition set_InsertedAt (v : string) (x : t) : t :=
  {| ID := ID x ; Name := Name x ; Location := Location x ; SNMPCommunity := SNMPCommunity x ; InsertedAt := v |}.

Import encoding_json.

Definition Marshal (s : t) : json :=
  JObject (omitempty_string "id" (ID s)
           ++ [("name", JString (Name s))]
           ++ omitempty_ptr "location" JString (Location s)
           ++ omitempty_ptr "snmp_community" JString (SNMPCommunity s)
           ++ omitempty_string "inserted_at" (InsertedAt s)).

Definition decode_member (s : t) (key : string) (v : json) : option t :=
  if (key =? "id")%string then option_map (fun x => set_ID x s) (into_string v (ID s))
  else if (key =? "name")%string then option_map (fun x => set_Name x s) (into_string v (Name s))
  else if (key =? "location")%string then option_map (fun x => set_Location x s) (into_string_ptr v)
  else if (key =? "snmp_community")%string then option_map (fun x => set_SNMPCommunity x s) (into_string_ptr v)
  else if (key =? "inserted_at")%string then option_map (fun x => set_InsertedAt x s) (into_string v (InsertedAt s))
  else Some s.

Definition Unmarshal (body : bytes) : option t :=
  encoding_json.Unmarshal zero decode_member body.

End Site.

(** Modelled from the spec: the revision of [type Device struct] that
    [device_resource.go] compiles against is not among the sources (the
    [client.go] at hand still has [SiteID string] and neither
    [OrganizationID] nor the SNMPv3 members).  The fields are the ones the
    handlers read and write: [SiteID] and [OrganizationID] are pointers
    (compared with nil at lines 267-277), the six SNMPv3 members are
    [*string].  The other members and their tags are those of the [client.go]
    at hand; the added members take the attribute names of section 3 of the
    specification as keys, with [omitempty] like every other pointer. *)
Module Device.

Record t : Type := mk {
  ID : string;                          (* json:"id,omitempty" *)
  SiteID : option string;               (* json:"site_id,omitempty" *)
  OrganizationID : option string;       (* json:"organization_id,omitempty" *)
  Name : option string;                 (* json:"name,omitempty" *)
  IPAddress : string;                   (* json:"ip_address" *)
  Description : option string;          (* json:"description,omitempty" *)
  MonitoringEnabled : option bool;      (* json:"monitoring_enabled,omitempty" *)
  SNMPEnabled : option bool;            (* json:"snmp_enabled,omitempty" *)
  SNMPVersion : option string;          (* json:"snmp_version,omitempty" *)
  SNMPPort : option Z;                  (* json:"snmp_port,omitempty" *)
  SNMPv3SecurityLevel : option string;  (* json:"snmpv3_security_level,omitempty" *)
  SNMPv3Username : option string;       (* json:"snmpv3_username,omitempty" *)
  SNMPv3AuthProtocol : option string;   (* json:"snmpv3_auth_protocol,omitempty" *)
  SNMPv3AuthPassword : option string;   (* json:"snmpv3_auth_password,omitempty" *)
  SNMPv3PrivProtocol : option string;   (* json:"snmpv3_priv_protocol,omitempty" *)
  SNMPv3PrivPassword : option string;   (* json:"snmpv3_priv_password,omitempty" *)
  CheckIntervalSeconds : option Z;      (* json:"check_interval_seconds,omitempty" *)
  InsertedAt : string                   (* json:"inserted_at,omitempty" *)
}.

Definition zero : t :=
  {| ID := ""; SiteID := None; OrganizationID := None; Name := None; IPAddress := "";
     Description := None; MonitoringEnabled := None; SNMPEnabled := None;
     SNMPVersion := None; SNMPPort := None; SNMPv3SecurityLevel := None;
     SNMPv3Username := None; SNMPv3AuthProtocol := None; SNMPv3AuthPassword := None;
     SNMPv3PrivProtocol := None; SNMPv3PrivPassword := None;
     CheckIntervalSeconds := None; InsertedAt := "" |}.

Definition set_ID (v : string) (x : t) : t :=
  {| ID := v ; SiteID := SiteID x ; OrganizationID := OrganizationID x ; Name := Name x ; IPAddress := IPAddress x ; Description := Description x ; MonitoringEnabled := MonitoringEnabled x ; SNMPEnabled := SNMPEnabled x ; SNMPVersion := SNMPVersion x ; SNMPPort := SNMPPort x ; SNMPv3SecurityLevel := SNMPv3SecurityLevel x ; SNMPv3Username := SNMPv3Username x ; SNMPv3AuthProtocol := SNMPv3AuthProtocol x ; SNMPv3AuthPassword := SNMPv3AuthPassword x ; SNMPv3PrivProtocol := SNMPv3PrivProtocol x ; SNMPv3PrivPassword := SNMPv3PrivPassword x ; CheckIntervalSeconds := CheckIntervalSeconds x ; InsertedAt := InsertedAt x |}.
Definition set_SiteID (v : option string) (x : t) : t :=
  {| ID := ID x ; SiteID := v ; OrganizationID := OrganizationID x ; Name := Name x ; IPAddress := IPAddress x ; Description := Description x ; MonitoringEnabled := MonitoringEnabled x ; SNMPEnabled := SNMPEnabled x ; SNMPVersion := SNMPVersion x ; SNMPPort := SNMPPort x ; SNMPv3SecurityLevel := SNMPv3SecurityLevel x ; SNMPv3Username := SNMPv3Username x ; SNMPv3AuthProtocol := SNMPv3AuthProtocol x ; SNMPv3AuthPassword := SNMPv3AuthPassword x ; SNMPv3PrivProtocol := SNMPv3PrivProtocol x ; SNMPv3PrivPassword := SNMPv3PrivPassword x ; CheckIntervalSeconds := CheckIntervalSeconds x ; InsertedAt := InsertedAt x |}.
Definition set_OrganizationID (v : option string) (x : t) : t :=
  {| ID := ID x ; SiteID := SiteID x ; OrganizationID := v ; Name := Name x ; IPAddress := IPAddress x ; Description := Description x ; MonitoringEnabled := MonitoringEnabled x ; SNMPEnabled := SNMPEnabled x ; SNMPVersion := SNMPVersion x ; SNMPPort := SNMPPort x ; SNMPv3SecurityLevel := SNMPv3SecurityLevel x ; SNMPv3Username := SNMPv3Username x ; SNMPv3AuthProtocol := SNMPv3AuthProtocol x ; SNMPv3AuthPassword := SNMPv3AuthPassword x ; SNMPv3PrivProtocol := SNMPv3PrivProtocol x ; SNMPv3PrivPassword := SNMPv3PrivPassword x ; CheckIntervalSeconds := CheckIntervalSeconds x ; InsertedAt := InsertedAt x |}.
Definition set_Name (v : option string) (x : t) : t :=
  {| ID := ID x ; SiteID := SiteID x ; OrganizationID := OrganizationID x ; Name := v ; IPAddress := IPAddress x ; Description := Description x ; MonitoringEnabled := MonitoringEnabled x ; SNMPEnabled := SNMPEnabled x ; SNMPVersion := SNMPVersion x ; SNMPPort := SNMPPort x ; SNMPv3SecurityLevel := SNMPv3SecurityLevel x ; SNMPv3Username := SNMPv3Username x ; SNMPv3AuthProtocol := SNMPv3AuthProtocol x ; SNMPv3AuthPassword := SNMPv3AuthPassword x ; SNMPv3PrivProtocol := SNMPv3PrivProtocol x ; SNMPv3PrivPassword := SNMPv3PrivPassword x ; CheckIntervalSeconds := CheckIntervalSeconds x ; InsertedAt := InsertedAt x |}.
Definition set_IPAddress (v : string) (x : t) : t :=
  {| ID := ID x ; SiteID := SiteID x ; OrganizationID := OrganizationID x ; Name := Name x ; IPAddress := v ; Description := Description x ; MonitoringEnabled := MonitoringEnabled x ; SNMPEnabled := SNMPEnabled x ; SNMPVersion := SNMPVersion x ; SNMPPort := SNMPPort x ; SNMPv3SecurityLevel := SNMPv3SecurityLevel x ; SNMPv3Username := SNMPv3Username x ; SNMPv3AuthProtocol := SNMPv3AuthProtocol x ; SNMPv3AuthPassword := SNMPv3AuthPassword x ; SNMPv3PrivProtocol := SNMPv3PrivProtocol x ; SNMPv3PrivPassword := SNMPv3PrivPassword x ; CheckIntervalSeconds := CheckIntervalSeconds x ; InsertedAt := InsertedAt x |}.
Definition set_Description (v : option string) (x : t) : t :=
  {| ID := ID x ; SiteID := SiteID x ; OrganizationID := OrganizationID x ; Name := Name x ; IPAddress := IPAddress x ; Description := v ; MonitoringEnabled := MonitoringEnabled x ; SNMPEnabled := SNMPEnabled x ; SNMPVersion := SNMPVersion x ; SNMPPort := SNMPPort x ; SNMPv3SecurityLevel := SNMPv3SecurityLevel x ; SNMPv3Username := SNMPv3Username x ; SNMPv3AuthProtocol := SNMPv3AuthProtocol x ; SNMPv3AuthPassword := SNMPv3AuthPassword x ; SNMPv3PrivProtocol := SNMPv3PrivProtocol x ; SNMPv3PrivPassword := SNMPv3PrivPassword x ; CheckIntervalSeconds := CheckIntervalSeconds x ; InsertedAt := InsertedAt x |}.
Definition set_MonitoringEnabled (v : option bool) (x : t) : t :=
  {| ID := ID x ; SiteID := SiteID x ; OrganizationID := OrganizationID x ; Name := Name x ; IPAddress := IPAddress x ; Description := Description x ; MonitoringEnabled := v ; SNMPEnabled := SNMPEnabled x ; SNMPVersion := SNMPVersion x ; SNMPPort := SNMPPort x ; SNMPv3SecurityLevel := SNMPv3SecurityLevel x ; SNMPv3Username := SNMPv3Username x ; SNMPv3AuthProtocol := SNMPv3AuthProtocol x ; SNMPv3AuthPassword := SNMPv3AuthPassword x ; SNMPv3PrivProtocol := SNMPv3PrivProtocol x ; SNMPv3PrivPassword := SNMPv3PrivPassword x ; CheckIntervalSeconds := CheckIntervalSeconds x ; InsertedAt := InsertedAt x |}.
Definition set_SNMPEnabled (v : option bool) (x : t) : t :=
  {| ID := ID x ; SiteID := SiteID x ; OrganizationID := OrganizationID x ; Name := Name x ; IPAddress := IPAddress x ; Description := Description x ; MonitoringEnabled := MonitoringEnabled x ; SNMPEnabled := v ; SNMPVersion := SNMPVersion x ; SNMPPort := SNMPPort x ; SNMPv3SecurityLevel := SNMPv3SecurityLevel x ; SNMPv3Username := SNMPv3Username x ; SNMPv3AuthProtocol := SNMPv3AuthProtocol x ; SNMPv3AuthPassword := SNMPv3AuthPassword x ; SNMPv3PrivProtocol := SNMPv3PrivProtocol x ; SNMPv3PrivPassword := SNMPv3PrivPassword x ; CheckIntervalSeconds := CheckIntervalSeconds x ; InsertedAt := InsertedAt x |}.
Definition set_SNMPVersion (v : option string) (x : t) : t :=
  {| ID := ID x ; SiteID := SiteID x ; OrganizationID := OrganizationID x ; Name := Name x ; IPAddress := IPAddress x ; Description := Description x ; MonitoringEnabled := MonitoringEnabled x ; SNMPEnabled := SNMPEnabled x ; SNMPVersion := v ; SNMPPort := SNMPPort x ; SNMPv3SecurityLevel := SNMPv3SecurityLevel x ; SNMPv3Username := SNMPv3Username x ; SNMPv3AuthProtocol := SNMPv3AuthProtocol x ; SNMPv3AuthPassword := SNMPv3AuthPassword x ; SNMPv3PrivProtocol := SNMPv3PrivProtocol x ; SNMPv3PrivPassword := SNMPv3PrivPassword x ; CheckIntervalSeconds := CheckIntervalSeconds x ; InsertedAt := InsertedAt x |}.
Definition set_SNMPPort (v : option Z) (x : t) : t :=
  {| ID := ID x ; SiteID := SiteID x ; OrganizationID := OrganizationID x ; Name := Name x ; IPAddress := IPAddress x ; Description := Description x ; MonitoringEnabled := MonitoringEnabled x ; SNMPEnabled := SNMPEnabled x ; SNMPVersion := SNMPVersion x ; SNMPPort := v ; SNMPv3SecurityLevel := SNMPv3SecurityLevel x ; SNMPv3Username := SNMPv3Username x ; SNMPv3AuthProtocol := SNMPv3AuthProtocol x ; SNMPv3AuthPassword := SNMPv3AuthPassword x ; SNMPv3PrivProtocol := SNMPv3PrivProtocol x ; SNMPv3PrivPassword := SNMPv3PrivPassword x ; CheckIntervalSeconds := CheckIntervalSeconds x ; InsertedAt := InsertedAt x |}.
Definition set_SNMPv3SecurityLevel (v : option string) (x : t) : t :=
  {| ID := ID x ; SiteID := SiteID x ; OrganizationID := OrganizationID x ; Name := Name x ; IPAddress := IPAddress x ; Description := Description x ; MonitoringEnabled := MonitoringEnabled x ; SNMPEnabled := SNMPEnabled x ; SNMPVersion := SNMPVersion x ; SNMPPort := SNMPPort x ; SNMPv3SecurityLevel := v ; SNMPv3Username := SNMPv3Username x ; SNMPv3AuthProtocol := SNMPv3AuthProtocol x ; SNMPv3AuthPassword := SNMPv3AuthPassword x ; SNMPv3PrivProtocol := SNMPv3PrivProtocol x ; SNMPv3PrivPassword := SNMPv3PrivPassword x ; CheckIntervalSeconds := CheckIntervalSeconds x ; InsertedAt := InsertedAt x |}.
Definition set_SNMPv3Username (v : option string) (x : t) : t :=
  {| ID := ID x ; SiteID := SiteID x ; OrganizationID := OrganizationID x ; Name := Name x ; IPAddress := IPAddress x ; Description := Description x ; MonitoringEnabled := MonitoringEnabled x ; SNMPEnabled := SNMPEnabled x ; SNMPVersion := SNMPVersion x ; SNMPPort := SNMPPort x ; SNMPv3SecurityLevel := SNMPv3SecurityLevel x ; SNMPv3Username := v ; SNMPv3AuthProtocol := SNMPv3AuthProtocol x ; SNMPv3AuthPassword := SNMPv3AuthPassword x ; SNMPv3PrivProtocol := SNMPv3PrivProtocol x ; SNMPv3PrivPassword := SNMPv3PrivPassword x ; CheckIntervalSeconds := CheckIntervalSeconds x ; InsertedAt := InsertedAt x |}.
Definition set_SNMPv3AuthProtocol (v : option string) (x : t) : t :=
  {| ID := ID x ; SiteID := SiteID x ; OrganizationID := OrganizationID x ; Name := Name x ; IPAddress := IPAddress x ; Description := Description x ; MonitoringEnabled := MonitoringEnabled x ; SNMPEnabled := SNMPEnabled x ; SNMPVersion := SNMPVersion x ; SNMPPort := SNMPPort x ; SNMPv3SecurityLevel := SNMPv3SecurityLevel x ; SNMPv3Username := SNMPv3Username x ; SNMPv3AuthProtocol := v ; SNMPv3AuthPassword := SNMPv3AuthPassword x ; SNMPv3PrivProtocol := SNMPv3PrivProtocol x ; SNMPv3PrivPassword := SNMPv3PrivPassword x ; CheckIntervalSeconds := CheckIntervalSeconds x ; InsertedAt := InsertedAt x |}.
Definition set_SNMPv3AuthPassword (v : option string) (x : t) : t :=
  {| ID := ID x ; SiteID := SiteID x ; OrganizationID := OrganizationID x ; Name := Name x ; IPAddress := IPAddress x ; Description := Description x ; MonitoringEnabled := MonitoringEnabled x ; SNMPEnabled := SNMPEnabled x ; SNMPVersion := SNMPVersion x ; SNMPPort := SNMPPort x ; SNMPv3SecurityLevel := SNMPv3SecurityLevel x ; SNMPv3Username := SNMPv3Username x ; SNMPv3AuthProtocol := SNMPv3AuthProtocol x ; SNMPv3AuthPassword := v ; SNMPv3PrivProtocol := SNMPv3PrivProtocol x ; SNMPv3PrivPassword := SNMPv3PrivPassword x ; CheckIntervalSeconds := CheckIntervalSeconds x ; InsertedAt := InsertedAt x |}.
Definition set_SNMPv3PrivProtocol (v : option string) (x : t) : t :=
  {| ID := ID x ; SiteID := SiteID x ; OrganizationID := OrganizationID x ; Name := Name x ; IPAddress := IPAddress x ; Description := Description x ; MonitoringEnabled := MonitoringEnabled x ; SNMPEnabled := SNMPEnabled x ; SNMPVersion := SNMPVersion x ; SNMPPort := SNMPPort x ; SNMPv3SecurityLevel := SNMPv3SecurityLevel x ; SNMPv3Username := SNMPv3Username x ; SNMPv3AuthProtocol := SNMPv3AuthProtocol x ; SNMPv3AuthPassword := SNMPv3AuthPassword x ; SNMPv3PrivProtocol := v ; SNMPv3PrivPassword := SNMPv3PrivPassword x ; CheckIntervalSeconds := CheckIntervalSeconds x ; InsertedAt := InsertedAt x |}.
Definition set_SNMPv3PrivPassword (v : option string) (x : t) : t :=
  {| ID := ID x ; SiteID := SiteID x ; OrganizationID := OrganizationID x ; Name := Name x ; IPAddress := IPAddress x ; Description := Description x ; MonitoringEnabled := MonitoringEnabled x ; SNMPEnabled := SNMPEnabled x ; SNMPVersion := SNMPVersion x ; SNMPPort := SNMPPort x ; SNMPv3SecurityLevel := SNMPv3SecurityLevel x ; SNMPv3Username := SNMPv3Username x ; SNMPv3AuthProtocol := SNMPv3AuthProtocol x ; SNMPv3AuthPassword := SNMPv3AuthPassword x ; SNMPv3PrivProtocol := SNMPv3PrivProtocol x ; SNMPv3PrivPassword := v ; CheckIntervalSeconds := CheckIntervalSeconds x ; InsertedAt := InsertedAt x |}.
Definition set_CheckIntervalSeconds (v : option Z) (x : t) : t :=
  {| ID := ID x ; SiteID := SiteID x ; OrganizationID := OrganizationID x ; Name := Name x ; IPAddress := IPAddress x ; Description := Description x ; MonitoringEnabled := MonitoringEnabled x ; SNMPEnabled := SNMPEnabled x ; SNMPVersion := SNMPVersion x ; SNMPPort := SNMPPort x ; SNMPv3SecurityLevel := SNMPv3SecurityLevel x ; SNMPv3Username := SNMPv3Username x ; SNMPv3AuthProtocol := SNMPv3AuthProtocol x ; SNMPv3AuthPassword := SNMPv3AuthPassword x ; SNMPv3PrivProtocol := SNMPv3PrivProtocol x ; SNMPv3PrivPassword := SNMPv3PrivPassword x ; CheckIntervalSeconds := v ; InsertedAt := InsertedAt x |}.
Definition set_InsertedAt (v : string) (x : t) : t :=
  {| ID := ID x ; SiteID := SiteID x ; OrganizationID := OrganizationID x ; Name := Name x ; IPAddress := IPAddress x ; Description := Description x ; MonitoringEnabled := MonitoringEnabled x ; SNMPEnabled := SNMPEnabled x ; SNMPVersion := SNMPVersion x ; SNMPPort := SNMPPort x ; SNMPv3SecurityLevel := SNMPv3SecurityLevel x ; SNMPv3Username := SNMPv3Username x ; SNMPv3AuthProtocol := SNMPv3AuthProtocol x ; SNMPv3AuthPassword := SNMPv3AuthPassword x ; SNMPv3PrivProtocol := SNMPv3PrivProtocol x ; SNMPv3PrivPassword := SNMPv3PrivPassword x ; CheckIntervalSeconds := CheckIntervalSeconds x ; InsertedAt := v |}.

Import encoding_json.

Definition Marshal (d : t) : json :=
  JObject (omitempty_string "id" (ID d)
           ++ omitempty_ptr "site_id" JString (SiteID d)
           ++ omitempty_ptr "organization_id" JString (OrganizationID d)
           ++ omitempty_ptr "name" JString (Name d)
           ++ [("ip_address", JString (IPAddress d))]
           ++ omitempty_ptr "description" JString (Description d)
           ++ omitempty_ptr "monitoring_enabled" JBool (MonitoringEnabled d)
           ++ omitempty_ptr "snmp_enabled" JBool (SNMPEnabled d)
           ++ omitempty_ptr "snmp_version" JString (SNMPVersion d)
           ++ omitempty_ptr "snmp_port" JNumber (SNMPPort d)
           ++ omitempty_ptr "snmpv3_security_level" JString (SNMPv3SecurityLevel d)
           ++ omitempty_ptr "snmpv3_username" JString (SNMPv3Username d)
           ++ omitempty_ptr "snmpv3_auth_protocol" JString (SNMPv3AuthProtocol d)
           ++ omitempty_ptr "snmpv3_auth_password" JString (SNMPv3AuthPassword d)
           ++ omitempty_ptr "snmpv3_priv_protocol" JString (SNMPv3PrivProtocol d)
           ++ omitempty_ptr "snmpv3_priv_password" JString (SNMPv3PrivPassword d)
           ++ omitempty_ptr "check_interval_seconds" JNumber (CheckIntervalSeconds d)
           ++ omitempty_string "inserted_at" (InsertedAt d)).

Definition decode_member (d : t) (key : string) (v : json) : option t :=
  if (key =? "id")%string then option_map (fun x => set_ID x d) (into_string v (ID d))
  else if (key =? "site_id")%string then option_map (fun x => set_SiteID x d) (into_string_ptr v)
  else if (key =? "organization_id")%string then option_map (fun x => set_OrganizationID x d) (into_string_ptr v)
  else if (key =? "name")%string then option_map (fun x => set_Name x d) (into_string_ptr v)
  else if (key =? "ip_address")%string then option_map (fun x => set_IPAddress x d) (into_string v (IPAddress d))
  else if (key =? "description")%string then option_map (fun x => set_Description x d) (into_string_ptr v)
  else if (key =? "monitoring_enabled")%string then option_map (fun x => set_MonitoringEnabled x d) (into_bool_ptr v)
  else if (key =? "snmp_enabled")%string then option_map (fun x => set_SNMPEnabled x d) (into_bool_ptr v)
  else if (key =? "snmp_version")%string then option_map (fun x => set_SNMPVersion x d) (into_string_ptr v)
  else if (key =? "snmp_port")%string then option_map (fun x => set_SNMPPort x d) (into_int_ptr v)
  else if (key =? "snmpv3_security_level")%string then option_map (fun x => set_SNMPv3SecurityLevel x d) (into_string_ptr v)
  else if (key =? "snmpv3_username")%string then option_map (fun x => set_SNMPv3Username x d) (into_string_ptr v)
  else if (key =? "snmpv3_auth_protocol")%string then option_map (fun x => set_SNMPv3AuthProtocol x d) (into_string_ptr v)
  else if (key =? "snmpv3_auth_password")%string then option_map (fun x => set_SNMPv3AuthPassword x d) (into_string_ptr v)
  else if (key =? "snmpv3_priv_protocol")%string then option_map (fun x => set_SNMPv3PrivProtocol x d) (into_string_ptr v)
  else if (key =? "snmpv3_priv_password")%string then option_map (fun x => set_SNMPv3PrivPassword x d) (into_string_ptr v)
  else if (key =? "check_interval_seconds")%string then option_map (fun x => set_CheckIntervalSeconds x d) (into_int_ptr v)
  else if (key =? "inserted_at")%string then option_map (fun x => set_InsertedAt x d) (into_string v (InsertedAt d))
  else Some d.

Definition Unmarshal (body : bytes) : option t :=
  encoding_json.Unmarshal zero decode_member body.

End Device.

(** [type APIError struct]: [Error string] and [Errors map[string]string]. *)
Module APIError.

Record t : Type := mk {
  Error : string;                    (* json:"error,omitempty" *)
  Errors : list (string * string)    (* json:"errors,omitempty" *)
}.

Definition zero : t := {| Error := ""; Errors := [] |}.

(** Storing a key in the [Errors] map (a later value replaces an earlier one). *)
Fixpoint store (k v : string) (m : list (string * string)) : list (string * string) :=
  match m with
  | [] => [(k, v)]
  | (k', v') :: rest => if (k' =? k)%string then (k, v) :: rest else (k', v') :: store k v rest
  end.

(** Decoding into [map[string]string]: every member must be a string or
    [null] (which stores the empty string). *)
Fixpoint into_map (ms : list (string * json)) (acc : list (string * string))
  : option (list (string * string)) :=
  match ms with
  | [] => Some acc
  | (k, JString s) :: rest => into_map rest (store k s acc)
  | (k, JNull) :: rest => into_map rest (store k "" acc)
  | _ => None
  end.

Definition decode_member (e : t) (key : string) (v : json) : option t :=
  if (key =? "error")%string then
    option_map (fun x => {| Error := x; Errors := Errors e |})
               (encoding_json.into_string v (Error e))
  else if (key =? "errors")%string then
    match v with
    | JObject ms => option_map (fun m => {| Error := Error e; Errors := m |}) (into_map ms (Errors e))
    | JNull => Some {| Error := Error e; Errors := [] |}
    | _ => None
    end
  else Some e.

Definition Unmarshal (body : bytes) : option t :=
  encoding_json.Unmarshal zero decode_member body.

End APIError.

(** ** Errors of the client

    One constructor per error value [client.go] can return; the comment gives
    the text it formats.  (Marshalling a request body cannot fail for the
    payload types, so that branch of [doRequest] has no constructor.) *)
Inductive error : Type :=
| ErrNotFound                                   (* "resource not found" *)
| ErrCreateRequest                              (* "failed to create request: %w" *)
| ErrRequestFailed (cause : string)             (* "request failed: %w" *)
| ErrReadBody (cause : string)                  (* "failed to read response body: %w" *)
| ErrAPI (status : Z) (message : string)        (* "API error (%d): %s" with apiErr.Error *)
| ErrAPIValidation (status : Z) (errs : list (string * string))
                                                (* "API validation error (%d): %v" *)
| ErrAPIBody (status : Z) (body : bytes)        (* "API error (%d): %s" with the raw body *)
| ErrUnmarshal.                                 (* "failed to unmarshal response: %w" *)

(** [errors.Is(err, ErrNotFound)]: no other error wraps [ErrNotFound]. *)
Definition errors_Is_ErrNotFound (err : error) : bool :=
  match err with ErrNotFound => true | _ => false end.

(** A Go result pair [(value, err)] with exactly one side set. *)
Inductive Result (A : Type) : Type :=
| Ok (a : A)
| Err (err : error).
Arguments Ok {A} a.
Arguments Err {A} err.

(** ** The HTTP side: [net/http] as far as the client uses it *)
Module http.

Definition MethodGet : string := "GET".
Definition MethodPost : string := "POST".
Definition MethodPatch : string := "PATCH".
Definition MethodDelete : string := "DELETE".
Definition StatusNotFound : Z := 404.

Record Request : Type := {
  Method : string;
  URL : string;
  Header : list (string * string);
  Body : option json
}.

(** What [HTTPClient.Do] followed by [io.ReadAll] gives: the exchange failed,
    reading the body failed, or a status code and the body's bytes. *)
Inductive Outcome : Type :=
| DoError (cause : string)
| ReadError (cause : string)
| Response (StatusCode : Z) (respBody : bytes).

(** The remote system with its transport, as a deterministic machine over a
    state [S]: whether [http.NewRequest] accepts a method and URL, and the
    round trip of a request. *)
Record Client (S : Type) : Type := {
  NewRequest_ok : string -> string -> bool;
  Do : Request -> S -> Outcome * S
}.
Arguments NewRequest_ok {S} _ _ _.
Arguments Do {S} _ _ _.

End http.

(** ** Running against the remote system

    A computation threads the remote state and the list of calls handed to
    [doRequest] so far (method, path and body), oldest first. *)
Record call : Type := Call {
  call_method : string;
  call_path : string;
  call_body : option json
}.

Record World (S : Type) : Type := {
  remote : S;
  calls : list call
}.
Arguments remote {S} _.
Arguments calls {S} _.

Definition M (S A : Type) : Type := World S -> A * World S.

Definition ret {S A} (a : A) : M S A := fun w => (a, w).

Definition bind {S A B} (m : M S A) (k : A -> M S B) : M S B :=
  fun w => let (a, w') := m w in k a w'.

Notation "x <- m ;; k" := (bind m (fun x => k))
  (at level 61, m at next level, right associativity).

Definition record_call {S} (c : call) : M S unit :=
  fun w => (tt, {| remote := remote w; calls := calls w ++ [c] |}).

Definition round_trip {S} (h : http.Client S) (req : http.Request) : M S http.Outcome :=
  fun w => let (out, s) := http.Do h req (remote w) in
           (out, {| remote := s; calls := calls w |}).

(** ** The API client ([client.go]) *)
Module Client.
Section WithRemote.
Context {S : Type}.

Record t : Type := {
  BaseURL : string;
  Token : string;
  HTTPClient : http.Client S
}.

Definition defaultBaseURL : string := "https://towerops.net".

Definition NewClient (token baseURL : string) (h : http.Client S) : t :=
  {| BaseURL := if (baseURL =? "")%string then defaultBaseURL else baseURL;
     Token := token;
     HTTPClient := h |}.

(** [doRequest]: [body] is the request body already marshalled ([None] for a
    nil body). *)
Definition doRequest (c : t) (method path : string) (body : option json)
  : M S (Result bytes) :=
  _ <- record_call (Call method path body) ;;
  if negb (http.NewRequest_ok (HTTPClient c) method (BaseURL c ++ path)) then
    ret (Err ErrCreateRequest)
  else
    let req := {| http.Method := method;
                  http.URL := BaseURL c ++ path;
                  http.Header := [("Authorization", "Bearer " ++ Token c);
                                  ("Content-Type", "application/json");
                                  ("Accept", "application/json")];
                  http.Body := body |} in
    resp <- round_trip (HTTPClient c) req ;;
    match resp with
    | http.DoError cause => ret (Err (ErrRequestFailed cause))
    | http.ReadError cause => ret (Err (ErrReadBody cause))
    | http.Response StatusCode respBody =>
        if StatusCode >=? 400 then
          if StatusCode =? http.StatusNotFound then ret (Err ErrNotFound)
          else
            match APIError.Unmarshal respBody with
            | Some apiErr =>
                if negb (APIError.Error apiErr =? "")%string then
                  ret (Err (ErrAPI StatusCode (APIError.Error apiErr)))
                else if (0 <? length (APIError.Errors apiErr))%nat then
                  ret (Err (ErrAPIValidation StatusCode (APIError.Errors apiErr)))
                else ret (Err (ErrAPIBody StatusCode respBody))
            | None => ret (Err (ErrAPIBody StatusCode respBody))
            end
        else ret (Ok respBody)
    end.

(** [map[string]Site{"site": site}] and [map[string]Device{"device": device}]
    marshal to an object with that one member. *)
Definition site_body (site : Site.t) : json := JObject [("site", Site.Marshal site)].
Definition device_body (device : Device.t) : json := JObject [("device", Device.Marshal device)].

Definition decode {A} (unmarshal : bytes -> option A) (r : Result bytes) : Result A :=
  match r with
  | Err err => Err err
  | Ok respBody =>
      match unmarshal respBody with
      | Some result => Ok result
      | None => Err ErrUnmarshal
      end
  end.

Definition only_error {A} (r : Result A) : option error :=
  match r with Err err => Some err | Ok _ => None end.

Definition CreateSite (c : t) (site : Site.t) : M S (Result Site.t) :=
  r <- doRequest c http.MethodPost "/api/v1/sites" (Some (site_body site)) ;;
  ret (decode Site.Unmarshal r).

Definition GetSite (c : t) (id : string) : M S (Result Site.t) :=
  r <- doRequest c http.MethodGet ("/api/v1/sites/" ++ id) None ;;
  ret (decode Site.Unmarshal r).

Definition UpdateSite (c : t) (id : string) (site : Site.t) : M S (Result Site.t) :=
  r <- doRequest c http.MethodPatch ("/api/v1/sites/" ++ id) (Some (site_body site)) ;;
  ret (decode Site.Unmarshal r).

Definition DeleteSite (c : t) (id : string) : M S (option error) :=
  r <- doRequest c http.MethodDelete ("/api/v1/sites/" ++ id) None ;;
  ret (only_error r).

Definition CreateDevice (c : t) (device : Device.t) : M S (Result Device.t) :=
  r <- doRequest c http.MethodPost "/api/v1/devices" (Some (device_body device)) ;;
  ret (decode Device.Unmarshal r).

Definition GetDevice (c : t) (id : string) : M S (Result Device.t) :=
  r <- doRequest c http.MethodGet ("/api/v1/devices/" ++ id) None ;;
  ret (decode Device.Unmarshal r).

Definition UpdateDevice (c : t) (id : string) (device : Device.t) : M S (Result Device.t) :=
  r <- doRequest c http.MethodPatch ("/api/v1/devices/" ++ id) (Some (device_body device)) ;;
  ret (decode Device.Unmarshal r).

Definition DeleteDevice (c : t) (id : string) : M S (option error) :=
  r <- doRequest c http.MethodDelete ("/api/v1/devices/" ++ id) None ;;
  ret (only_error r).

End WithRemote.
Arguments t S : clear implicits.
End Client.

(** ** Resource data models *)

(** [type SiteResourceModel struct] ([site_resource.go]). *)
Module SiteResourceModel.

Record t : Type := mk {
  ID : types.String;             (* tfsdk:"id" *)
  Name : types.String;           (* tfsdk:"name" *)
  Location : types.String;       (* tfsdk:"location" *)
  SNMPCommunity : types.String;  (* tfsdk:"snmp_community" *)
  InsertedAt : types.String      (* tfsdk:"inserted_at" *)
}.

Definition set_ID (v : types.String) (x : t) : t :=
  {| ID := v ; Name := Name x ; Location := Location x ; SNMPCommunity := SNMPCommunity x ; InsertedAt := InsertedAt x |}.
Definition set_Name (v : types.String) (x : t) : t :=
  {| ID := ID x ; Name := v ; Location := Location x ; SNMPCommunity := SNMPCommunity x ; InsertedAt := InsertedAt x |}.
Definition set_Location (v : types.String) (x : t) : t :=
  {| ID := ID x ; Name := Name x ; Location := v ; SNMPCommunity := SNMPCommunity x ; InsertedAt := InsertedAt x |}.
Definition set_SNMPCommunity (v : types.String) (x : t) : t :=
  {| ID := ID x ; Name := Name x ; Location := Location x ; SNMPCommunity := v ; InsertedAt := InsertedAt x |}.
Definition set_InsertedAt (v : types.String) (x : t) : t :=
  {| ID := ID x ; Name := Name x ; Location := Location x ; SNMPCommunity := SNMPCommunity x ; InsertedAt := v |}.

End SiteResourceModel.

(** [type DeviceResourceModel struct] ([device_resource.go], lines 28-46). *)
Module DeviceResourceModel.

Record t : Type := mk {
  ID : types.String;                   (* tfsdk:"id" *)
  SiteID : types.String;               (* tfsdk:"site_id" *)
  OrganizationID : types.String;       (* tfsdk:"organization_id" *)
  Name : types.String;                 (* tfsdk:"name" *)
  IPAddress : types.String;            (* tfsdk:"ip_address" *)
  Description : types.String;          (* tfsdk:"description" *)
  MonitoringEnabled : types.Bool;      (* tfsdk:"monitoring_enabled" *)
  SNMPEnabled : types.Bool;            (* tfsdk:"snmp_enabled" *)
  SNMPVersion : types.String;          (* tfsdk:"snmp_version" *)
  SNMPPort : types.Int64;              (* tfsdk:"snmp_port" *)
  SNMPv3SecurityLevel : types.String;  (* tfsdk:"snmpv3_security_level" *)
  SNMPv3Username : types.String;       (* tfsdk:"snmpv3_username" *)
  SNMPv3AuthProtocol : types.String;   (* tfsdk:"snmpv3_auth_protocol" *)
  SNMPv3AuthPassword : types.String;   (* tfsdk:"snmpv3_auth_password" *)
  SNMPv3PrivProtocol : types.String;   (* tfsdk:"snmpv3_priv_protocol" *)
  SNMPv3PrivPassword : types.String;   (* tfsdk:"snmpv3_priv_password" *)
  InsertedAt : types.String            (* tfsdk:"inserted_at" *)
}.

Definition set_ID (v : types.String) (x : t) : t :=
  {| ID := v ; SiteID := SiteID x ; OrganizationID := OrganizationID x ; Name := Name x ; IPAddress := IPAddress x ; Description := Description x ; MonitoringEnabled := MonitoringEnabled x ; SNMPEnabled := SNMPEnabled x ; SNMPVersion := SNMPVersion x ; SNMPPort := SNMPPort x ; SNMPv3SecurityLevel := SNMPv3SecurityLevel x ; SNMPv3Username := SNMPv3Username x ; SNMPv3AuthProtocol := SNMPv3AuthProtocol x ; SNMPv3AuthPassword := SNMPv3AuthPassword x ; SNMPv3PrivProtocol := SNMPv3PrivProtocol x ; SNMPv3PrivPassword := SNMPv3PrivPassword x ; InsertedAt := InsertedAt x |}.
Definition set_SiteID (v : types.String) (x : t) : t :=
  {| ID := ID x ; SiteID := v ; OrganizationID := OrganizationID x ; Name := Name x ; IPAddress := IPAddress x ; Description := Description x ; MonitoringEnabled := MonitoringEnabled x ; SNMPEnabled := SNMPEnabled x ; SNMPVersion := SNMPVersion x ; SNMPPort := SNMPPort x ; SNMPv3SecurityLevel := SNMPv3SecurityLevel x ; SNMPv3Username := SNMPv3Username x ; SNMPv3AuthProtocol := SNMPv3AuthProtocol x ; SNMPv3AuthPassword := SNMPv3AuthPassword x ; SNMPv3PrivProtocol := SNMPv3PrivProtocol x ; SNMPv3PrivPassword := SNMPv3PrivPassword x ; InsertedAt := InsertedAt x |}.
Definition set_OrganizationID (v : types.String) (x : t) : t :=
  {| ID := ID x ; SiteID := SiteID x ; OrganizationID := v ; Name := Name x ; IPAddress := IPAddress x ; Description := Description x ; MonitoringEnabled := MonitoringEnabled x ; SNMPEnabled := SNMPEnabled x ; SNMPVersion := SNMPVersion x ; SNMPPort := SNMPPort x ; SNMPv3SecurityLevel := SNMPv3SecurityLevel x ; SNMPv3Username := SNMPv3Username x ; SNMPv3AuthProtocol := SNMPv3AuthProtocol x ; SNMPv3AuthPassword := SNMPv3AuthPassword x ; SNMPv3PrivProtocol := SNMPv3PrivProtocol x ; SNMPv3PrivPassword := SNMPv3PrivPassword x ; InsertedAt := InsertedAt x |}.
Definition set_Name (v : types.String) (x : t) : t :=
  {| ID := ID x ; SiteID := SiteID x ; OrganizationID := OrganizationID x ; Name := v ; IPAddress := IPAddress x ; Description := Description x ; MonitoringEnabled := MonitoringEnabled x ; SNMPEnabled := SNMPEnabled x ; SNMPVersion := SNMPVersion x ; SNMPPort := SNMPPort x ; SNMPv3SecurityLevel := SNMPv3SecurityLevel x ; SNMPv3Username := SNMPv3Username x ; SNMPv3AuthProtocol := SNMPv3AuthProtocol x ; SNMPv3AuthPassword := SNMPv3AuthPassword x ; SNMPv3PrivProtocol := SNMPv3PrivProtocol x ; SNMPv3PrivPassword := SNMPv3PrivPassword x ; InsertedAt := InsertedAt x |}.
Definition set_IPAddress (v : types.String) (x : t) : t :=
  {| ID := ID x ; SiteID := SiteID x ; OrganizationID := OrganizationID x ; Name := Name x ; IPAddress := v ; Description := Description x ; MonitoringEnabled := MonitoringEnabled x ; SNMPEnabled := SNMPEnabled x ; SNMPVersion := SNMPVersion x ; SNMPPort := SNMPPort x ; SNMPv3SecurityLevel := SNMPv3SecurityLevel x ; SNMPv3Username := SNMPv3Username x ; SNMPv3AuthProtocol := SNMPv3AuthProtocol x ; SNMPv3AuthPassword := SNMPv3AuthPassword x ; SNMPv3PrivProtocol := SNMPv3PrivProtocol x ; SNMPv3PrivPassword := SNMPv3PrivPassword x ; InsertedAt := InsertedAt x |}.
Definition set_Description (v : types.String) (x : t) : t :=
  {| ID := ID x ; SiteID := SiteID x ; OrganizationID := OrganizationID x ; Name := Name x ; IPAddress := IPAddress x ; Description := v ; MonitoringEnabled := MonitoringEnabled x ; SNMPEnabled := SNMPEnabled x ; SNMPVersion := SNMPVersion x ; SNMPPort := SNMPPort x ; SNMPv3SecurityLevel := SNMPv3SecurityLevel x ; SNMPv3Username := SNMPv3Username x ; SNMPv3AuthProtocol := SNMPv3AuthProtocol x ; SNMPv3AuthPassword := SNMPv3AuthPassword x ; SNMPv3PrivProtocol := SNMPv3PrivProtocol x ; SNMPv3PrivPassword := SNMPv3PrivPassword x ; InsertedAt := InsertedAt x |}.
Definition set_MonitoringEnabled (v : types.Bool) (x : t) : t :=
  {| ID := ID x ; SiteID := SiteID x ; OrganizationID := OrganizationID x ; Name := Name x ; IPAddress := IPAddress x ; Description := Description x ; MonitoringEnabled := v ; SNMPEnabled := SNMPEnabled x ; SNMPVersion := SNMPVersion x ; SNMPPort := SNMPPort x ; SNMPv3SecurityLevel := SNMPv3SecurityLevel x ; SNMPv3Username := SNMPv3Username x ; SNMPv3AuthProtocol := SNMPv3AuthProtocol x ; SNMPv3AuthPassword := SNMPv3AuthPassword x ; SNMPv3PrivProtocol := SNMPv3PrivProtocol x ; SNMPv3PrivPassword := SNMPv3PrivPassword x ; InsertedAt := InsertedAt x |}.
Definition set_SNMPEnabled (v : types.Bool) (x : t) : t :=
  {| ID := ID x ; SiteID := SiteID x ; OrganizationID := OrganizationID x ; Name := Name x ; IPAddress := IPAddress x ; Description := Description x ; MonitoringEnabled := MonitoringEnabled x ; SNMPEnabled := v ; SNMPVersion := SNMPVersion x ; SNMPPort := SNMPPort x ; SNMPv3SecurityLevel := SNMPv3SecurityLevel x ; SNMPv3Username := SNMPv3Username x ; SNMPv3AuthProtocol := SNMPv3AuthProtocol x ; SNMPv3AuthPassword := SNMPv3AuthPassword x ; SNMPv3PrivProtocol := SNMPv3PrivProtocol x ; SNMPv3PrivPassword := SNMPv3PrivPassword x ; InsertedAt := InsertedAt x |}.
Definition set_SNMPVersion (v : types.String) (x : t) : t :=
  {| ID := ID x ; SiteID := SiteID x ; OrganizationID := OrganizationID x ; Name := Name x ; IPAddress := IPAddress x ; Description := Description x ; MonitoringEnabled := MonitoringEnabled x ; SNMPEnabled := SNMPEnabled x ; SNMPVersion := v ; SNMPPort := SNMPPort x ; SNMPv3SecurityLevel := SNMPv3SecurityLevel x ; SNMPv3Username := SNMPv3Username x ; SNMPv3AuthProtocol := SNMPv3AuthProtocol x ; SNMPv3AuthPassword := SNMPv3AuthPassword x ; SNMPv3PrivProtocol := SNMPv3PrivProtocol x ; SNMPv3PrivPassword := SNMPv3PrivPassword x ; InsertedAt := InsertedAt x |}.
Definition set_SNMPPort (v : types.Int64) (x : t) : t :=
  {| ID := ID x ; SiteID := SiteID x ; OrganizationID := OrganizationID x ; Name := Name x ; IPAddress := IPAddress x ; Description := Description x ; MonitoringEnabled := MonitoringEnabled x ; SNMPEnabled := SNMPEnabled x ; SNMPVersion := SNMPVersion x ; SNMPPort := v ; SNMPv3SecurityLevel := SNMPv3SecurityLevel x ; SNMPv3Username := SNMPv3Username x ; SNMPv3AuthProtocol := SNMPv3AuthProtocol x ; SNMPv3AuthPassword := SNMPv3AuthPassword x ; SNMPv3PrivProtocol := SNMPv3PrivProtocol x ; SNMPv3PrivPassword := SNMPv3PrivPassword x ; InsertedAt := InsertedAt x |}.
Definition set_SNMPv3SecurityLevel (v : types.String) (x : t) : t :=
  {| ID := ID x ; SiteID := SiteID x ; OrganizationID := OrganizationID x ; Name := Name x ; IPAddress := IPAddress x ; Description := Description x ; MonitoringEnabled := MonitoringEnabled x ; SNMPEnabled := SNMPEnabled x ; SNMPVersion := SNMPVersion x ; SNMPPort := SNMPPort x ; SNMPv3SecurityLevel := v ; SNMPv3Username := SNMPv3Username x ; SNMPv3AuthProtocol := SNMPv3AuthProtocol x ; SNMPv3AuthPassword := SNMPv3AuthPassword x ; SNMPv3PrivProtocol := SNMPv3PrivProtocol x ; SNMPv3PrivPassword := SNMPv3PrivPassword x ; InsertedAt := InsertedAt x |}.
Definition set_SNMPv3Username (v : types.String) (x : t) : t :=
  {| ID := ID x ; SiteID := SiteID x ; OrganizationID := OrganizationID x ; Name := Name x ; IPAddress := IPAddress x ; Description := Description x ; MonitoringEnabled := MonitoringEnabled x ; SNMPEnabled := SNMPEnabled x ; SNMPVersion := SNMPVersion x ; SNMPPort := SNMPPort x ; SNMPv3SecurityLevel := SNMPv3SecurityLevel x ; SNMPv3Username := v ; SNMPv3AuthProtocol := SNMPv3AuthProtocol x ; SNMPv3AuthPassword := SNMPv3AuthPassword x ; SNMPv3PrivProtocol := SNMPv3PrivProtocol x ; SNMPv3PrivPassword := SNMPv3PrivPassword x ; InsertedAt := InsertedAt x |}.
Definition set_SNMPv3AuthProtocol (v : types.String) (x : t) : t :=
  {| ID := ID x ; SiteID := SiteID x ; OrganizationID := OrganizationID x ; Name := Name x ; IPAddress := IPAddress x ; Description := Description x ; MonitoringEnabled := MonitoringEnabled x ; SNMPEnabled := SNMPEnabled x ; SNMPVersion := SNMPVersion x ; SNMPPort := SNMPPort x ; SNMPv3SecurityLevel := SNMPv3SecurityLevel x ; SNMPv3Username := SNMPv3Username x ; SNMPv3AuthProtocol := v ; SNMPv3AuthPassword := SNMPv3AuthPassword x ; SNMPv3PrivProtocol := SNMPv3PrivProtocol x ; SNMPv3PrivPassword := SNMPv3PrivPassword x ; InsertedAt := InsertedAt x |}.
Definition set_SNMPv3AuthPassword (v : types.String) (x : t) : t :=
  {| ID := ID x ; SiteID := SiteID x ; OrganizationID := OrganizationID x ; Name := Name x ; IPAddress := IPAddress x ; Description := Description x ; MonitoringEnabled := MonitoringEnabled x ; SNMPEnabled := SNMPEnabled x ; SNMPVersion := SNMPVersion x ; SNMPPort := SNMPPort x ; SNMPv3SecurityLevel := SNMPv3SecurityLevel x ; SNMPv3Username := SNMPv3Username x ; SNMPv3AuthProtocol := SNMPv3AuthProtocol x ; SNMPv3AuthPassword := v ; SNMPv3PrivProtocol := SNMPv3PrivProtocol x ; SNMPv3PrivPassword := SNMPv3PrivPassword x ; InsertedAt := InsertedAt x |}.
Definition set_SNMPv3PrivProtocol (v : types.String) (x : t) : t :=
  {| ID := ID x ; SiteID := SiteID x ; OrganizationID := OrganizationID x ; Name := Name x ; IPAddress := IPAddress x ; Description := Description x ; MonitoringEnabled := MonitoringEnabled x ; SNMPEnabled := SNMPEnabled x ; SNMPVersion := SNMPVersion x ; SNMPPort := SNMPPort x ; SNMPv3SecurityLevel := SNMPv3SecurityLevel x ; SNMPv3Username := SNMPv3Username x ; SNMPv3AuthProtocol := SNMPv3AuthProtocol x ; SNMPv3AuthPassword := SNMPv3AuthPassword x ; SNMPv3PrivProtocol := v ; SNMPv3PrivPassword := SNMPv3PrivPassword x ; InsertedAt := InsertedAt x |}.
Definition set_SNMPv3PrivPassword (v : types.String) (x : t) : t :=
  {| ID := ID x ; SiteID := SiteID x ; OrganizationID := OrganizationID x ; Name := Name x ; IPAddress := IPAddress x ; Description := Description x ; MonitoringEnabled := MonitoringEnabled x ; SNMPEnabled := SNMPEnabled x ; SNMPVersion := SNMPVersion x ; SNMPPort := SNMPPort x ; SNMPv3SecurityLevel := SNMPv3SecurityLevel x ; SNMPv3Username := SNMPv3Username x ; SNMPv3AuthProtocol := SNMPv3AuthProtocol x ; SNMPv3AuthPassword := SNMPv3AuthPassword x ; SNMPv3PrivProtocol := SNMPv3PrivProtocol x ; SNMPv3PrivPassword := v ; InsertedAt := InsertedAt x |}.
Definition set_InsertedAt (v : types.String) (x : t) : t :=
  {| ID := ID x ; SiteID := SiteID x ; OrganizationID := OrganizationID x ; Name := Name x ; IPAddress := IPAddress x ; Description := Description x ; MonitoringEnabled := MonitoringEnabled x ; SNMPEnabled := SNMPEnabled x ; SNMPVersion := SNMPVersion x ; SNMPPort := SNMPPort x ; SNMPv3SecurityLevel := SNMPv3SecurityLevel x ; SNMPv3Username := SNMPv3Username x ; SNMPv3AuthProtocol := SNMPv3AuthProtocol x ; SNMPv3AuthPassword := SNMPv3AuthPassword x ; SNMPv3PrivProtocol := SNMPv3PrivProtocol x ; SNMPv3PrivPassword := SNMPv3PrivPassword x ; InsertedAt := v |}.

End DeviceResourceModel.

(** ** Diagnostics and handler responses *)

(** [resp.Diagnostics.AddError(summary, err.Error())]: the detail is kept as
    the error value whose text it is. *)
Record Diagnostic : Type := AddError {
  Summary : string;
  Detail : error
}.

(** What a handler did to [resp.State]: nothing, [State.Set(ctx, &data)], or
    [State.RemoveResource(ctx)]. *)
Inductive StateWrite (T : Type) : Type :=
| Untouched
| Written (data : T)
| Removed.
Arguments Untouched {T}.
Arguments Written {T} data.
Arguments Removed {T}.

Record Response (T : Type) : Type := {
  Diagnostics : list Diagnostic;
  State : StateWrite T
}.
Arguments Diagnostics {T} _.
Arguments State {T} _.

Definition HasError {T} (resp : Response T) : bool :=
  match Diagnostics resp with [] => false | _ :: _ => true end.

(** The Go idioms of the handlers, each on one field.

    [unless_null get v]: [if !v.IsNull() { x := get(v); device.F = &x }] on a
    field that is nil before.
    [ptr_or_null p]: [if p != nil { data.F = Value( *p) } else { data.F = Null() }].
    [ptr_or_keep p old]: [if p != nil { data.F = Value( *p) }] with no else. *)
Definition unless_null {A B} (get : types.Value A -> B) (v : types.Value A) : option B :=
  if negb (types.IsNull v) then Some (get v) else None.

Definition ptr_or_null {A} (p : option A) : types.Value A :=
  match p with Some a => types.Known a | None => types.Null end.

Definition ptr_or_keep {A} (p : option A) (old : types.Value A) : types.Value A :=
  match p with Some a => types.Known a | None => old end.

(** ** The plugin framework's schema vocabulary *)
Module schema.

Inductive planmodifier : Type :=
| UseStateForUnknown
| RequiresReplace.

Definition planmodifier_eqb (a b : planmodifier) : bool :=
  match a, b with
  | UseStateForUnknown, UseStateForUnknown => true
  | RequiresReplace, RequiresReplace => true
  | _, _ => false
  end.

(** A [schema.StringAttribute], [BoolAttribute] or [Int64Attribute]; fields an
    attribute does not mention are false, absent or empty.  (No attribute of
    either resource declares validators.) *)
Record Attribute (A : Type) : Type := {
  Required : bool;
  Optional : bool;
  Computed : bool;
  Sensitive : bool;
  Default : option A;
  PlanModifiers : list planmodifier
}.
Arguments Required {A} _.
Arguments Optional {A} _.
Arguments Computed {A} _.
Arguments Sensitive {A} _.
Arguments Default {A} _.
Arguments PlanModifiers {A} _.

Definition has (m : planmodifier) {A} (a : Attribute A) : bool :=
  existsb (planmodifier_eqb m) (PlanModifiers a).

End schema.

(** ** [DeviceResource] ([device_resource.go]) *)
Module DeviceResource.

Import DeviceResourceModel.

(** [Schema], lines 57-156. *)
Module Schema.
Import schema.

Definition id : Attribute string :=
  {| Required := false; Optional := false; Computed := true; Sensitive := false;
     Default := None; PlanModifiers := [UseStateForUnknown] |}.
Definition site_id : Attribute string :=
  {| Required := false; Optional := true; Computed := true; Sensitive := false;
     Default := None; PlanModifiers := [RequiresReplace] |}.
Definition organization_id : Attribute string :=
  {| Required := false; Optional := true; Computed := true; Sensitive := false;
     Default := None; PlanModifiers := [RequiresReplace] |}.
Definition name : Attribute string :=
  {| Required := false; Optional := true; Computed := true; Sensitive := false;
     Default := None; PlanModifiers := [] |}.
Definition ip_address : Attribute string :=
  {| Required := true; Optional := false; Computed := false; Sensitive := false;
     Default := None; PlanModifiers := [] |}.
Definition description : Attribute string :=
  {| Required := false; Optional := true; Computed := false; Sensitive := false;
     Default := None; PlanModifiers := [] |}.
Definition monitoring_enabled : Attribute bool :=
  {| Required := false; Optional := true; Computed := true; Sensitive := false;
     Default := Some true; PlanModifiers := [] |}.
Definition snmp_enabled : Attribute bool :=
  {| Required := false; Optional := true; Computed := true; Sensitive := false;
     Default := Some true; PlanModifiers := [] |}.
Definition snmp_version : Attribute string :=
  {| Required := false; Optional := true; Computed := true; Sensitive := false;
     Default := Some "2c"; PlanModifiers := [] |}.
Definition snmp_port : Attribute Z :=
  {| Required := false; Optional := true; Computed := true; Sensitive := false;
     Default := Some 161; PlanModifiers := [] |}.
Definition snmpv3_security_level : Attribute string :=
  {| Required := false; Optional := true; Computed := false; Sensitive := false;
     Default := None; PlanModifiers := [] |}.
Definition snmpv3_username : Attribute string :=
  {| Required := false; Optional := true; Computed := false; Sensitive := false;
     Default := None; PlanModifiers := [] |}.
Definition snmpv3_auth_protocol : Attribute string :=
  {| Required := false; Optional := true; Computed := false; Sensitive := false;
     Default := None; PlanModifiers := [] |}.
Definition snmpv3_auth_password : Attribute string :=
  {| Required := false; Optional := true; Computed := false; Sensitive := true;
     Default := None; PlanModifiers := [] |}.
Definition snmpv3_priv_protocol : Attribute string :=
  {| Required := false; Optional := true; Computed := false; Sensitive := false;
     Default := None; PlanModifiers := [] |}.
Definition snmpv3_priv_password : Attribute string :=
  {| Required := false; Optional := true; Computed := false; Sensitive := true;
     Default := None; PlanModifiers := [] |}.
Definition inserted_at : Attribute string :=
  {| Required := false; Optional := false; Computed := true; Sensitive := false;
     Default := None; PlanModifiers := [UseStateForUnknown] |}.

End Schema.

(** The [Device] that Create (lines 183-256) and Update (lines 403-476, the
    same statements again) fill from the plan: [IPAddress] always, every other
    member only when the planned attribute is not null. *)
Definition device_of (data : DeviceResourceModel.t) : Device.t :=
  {| Device.ID := "";
     Device.SiteID := unless_null types.ValueString (SiteID data);
     Device.OrganizationID := unless_null types.ValueString (OrganizationID data);
     Device.Name := unless_null types.ValueString (Name data);
     Device.IPAddress := types.ValueString (IPAddress data);
     Device.Description := unless_null types.ValueString (Description data);
     Device.MonitoringEnabled := unless_null types.ValueBool (MonitoringEnabled data);
     Device.SNMPEnabled := unless_null types.ValueBool (SNMPEnabled data);
     Device.SNMPVersion := unless_null types.ValueString (SNMPVersion data);
     Device.SNMPPort := unless_null (fun v => int (types.ValueInt64 v)) (SNMPPort data);
     Device.SNMPv3SecurityLevel := unless_null types.ValueString (SNMPv3SecurityLevel data);
     Device.SNMPv3Username := unless_null types.ValueString (SNMPv3Username data);
     Device.SNMPv3AuthProtocol := unless_null types.ValueString (SNMPv3AuthProtocol data);
     Device.SNMPv3AuthPassword := unless_null types.ValueString (SNMPv3AuthPassword data);
     Device.SNMPv3PrivProtocol := unless_null types.ValueString (SNMPv3PrivProtocol data);
     Device.SNMPv3PrivPassword := unless_null types.ValueString (SNMPv3PrivPassword data);
     Device.CheckIntervalSeconds := None;
     Device.InsertedAt := "" |}.

(** Create, lines 264-288: what is copied from the created device. *)
Definition Create_merge (data : DeviceResourceModel.t) (created : Device.t)
  : DeviceResourceModel.t :=
  let data := set_ID (types.StringValue (Device.ID created)) data in
  let data := set_InsertedAt (types.StringValue (Device.InsertedAt created)) data in
  let data := set_SiteID (ptr_or_null (Device.SiteID created)) data in
  let data := set_OrganizationID (ptr_or_null (Device.OrganizationID created)) data in
  let data := set_Name (ptr_or_keep (Device.Name created) (Name data)) data in
  let data := set_MonitoringEnabled
                (ptr_or_keep (Device.MonitoringEnabled created) (MonitoringEnabled data)) data in
  let data := set_SNMPEnabled (ptr_or_keep (Device.SNMPEnabled created) (SNMPEnabled data)) data in
  data.

(** Read, lines 312-390. *)
Definition Read_merge (data : DeviceResourceModel.t) (device : Device.t)
  : DeviceResourceModel.t :=
  let data := set_SiteID (ptr_or_null (Device.SiteID device)) data in
  let data := set_OrganizationID (ptr_or_null (Device.OrganizationID device)) data in
  let data := set_IPAddress (types.StringValue (Device.IPAddress device)) data in
  let data := set_Name (ptr_or_null (Device.Name device)) data in
  let data := set_InsertedAt (types.StringValue (Device.InsertedAt device)) data in
  let data := set_Description (ptr_or_null (Device.Description device)) data in
  let data := set_MonitoringEnabled
                (ptr_or_keep (Device.MonitoringEnabled device) (MonitoringEnabled data)) data in
  let data := set_SNMPEnabled (ptr_or_keep (Device.SNMPEnabled device) (SNMPEnabled data)) data in
  let data := set_SNMPVersion (ptr_or_keep (Device.SNMPVersion device) (SNMPVersion data)) data in
  let data := set_SNMPPort
                (ptr_or_keep (option_map int64 (Device.SNMPPort device)) (SNMPPort data)) data in
  let data := set_SNMPv3SecurityLevel (ptr_or_null (Device.SNMPv3SecurityLevel device)) data in
  let data := set_SNMPv3Username (ptr_or_null (Device.SNMPv3Username device)) data in
  let data := set_SNMPv3AuthProtocol (ptr_or_null (Device.SNMPv3AuthProtocol device)) data in
  let data := set_SNMPv3AuthPassword (ptr_or_null (Device.SNMPv3AuthPassword device)) data in
  let data := set_SNMPv3PrivProtocol (ptr_or_null (Device.SNMPv3PrivProtocol device)) data in
  let data := set_SNMPv3PrivPassword (ptr_or_null (Device.SNMPv3PrivPassword device)) data in
  data.

(** Update, lines 487-520: what is copied from the device created after the
    update met a 404. *)
Definition Update_recreate_merge (data : DeviceResourceModel.t) (created : Device.t)
  : DeviceResourceModel.t :=
  let data := set_ID (types.StringValue (Device.ID created)) data in
  let data := set_InsertedAt (types.StringValue (Device.InsertedAt created)) data in
  let data := set_IPAddress (types.StringValue (Device.IPAddress created)) data in
  let data := set_SiteID (ptr_or_null (Device.SiteID created)) data in
  let data := set_OrganizationID (ptr_or_null (Device.OrganizationID created)) data in
  let data := set_Name (ptr_or_keep (Device.Name created) (Name data)) data in
  let data := set_Description (ptr_or_keep (Device.Description created) (Description data)) data in
  let data := set_MonitoringEnabled
                (ptr_or_keep (Device.MonitoringEnabled created) (MonitoringEnabled data)) data in
  let data := set_SNMPEnabled (ptr_or_keep (Device.SNMPEnabled created) (SNMPEnabled data)) data in
  let data := set_SNMPVersion (ptr_or_keep (Device.SNMPVersion created) (SNMPVersion data)) data in
  let data := set_SNMPPort
                (ptr_or_keep (option_map int64 (Device.SNMPPort created)) (SNMPPort data)) data in
  data.

(** Update, lines 528-596: what is copied from the updated device. *)
Definition Update_merge (data : DeviceResourceModel.t) (updated : Device.t)
  : DeviceResourceModel.t :=
  let data := set_IPAddress (types.StringValue (Device.IPAddress updated)) data in
  let data := set_SiteID (ptr_or_null (Device.SiteID updated)) data in
  let data := set_OrganizationID (ptr_or_null (Device.OrganizationID updated)) data in
  let data := set_Name (ptr_or_keep (Device.Name updated) (Name data)) data in
  let data := set_Description (ptr_or_keep (Device.Description updated) (Description data)) data in
  let data := set_MonitoringEnabled
                (ptr_or_keep (Device.MonitoringEnabled updated) (MonitoringEnabled data)) data in
  let data := set_SNMPEnabled (ptr_or_keep (Device.SNMPEnabled updated) (SNMPEnabled data)) data in
  let data := set_SNMPVersion (ptr_or_keep (Device.SNMPVersion updated) (SNMPVersion data)) data in
  let data := set_SNMPPort
                (ptr_or_keep (option_map int64 (Device.SNMPPort updated)) (SNMPPort data)) data in
  let data := set_SNMPv3SecurityLevel (ptr_or_null (Device.SNMPv3SecurityLevel updated)) data in
  let data := set_SNMPv3Username (ptr_or_null (Device.SNMPv3Username updated)) data in
  let data := set_SNMPv3AuthProtocol (ptr_or_null (Device.SNMPv3AuthProtocol updated)) data in
  let data := set_SNMPv3AuthPassword (ptr_or_null (Device.SNMPv3AuthPassword updated)) data in
  let data := set_SNMPv3PrivProtocol (ptr_or_null (Device.SNMPv3PrivProtocol updated)) data in
  let data := set_SNMPv3PrivPassword (ptr_or_null (Device.SNMPv3PrivPassword updated)) data in
  data.

Section WithRemote.
Context {S : Type}.

Record t : Type := { client : Client.t S }.

(** [Create]: [plan] is what [req.Plan.Get] loads into [data]. *)
Definition Create (r : t) (plan : DeviceResourceModel.t)
  : M S (Response DeviceResourceModel.t) :=
  let data := plan in
  let device := device_of data in
  res <- Client.CreateDevice (client r) device ;;
  match res with
  | Err err =>
      ret {| Diagnostics := [AddError "Failed to create device" err]; State := Untouched |}
  | Ok created =>
      ret {| Diagnostics := []; State := Written (Create_merge data created) |}
  end.

(** [Read]: [state] is what [req.State.Get] loads into [data]. *)
Definition Read (r : t) (state : DeviceResourceModel.t)
  : M S (Response DeviceResourceModel.t) :=
  let data := state in
  res <- Client.GetDevice (client r) (types.ValueString (ID data)) ;;
  match res with
  | Err err =>
      if errors_Is_ErrNotFound err then
        ret {| Diagnostics := []; State := Removed |}
      else
        ret {| Diagnostics := [AddError "Failed to read device" err]; State := Untouched |}
  | Ok device =>
      ret {| Diagnostics := []; State := Written (Read_merge data device) |}
  end.

Definition Update (r : t) (plan : DeviceResourceModel.t)
  : M S (Response DeviceResourceModel.t) :=
  let data := plan in
  let device := device_of data in
  res <- Client.UpdateDevice (client r) (types.ValueString (ID data)) device ;;
  match res with
  | Err err =>
      if errors_Is_ErrNotFound err then
        cres <- Client.CreateDevice (client r) device ;;
        match cres with
        | Err createErr =>
            ret {| Diagnostics := [AddError "Failed to create device (after 404 on update)" createErr];
                   State := Untouched |}
        | Ok created =>
            ret {| Diagnostics := []; State := Written (Update_recreate_merge data created) |}
        end
      else
        ret {| Diagnostics := [AddError "Failed to update device" err]; State := Untouched |}
  | Ok updated =>
      ret {| Diagnostics := []; State := Written (Update_merge data updated) |}
  end.

Definition Delete (r : t) (state : DeviceResourceModel.t)
  : M S (Response DeviceResourceModel.t) :=
  let data := state in
  err <- Client.DeleteDevice (client r) (types.ValueString (ID data)) ;;
  match err with
  | Some err =>
      ret {| Diagnostics := [AddError "Failed to delete device" err]; State := Untouched |}
  | None =>
      ret {| Diagnostics := []; State := Untouched |}
  end.

End WithRemote.
Arguments t S : clear implicits.
End DeviceResource.

(** ** [SiteResource] ([site_resource.go]) *)
Module SiteResource.

Import SiteResourceModel.

(** Read, lines 154-167. *)
Definition Read_merge (data : SiteResourceModel.t) (site : Site.t) : SiteResourceModel.t :=
  let data := set_Name (types.StringValue (Site.Name site)) data in
  let data := set_InsertedAt (types.StringValue (Site.InsertedAt site)) data in
  let data := set_Location (ptr_or_null (Site.Location site)) data in
  let data := set_SNMPCommunity (ptr_or_null (Site.SNMPCommunity site)) data in
  data.

(** The [Site] that Create (lines 102-114) and Update (lines 180-192, the same
    statements again) fill from the plan: [Name] always, the two optional
    members only when the planned attribute is not null. *)
Definition site_of (data : SiteResourceModel.t) : Site.t :=
  {| Site.ID := "";
     Site.Name := types.ValueString (Name data);
     Site.Location := unless_null types.ValueString (Location data);
     Site.SNMPCommunity := unless_null types.ValueString (SNMPCommunity data);
     Site.InsertedAt := "" |}.

(** Create, lines 122-130: what is copied from the created site. *)
Definition Create_merge (data : SiteResourceModel.t) (created : Site.t) : SiteResourceModel.t :=
  let data := set_ID (types.StringValue (Site.ID created)) data in
  let data := set_InsertedAt (types.StringValue (Site.InsertedAt created)) data in
  let data := set_Location (ptr_or_keep (Site.Location created) (Location data)) data in
  let data := set_SNMPCommunity
                (ptr_or_keep (Site.SNMPCommunity created) (SNMPCommunity data)) data in
  data.

(** Update, lines 203-211: what is copied from the site created after the
    update met a 404. *)
Definition Update_recreate_merge (data : SiteResourceModel.t) (created : Site.t)
  : SiteResourceModel.t :=
  let data := set_ID (types.StringValue (Site.ID created)) data in
  let data := set_InsertedAt (types.StringValue (Site.InsertedAt created)) data in
  let data := set_Name (types.StringValue (Site.Name created)) data in
  let data := set_Location (ptr_or_keep (Site.Location created) (Location data)) data in
  let data := set_SNMPCommunity
                (ptr_or_keep (Site.SNMPCommunity created) (SNMPCommunity data)) data in
  data.

(** Update, lines 219-226: what is copied from the updated site. *)
Definition Update_merge (data : SiteResourceModel.t) (updated : Site.t) : SiteResourceModel.t :=
  let data := set_Name (types.StringValue (Site.Name updated)) data in
  let data := set_Location (ptr_or_keep (Site.Location updated) (Location data)) data in
  let data := set_SNMPCommunity
                (ptr_or_keep (Site.SNMPCommunity updated) (SNMPCommunity data)) data in
  data.

Section WithRemote.
Context {S : Type}.

Record t : Type := { client : Client.t S }.

Definition Create (r : t) (plan : SiteResourceModel.t) : M S (Response SiteResourceModel.t) :=
  let data := plan in
  let site := site_of data in
  res <- Client.CreateSite (client r) site ;;
  match res with
  | Err err =>
      ret {| Diagnostics := [AddError "Failed to create site" err]; State := Untouched |}
  | Ok created =>
      ret {| Diagnostics := []; State := Written (Create_merge data created) |}
  end.

Definition Update (r : t) (plan : SiteResourceModel.t) : M S (Response SiteResourceModel.t) :=
  let data := plan in
  let site := site_of data in
  res <- Client.UpdateSite (client r) (types.ValueString (ID data)) site ;;
  match res with
  | Err err =>
      if errors_Is_ErrNotFound err then
        cres <- Client.CreateSite (client r) site ;;
        match cres with
        | Err createErr =>
            ret {| Diagnostics := [AddError "Failed to create site (after 404 on update)" createErr];
                   State := Untouched |}
        | Ok created =>
            ret {| Diagnostics := []; State := Written (Update_recreate_merge data created) |}
        end
      else
        ret {| Diagnostics := [AddError "Failed to update site" err]; State := Untouched |}
  | Ok updated =>
      ret {| Diagnostics := []; State := Written (Update_merge data updated) |}
  end.

Definition Read (r : t) (state : SiteResourceModel.t) : M S (Response SiteResourceModel.t) :=
  let data := state in
  res <- Client.GetSite (client r) (types.ValueString (ID data)) ;;
  match res with
  | Err err =>
      if errors_Is_ErrNotFound err then
        ret {| Diagnostics := []; State := Removed |}
      else
        ret {| Diagnostics := [AddError "Failed to read site" err]; State := Untouched |}
  | Ok site =>
      ret {| Diagnostics := []; State := Written (Read_merge data site) |}
  end.

Definition Delete (r : t) (state : SiteResourceModel.t) : M S (Response SiteResourceModel.t) :=
  let data := state in
  err <- Client.DeleteSite (client r) (types.ValueString (ID data)) ;;
  match err with
  | Some err =>
      ret {| Diagnostics := [AddError "Failed to delete site" err]; State := Untouched |}
  | None =>
      ret {| Diagnostics := []; State := Untouched |}
  end.

End WithRemote.
Arguments t S : clear implicits.
End SiteResource.

(** ** The host side: validation, planning and applying

    What the plugin framework and Terraform do around the handlers, as far as
    the schema of [DeviceResource] decides it: which configurations are
    refused before any handler runs, which plan a handler receives, when a
    planned change forces replacement, and how a handler's response becomes
    the stored state. *)
Module fwserver.

Import schema.

Inductive FieldError : Type :=
| MissingRequired (attribute : string)     (* a required attribute is null *)
| NotConfigurable (attribute : string).    (* a read-only attribute is set *)

Definition check {A} (name : string) (a : Attribute A) (v : types.Value A)
  : list FieldError :=
  (if Required a && types.IsNull v then [MissingRequired name] else [])
  ++ (if negb (Required a) && negb (Optional a) && negb (types.IsNull v)
      then [NotConfigurable name] else []).

(** A planned value when there is no prior state: the configured value, else
    the default, else unknown for a computed attribute, else null. *)
Definition plan_create {A} (a : Attribute A) (config : types.Value A) : types.Value A :=
  match config with
  | types.Null =>
      match Default a with
      | Some d => types.Known d
      | None => if Computed a then types.Unknown else types.Null
      end
  | _ => config
  end.

(** The proposed value over a prior state: a computed attribute that is not
    configured keeps its prior value. *)
Definition proposed {A} (a : Attribute A) (config prior : types.Value A) : types.Value A :=
  match config with
  | types.Null =>
      match Default a with
      | Some d => types.Known d
      | None => if Computed a then prior else types.Null
      end
  | _ => config
  end.

(** The planned value over a prior state.  When the proposal differs from the
    prior state anywhere ([changed]), a computed attribute without
    configuration and default becomes unknown; [UseStateForUnknown] then puts
    the prior value back. *)
Definition plan_update {A} (a : Attribute A) (changed : bool)
           (config prior : types.Value A) : types.Value A :=
  let p := proposed a config prior in
  let p := if changed && types.IsNull config && Computed a
              && match Default a with None => true | Some _ => false end
           then types.Unknown else p in
  if has UseStateForUnknown a && types.IsUnknown p && negb (types.IsUnknown config)
  then prior else p.

(** [RequiresReplace]: the attribute demands replacement when its planned
    value is not equal to its prior value. *)
Definition replace_if_changed {A} (eqb : A -> A -> bool) (name : string) (a : Attribute A)
           (prior plan : types.Value A) : list string :=
  if has RequiresReplace a && negb (types.Equal eqb plan prior) then [name] else [].

(** How a handler's response becomes the stored state ([None]: no state). *)
Definition commit {T} (prior : option T) (resp : Response T) : option T :=
  match State resp with
  | Untouched => prior
  | Written data => Some data
  | Removed => None
  end.

(** After Delete the state is removed for the handler unless it reported an
    error. *)
Definition commit_delete {T} (prior : option T) (resp : Response T) : option T :=
  if HasError resp then commit prior resp else None.

Module Device.

Import DeviceResourceModel.
Module Schema := DeviceResource.Schema.

Definition Model_eqb (a b : DeviceResourceModel.t) : bool :=
  types.Equal String.eqb (ID a) (ID b) &&
  types.Equal String.eqb (SiteID a) (SiteID b) &&
  types.Equal String.eqb (OrganizationID a) (OrganizationID b) &&
  types.Equal String.eqb (Name a) (Name b) &&
  types.Equal String.eqb (IPAddress a) (IPAddress b) &&
  types.Equal String.eqb (Description a) (Description b) &&
  types.Equal Bool.eqb (MonitoringEnabled a) (MonitoringEnabled b) &&
  types.Equal Bool.eqb (SNMPEnabled a) (SNMPEnabled b) &&
  types.Equal String.eqb (SNMPVersion a) (SNMPVersion b) &&
  types.Equal Z.eqb (SNMPPort a) (SNMPPort b) &&
  types.Equal String.eqb (SNMPv3SecurityLevel a) (SNMPv3SecurityLevel b) &&
  types.Equal String.eqb (SNMPv3Username a) (SNMPv3Username b) &&
  types.Equal String.eqb (SNMPv3AuthProtocol a) (SNMPv3AuthProtocol b) &&
  types.Equal String.eqb (SNMPv3AuthPassword a) (SNMPv3AuthPassword b) &&
  types.Equal String.eqb (SNMPv3PrivProtocol a) (SNMPv3PrivProtocol b) &&
  types.Equal String.eqb (SNMPv3PrivPassword a) (SNMPv3PrivPassword b) &&
  types.Equal String.eqb (InsertedAt a) (InsertedAt b).

(** Validation of a configuration.  The schema declares no validator, and
    [DeviceResource] implements only [resource.Resource] and
    [resource.ResourceWithImportState] (lines 19-20), so nothing but the
    Required / read-only check of each attribute applies. *)
Definition ValidateConfig (config : DeviceResourceModel.t) : list FieldError :=
  check "id" Schema.id (ID config)
  ++ check "site_id" Schema.site_id (SiteID config)
  ++ check "organization_id" Schema.organization_id (OrganizationID config)
  ++ check "name" Schema.name (Name config)
  ++ check "ip_address" Schema.ip_address (IPAddress config)
  ++ check "description" Schema.description (Description config)
  ++ check "monitoring_enabled" Schema.monitoring_enabled (MonitoringEnabled config)
  ++ check "snmp_enabled" Schema.snmp_enabled (SNMPEnabled config)
  ++ check "snmp_version" Schema.snmp_version (SNMPVersion config)
  ++ check "snmp_port" Schema.snmp_port (SNMPPort config)
  ++ check "snmpv3_security_level" Schema.snmpv3_security_level (SNMPv3SecurityLevel config)
  ++ check "snmpv3_username" Schema.snmpv3_username (SNMPv3Username config)
  ++ check "snmpv3_auth_protocol" Schema.snmpv3_auth_protocol (SNMPv3AuthProtocol config)
  ++ check "snmpv3_auth_password" Schema.snmpv3_auth_password (SNMPv3AuthPassword config)
  ++ check "snmpv3_priv_protocol" Schema.snmpv3_priv_protocol (SNMPv3PrivProtocol config)
  ++ check "snmpv3_priv_password" Schema.snmpv3_priv_password (SNMPv3PrivPassword config)
  ++ check "inserted_at" Schema.inserted_at (InsertedAt config).

Definition PlanCreate (config : DeviceResourceModel.t) : DeviceResourceModel.t :=
  {| ID := plan_create Schema.id (ID config);
     SiteID := plan_create Schema.site_id (SiteID config);
     OrganizationID := plan_create Schema.organization_id (OrganizationID config);
     Name := plan_create Schema.name (Name config);
     IPAddress := plan_create Schema.ip_address (IPAddress config);
     Description := plan_create Schema.description (Description config);
     MonitoringEnabled := plan_create Schema.monitoring_enabled (MonitoringEnabled config);
     SNMPEnabled := plan_create Schema.snmp_enabled (SNMPEnabled config);
     SNMPVersion := plan_create Schema.snmp_version (SNMPVersion config);
     SNMPPort := plan_create Schema.snmp_port (SNMPPort config);
     SNMPv3SecurityLevel := plan_create Schema.snmpv3_security_level (SNMPv3SecurityLevel config);
     SNMPv3Username := plan_create Schema.snmpv3_username (SNMPv3Username config);
     SNMPv3AuthProtocol := plan_create Schema.snmpv3_auth_protocol (SNMPv3AuthProtocol config);
     SNMPv3AuthPassword := plan_create Schema.snmpv3_auth_password (SNMPv3AuthPassword config);
     SNMPv3PrivProtocol := plan_create Schema.snmpv3_priv_protocol (SNMPv3PrivProtocol config);
     SNMPv3PrivPassword := plan_create Schema.snmpv3_priv_password (SNMPv3PrivPassword config);
     InsertedAt := plan_create Schema.inserted_at (InsertedAt config) |}.

Definition Proposed (config prior : DeviceResourceModel.t) : DeviceResourceModel.t :=
  {| ID := proposed Schema.id (ID config) (ID prior);
     SiteID := proposed Schema.site_id (SiteID config) (SiteID prior);
     OrganizationID := proposed Schema.organization_id (OrganizationID config) (OrganizationID prior);
     Name := proposed Schema.name (Name config) (Name prior);
     IPAddress := proposed Schema.ip_address (IPAddress config) (IPAddress prior);
     Description := proposed Schema.description (Description config) (Description prior);
     MonitoringEnabled := proposed Schema.monitoring_enabled (MonitoringEnabled config) (MonitoringEnabled prior);
     SNMPEnabled := proposed Schema.snmp_enabled (SNMPEnabled config) (SNMPEnabled prior);
     SNMPVersion := proposed Schema.snmp_version (SNMPVersion config) (SNMPVersion prior);
     SNMPPort := proposed Schema.snmp_port (SNMPPort config) (SNMPPort prior);
     SNMPv3SecurityLevel := proposed Schema.snmpv3_security_level (SNMPv3SecurityLevel config) (SNMPv3SecurityLevel prior);
     SNMPv3Username := proposed Schema.snmpv3_username (SNMPv3Username config) (SNMPv3Username prior);
     SNMPv3AuthProtocol := proposed Schema.snmpv3_auth_protocol (SNMPv3AuthProtocol config) (SNMPv3AuthProtocol prior);
     SNMPv3AuthPassword := proposed Schema.snmpv3_auth_password (SNMPv3AuthPassword config) (SNMPv3AuthPassword prior);
     SNMPv3PrivProtocol := proposed Schema.snmpv3_priv_protocol (SNMPv3PrivProtocol config) (SNMPv3PrivProtocol prior);
     SNMPv3PrivPassword := proposed Schema.snmpv3_priv_password (SNMPv3PrivPassword config) (SNMPv3PrivPassword prior);
     InsertedAt := proposed Schema.inserted_at (InsertedAt config) (InsertedAt prior) |}.

Definition PlanUpdate (config prior : DeviceResourceModel.t) : DeviceResourceModel.t :=
  let changed := negb (Model_eqb (Proposed config prior) prior) in
  {| ID := plan_update Schema.id changed (ID config) (ID prior);
     SiteID := plan_update Schema.site_id changed (SiteID config) (SiteID prior);
     OrganizationID := plan_update Schema.organization_id changed (OrganizationID config) (OrganizationID prior);
     Name := plan_update Schema.name changed (Name config) (Name prior);
     IPAddress := plan_update Schema.ip_address changed (IPAddress config) (IPAddress prior);
     Description := plan_update Schema.description changed (Description config) (Description prior);
     MonitoringEnabled := plan_update Schema.monitoring_enabled changed (MonitoringEnabled config) (MonitoringEnabled prior);
     SNMPEnabled := plan_update Schema.snmp_enabled changed (SNMPEnabled config) (SNMPEnabled prior);
     SNMPVersion := plan_update Schema.snmp_version changed (SNMPVersion config) (SNMPVersion prior);
     SNMPPort := plan_update Schema.snmp_port changed (SNMPPort config) (SNMPPort prior);
     SNMPv3SecurityLevel := plan_update Schema.snmpv3_security_level changed (SNMPv3SecurityLevel config) (SNMPv3SecurityLevel prior);
     SNMPv3Username := plan_update Schema.snmpv3_username changed (SNMPv3Username config) (SNMPv3Username prior);
     SNMPv3AuthProtocol := plan_update Schema.snmpv3_auth_protocol changed (SNMPv3AuthProtocol config) (SNMPv3AuthProtocol prior);
     SNMPv3AuthPassword := plan_update Schema.snmpv3_auth_password changed (SNMPv3AuthPassword config) (SNMPv3AuthPassword prior);
     SNMPv3PrivProtocol := plan_update Schema.snmpv3_priv_protocol changed (SNMPv3PrivProtocol config) (SNMPv3PrivProtocol prior);
     SNMPv3PrivPassword := plan_update Schema.snmpv3_priv_password changed (SNMPv3PrivPassword config) (SNMPv3PrivPassword prior);
     InsertedAt := plan_update Schema.inserted_at changed (InsertedAt config) (InsertedAt prior) |}.

Definition RequiresReplace (prior plan : DeviceResourceModel.t) : list string :=
  replace_if_changed String.eqb "id" Schema.id (ID prior) (ID plan)
  ++ replace_if_changed String.eqb "site_id" Schema.site_id (SiteID prior) (SiteID plan)
  ++ replace_if_changed String.eqb "organization_id" Schema.organization_id (OrganizationID prior) (OrganizationID plan)
  ++ replace_if_changed String.eqb "name" Schema.name (Name prior) (Name plan)
  ++ replace_if_changed String.eqb "ip_address" Schema.ip_address (IPAddress prior) (IPAddress plan)
  ++ replace_if_changed String.eqb "description" Schema.description (Description prior) (Description plan)
  ++ replace_if_changed Bool.eqb "monitoring_enabled" Schema.monitoring_enabled (MonitoringEnabled prior) (MonitoringEnabled plan)
  ++ replace_if_changed Bool.eqb "snmp_enabled" Schema.snmp_enabled (SNMPEnabled prior) (SNMPEnabled plan)
  ++ replace_if_changed String.eqb "snmp_version" Schema.snmp_version (SNMPVersion prior) (SNMPVersion plan)
  ++ replace_if_changed Z.eqb "snmp_port" Schema.snmp_port (SNMPPort prior) (SNMPPort plan)
  ++ replace_if_changed String.eqb "snmpv3_security_level" Schema.snmpv3_security_level (SNMPv3SecurityLevel prior) (SNMPv3SecurityLevel plan)
  ++ replace_if_changed String.eqb "snmpv3_username" Schema.snmpv3_username (SNMPv3Username prior) (SNMPv3Username plan)
  ++ replace_if_changed String.eqb "snmpv3_auth_protocol" Schema.snmpv3_auth_protocol (SNMPv3AuthProtocol prior) (SNMPv3AuthProtocol plan)
  ++ replace_if_changed String.eqb "snmpv3_auth_password" Schema.snmpv3_auth_password (SNMPv3AuthPassword prior) (SNMPv3AuthPassword plan)
  ++ replace_if_changed String.eqb "snmpv3_priv_protocol" Schema.snmpv3_priv_protocol (SNMPv3PrivProtocol prior) (SNMPv3PrivProtocol plan)
  ++ replace_if_changed String.eqb "snmpv3_priv_password" Schema.snmpv3_priv_password (SNMPv3PrivPassword prior) (SNMPv3PrivPassword plan)
  ++ replace_if_changed String.eqb "inserted_at" Schema.inserted_at (InsertedAt prior) (InsertedAt plan).

Inductive Action : Type :=
| NoOp
| InPlace (plan : DeviceResourceModel.t)
| Replace (plan : DeviceResourceModel.t).

(** The planned action for a bound instance: replacement (destroy, then
    create from a fresh plan) when an attribute demands it, an update in
    place when the plan differs from the state, nothing otherwise. *)
Definition PlanResourceChange (config prior : DeviceResourceModel.t) : Action :=
  let plan := PlanUpdate config prior in
  match RequiresReplace prior plan with
  | _ :: _ => Replace (PlanCreate config)
  | [] => if Model_eqb plan prior then NoOp else InPlace plan
  end.

Section WithRemote.
Context {S : Type}.

(** Declaring a new device: validation, then Create on the plan. *)
Definition ApplyCreate (r : DeviceResource.t S) (config : DeviceResourceModel.t)
  : M S (list FieldError + Response DeviceResourceModel.t) :=
  match ValidateConfig config with
  | [] => resp <- DeviceResource.Create r (PlanCreate config) ;; ret (inr resp)
  | errs => ret (inl errs)
  end.


(** Refreshing an instance: Read when there is a state, nothing otherwise. *)
Definition Refresh (r : DeviceResource.t S) (stored : option DeviceResourceModel.t)
  : M S (list Diagnostic * option DeviceResourceModel.t) :=
  match stored with
  | None => ret ([], None)
  | Some state =>
      resp <- DeviceResource.Read r state ;;
      ret (Diagnostics resp, commit (Some state) resp)
  end.

End WithRemote.
End Device.

Module Site.
Section WithRemote.
Context {S : Type}.

Definition Refresh (r : SiteResource.t S) (stored : option SiteResourceModel.t)
  : M S (list Diagnostic * option SiteResourceModel.t) :=
  match stored with
  | None => ret ([], None)
  | Some state =>
      resp <- SiteResource.Read r state ;;
      ret (Diagnostics resp, commit (Some state) resp)
  end.

End WithRemote.
End Site.

End fwserver.

(** ** A scripted remote system

    The remote state is the list of outcomes still to be served; each round
    trip serves the next one (a refused connection once the script is
    over).  Every method and URL is accepted. *)
Module httptest.

Definition scripted : http.Client (list http.Outcome) :=
  {| http.NewRequest_ok := fun _ _ => true;
     http.Do := fun _ script =>
       match script with
       | [] => (http.DoError "connection refused", [])
       | out :: rest => (out, rest)
       end |}.

Definition NewServer (script : list http.Outcome) : World (list http.Outcome) :=
  {| remote := script; calls := [] |}.

Definition client : Client.t (list http.Outcome) :=
  Client.NewClient "test-token" "http://127.0.0.1" scripted.

End httptest.

(** ** A transport that remembers what it was given

    [spy h] behaves as [h] and keeps, beside the remote state, every request
    handed to [Do], oldest first. *)
Module httpspy.
Section WithRemote.
Context {S : Type}.

Definition spy (h : http.Client S) : http.Client (S * list http.Request) :=
  {| http.NewRequest_ok := http.NewRequest_ok h;
     http.Do := fun req st =>
       let (out, s) := http.Do h req (fst st) in
       (out, (s, (snd st ++ [req])%list)) |}.

Definition watch (c : Client.t S) : Client.t (S * list http.Request) :=
  {| Client.BaseURL := Client.BaseURL c;
     Client.Token := Client.Token c;
     Client.HTTPClient := spy (Client.HTTPClient c) |}.

Definition seen (w : World (S * list http.Request)) : list http.Request :=
  snd (remote w).

(** The same world without the spy's record. *)
Definition unwatched (w : World (S * list http.Request)) : World S :=
  {| remote := fst (remote w); calls := calls w |}.

End WithRemote.
End httpspy.

(** The HTTP status an error of the client carries, if any. *)
Definition status_of (err : error) : option Z :=
  match err with
  | ErrAPI status _ => Some status
  | ErrAPIValidation status _ => Some status
  | ErrAPIBody status _ => Some status
  | _ => None
  end.

(** ** [ToweropsProvider.Configure] ([provider.go], lines 54-78)

    [provider.go] is at hand in a revision that calls [NewClient] with the
    token alone; the constructor of that revision is the parameter
    [NewClient]. *)
Module ToweropsProvider.
Section WithClient.
Context {C : Type} (NewClient : string -> C).

Record Diag : Type := AddError { Summary : string; Detail : string }.

Record ConfigureResponse : Type := {
  Diagnostics : list Diag;
  DataSourceData : option C;
  ResourceData : option C
}.

(** [token] is the [Token] member of what [req.Config.Get] loads. *)
Definition Configure (token : types.String) : ConfigureResponse :=
  if types.IsUnknown token then
    {| Diagnostics :=
         [AddError "Unknown TowerOps API Token"
                   "The provider cannot create the TowerOps API client as there is an unknown configuration value for the API token."];
       DataSourceData := None; ResourceData := None |}
  else if types.IsNull token || (types.ValueString token =? "")%string then
    {| Diagnostics :=
         [AddError "Missing TowerOps API Token"
                   "The provider requires a token to authenticate with the TowerOps API."];
       DataSourceData := None; ResourceData := None |}
  else
    let client := NewClient (types.ValueString token) in
    {| Diagnostics := []; DataSourceData := Some client; ResourceData := Some client |}.

End WithClient.
End ToweropsProvider.

(** * Scenarios

    Concrete runs against the scripted remote system; the statements below
    are instantiated and evaluated on them. *)

(** A delete that meets a 404: the instance holds id D1 and the server no
    longer knows it. *)
Module DeleteRun.
Import DeviceResourceModel.

Definition r : DeviceResource.t (list http.Outcome) :=
  {| DeviceResource.client := httptest.client |}.

Definition state : DeviceResourceModel.t :=
  {| ID := types.Known "D1"; SiteID := types.Known "site-123";
     OrganizationID := types.Null; Name := types.Known "Test Device";
     IPAddress := types.Known "192.168.1.1"; Description := types.Null;
     MonitoringEnabled := types.Known true; SNMPEnabled := types.Known true;
     SNMPVersion := types.Known "2c"; SNMPPort := types.Known 161;
     SNMPv3SecurityLevel := types.Null; SNMPv3Username := types.Null;
     SNMPv3AuthProtocol := types.Null; SNMPv3AuthPassword := types.Null;
     SNMPv3PrivProtocol := types.Null; SNMPv3PrivPassword := types.Null;
     InsertedAt := types.Known "2024-01-01T00:00:00Z" |}.

Definition w : World (list http.Outcome) :=
  httptest.NewServer
    [http.Response 404 (Document (JObject [("error", JString "device not found")]))].

Definition w1 : World (list http.Outcome) :=
  {| remote := []; calls := [Call "DELETE" "/api/v1/devices/D1" None] |}.

End DeleteRun.

(** An update that meets a 404: the plan holds id D1, the server answers the
    update with 404 and the create with a device whose id is D2. *)
Module RecreateRun.
Import DeviceResourceModel.

Definition r : DeviceResource.t (list http.Outcome) :=
  {| DeviceResource.client := httptest.client |}.

Definition plan : DeviceResourceModel.t :=
  {| ID := types.Known "D1"; SiteID := types.Known "site-123";
     OrganizationID := types.Null; Name := types.Known "Test Device";
     IPAddress := types.Known "192.168.1.2"; Description := types.Null;
     MonitoringEnabled := types.Known true; SNMPEnabled := types.Known true;
     SNMPVersion := types.Known "2c"; SNMPPort := types.Known 161;
     SNMPv3SecurityLevel := types.Null; SNMPv3Username := types.Null;
     SNMPv3AuthProtocol := types.Null; SNMPv3AuthPassword := types.Null;
     SNMPv3PrivProtocol := types.Null; SNMPv3PrivPassword := types.Null;
     InsertedAt := types.Known "2024-01-01T00:00:00Z" |}.

Definition created_body : bytes :=
  Document (JObject [("id", JString "D2"); ("site_id", JString "site-123");
                     ("name", JString "Auto-discovered Device");
                     ("ip_address", JString "192.168.1.2");
                     ("monitoring_enabled", JBool true); ("snmp_enabled", JBool true);
                     ("snmp_version", JString "2c"); ("snmp_port", JNumber 161);
                     ("inserted_at", JString "2024-02-02T00:00:00Z")]).

Definition w : World (list http.Outcome) :=
  httptest.NewServer
    [http.Response 404 (Document (JObject [("error", JString "device not found")]));
     http.Response 201 created_body].

Definition w1 : World (list http.Outcome) :=
  Eval vm_compute in
    snd (Client.UpdateDevice (DeviceResource.client r) (types.ValueString (ID plan))
                             (DeviceResource.device_of plan) w).

Definition cres : Result Device.t :=
  Eval vm_compute in
    fst (Client.CreateDevice (DeviceResource.client r) (DeviceResource.device_of plan) w1).

Definition w2 : World (list http.Outcome) :=
  Eval vm_compute in
    snd (Client.CreateDevice (DeviceResource.client r) (DeviceResource.device_of plan) w1).

End RecreateRun.

(** A failed update: the server answers the PATCH with a 500. *)
Module FailedUpdateRun.

Definition w : World (list http.Outcome) :=
  httptest.NewServer
    [http.Response 500 (Document (JObject [("error", JString "update failed")]))].

End FailedUpdateRun.

(** A device declared with both parents, and a server that accepts it. *)
Module BothParentsRun.
Import DeviceResourceModel.

Definition r : DeviceResource.t (list http.Outcome) :=
  {| DeviceResource.client := httptest.client |}.

Definition config : DeviceResourceModel.t :=
  {| ID := types.Null; SiteID := types.Known "site-A";
     OrganizationID := types.Known "org-1"; Name := types.Known "Core Router";
     IPAddress := types.Known "192.168.1.1"; Description := types.Null;
     MonitoringEnabled := types.Null; SNMPEnabled := types.Null;
     SNMPVersion := types.Null; SNMPPort := types.Null;
     SNMPv3SecurityLevel := types.Null; SNMPv3Username := types.Null;
     SNMPv3AuthProtocol := types.Null; SNMPv3AuthPassword := types.Null;
     SNMPv3PrivProtocol := types.Null; SNMPv3PrivPassword := types.Null;
     InsertedAt := types.Null |}.

Definition w : World (list http.Outcome) :=
  httptest.NewServer
    [http.Response 201
       (Document (JObject [("id", JString "D1"); ("site_id", JString "site-A");
                           ("name", JString "Core Router");
                           ("ip_address", JString "192.168.1.1");
                           ("inserted_at", JString "2024-01-01T00:00:00Z")]))].

Definition sent : call :=
  Call "POST" "/api/v1/devices"
       (Some (JObject
                [("device",
                  JObject [("site_id", JString "site-A");
                           ("organization_id", JString "org-1");
                           ("name", JString "Core Router");
                           ("ip_address", JString "192.168.1.1");
                           ("monitoring_enabled", JBool true);
                           ("snmp_enabled", JBool true);
                           ("snmp_version", JString "2c");
                           ("snmp_port", JNumber 161)])])).

End BothParentsRun.

(** A create whose response differs from the plan in [description],
    [snmp_version] and [snmp_port]. *)
Module CreateEchoRun.
Import DeviceResourceModel.

Definition r : DeviceResource.t (list http.Outcome) :=
  {| DeviceResource.client := httptest.client |}.

Definition plan : DeviceResourceModel.t :=
  {| ID := types.Unknown; SiteID := types.Known "site-123";
     OrganizationID := types.Unknown; Name := types.Unknown;
     IPAddress := types.Known "10.0.0.1"; Description := types.Known "Rack 4";
     MonitoringEnabled := types.Known true; SNMPEnabled := types.Known true;
     SNMPVersion := types.Known "2c"; SNMPPort := types.Known 161;
     SNMPv3SecurityLevel := types.Null; SNMPv3Username := types.Null;
     SNMPv3AuthProtocol := types.Null; SNMPv3AuthPassword := types.Null;
     SNMPv3PrivProtocol := types.Null; SNMPv3PrivPassword := types.Null;
     InsertedAt := types.Unknown |}.

Definition created : Device.t :=
  {| Device.ID := "D1"; Device.SiteID := Some "site-123"; Device.OrganizationID := None;
     Device.Name := Some "Full Device"; Device.IPAddress := "10.0.0.1";
     Device.Description := Some "Rack 4, row B";
     Device.MonitoringEnabled := Some true; Device.SNMPEnabled := Some true;
     Device.SNMPVersion := Some "3"; Device.SNMPPort := Some 162;
     Device.SNMPv3SecurityLevel := None; Device.SNMPv3Username := None;
     Device.SNMPv3AuthProtocol := None; Device.SNMPv3AuthPassword := None;
     Device.SNMPv3PrivProtocol := None; Device.SNMPv3PrivPassword := None;
     Device.CheckIntervalSeconds := None;
     Device.InsertedAt := "2024-01-01T00:00:00Z" |}.

Definition w : World (list http.Outcome) :=
  httptest.NewServer [http.Response 201 (Document (Device.Marshal created))].

Definition written : DeviceResourceModel.t :=
  {| ID := types.Known "D1"; SiteID := types.Known "site-123";
     OrganizationID := types.Null; Name := types.Known "Full Device";
     IPAddress := types.Known "10.0.0.1"; Description := types.Known "Rack 4";
     MonitoringEnabled := types.Known true; SNMPEnabled := types.Known true;
     SNMPVersion := types.Known "2c"; SNMPPort := types.Known 161;
     SNMPv3SecurityLevel := types.Null; SNMPv3Username := types.Null;
     SNMPv3AuthProtocol := types.Null; SNMPv3AuthPassword := types.Null;
     SNMPv3PrivProtocol := types.Null; SNMPv3PrivPassword := types.Null;
     InsertedAt := types.Known "2024-01-01T00:00:00Z" |}.

End CreateEchoRun.

(** A refresh of a bound device and of a bound site; the device's answer
    leaves out the four attributes that have a default, and its description. *)
Module ReadRun.
Import DeviceResourceModel.

Definition r : DeviceResource.t (list http.Outcome) :=
  {| DeviceResource.client := httptest.client |}.

Definition state : DeviceResourceModel.t :=
  {| ID := types.Known "D1"; SiteID := types.Known "site-123";
     OrganizationID := types.Null; Name := types.Known "Test Device";
     IPAddress := types.Known "192.168.1.1"; Description := types.Known "Rack 4";
     MonitoringEnabled := types.Known false; SNMPEnabled := types.Known true;
     SNMPVersion := types.Known "2c"; SNMPPort := types.Known 161;
     SNMPv3SecurityLevel := types.Null; SNMPv3Username := types.Null;
     SNMPv3AuthProtocol := types.Null; SNMPv3AuthPassword := types.Null;
     SNMPv3PrivProtocol := types.Null; SNMPv3PrivPassword := types.Null;
     InsertedAt := types.Known "2024-01-01T00:00:00Z" |}.

Definition answer : http.Outcome :=
  http.Response 200
    (Document (JObject [("id", JString "D1"); ("site_id", JString "site-123");
                        ("name", JString "Renamed Device");
                        ("ip_address", JString "192.168.1.9");
                        ("inserted_at", JString "2024-01-01T00:00:00Z")])).

Definition device : Device.t :=
  {| Device.ID := "D1"; Device.SiteID := Some "site-123"; Device.OrganizationID := None;
     Device.Name := Some "Renamed Device"; Device.IPAddress := "192.168.1.9";
     Device.Description := None;
     Device.MonitoringEnabled := None; Device.SNMPEnabled := None;
     Device.SNMPVersion := None; Device.SNMPPort := None;
     Device.SNMPv3SecurityLevel := None; Device.SNMPv3Username := None;
     Device.SNMPv3AuthProtocol := None; Device.SNMPv3AuthPassword := None;
     Device.SNMPv3PrivProtocol := None; Device.SNMPv3PrivPassword := None;
     Device.CheckIntervalSeconds := None;
     Device.InsertedAt := "2024-01-01T00:00:00Z" |}.

Definition w : World (list http.Outcome) := httptest.NewServer [answer; answer].

Definition w1 : World (list http.Outcome) :=
  {| remote := [answer]; calls := [Call "GET" "/api/v1/devices/D1" None] |}.

Definition w2 : World (list http.Outcome) :=
  {| remote := [];
     calls := [Call "GET" "/api/v1/devices/D1" None; Call "GET" "/api/v1/devices/D1" None] |}.

Definition refreshed : DeviceResourceModel.t :=
  {| ID := types.Known "D1"; SiteID := types.Known "site-123";
     OrganizationID := types.Null; Name := types.Known "Renamed Device";
     IPAddress := types.Known "192.168.1.9"; Description := types.Null;
     MonitoringEnabled := types.Known false; SNMPEnabled := types.Known true;
     SNMPVersion := types.Known "2c"; SNMPPort := types.Known 161;
     SNMPv3SecurityLevel := types.Null; SNMPv3Username := types.Null;
     SNMPv3AuthProtocol := types.Null; SNMPv3AuthPassword := types.Null;
     SNMPv3PrivProtocol := types.Null; SNMPv3PrivPassword := types.Null;
     InsertedAt := types.Known "2024-01-01T00:00:00Z" |}.

Definition rs : SiteResource.t (list http.Outcome) :=
  {| SiteResource.client := httptest.client |}.

Definition sstate : SiteResourceModel.t :=
  {| SiteResourceModel.ID := types.Known "S1";
     SiteResourceModel.Name := types.Known "Main Office";
     SiteResourceModel.Location := types.Known "New York, NY";
     SiteResourceModel.SNMPCommunity := types.Known "public";
     SiteResourceModel.InsertedAt := types.Known "2024-01-01T00:00:00Z" |}.

Definition sanswer : http.Outcome :=
  http.Response 200
    (Document (JObject [("id", JString "S1"); ("name", JString "Main Office");
                        ("inserted_at", JString "2024-01-01T00:00:00Z")])).

Definition site : Site.t :=
  {| Site.ID := "S1"; Site.Name := "Main Office"; Site.Location := None;
     Site.SNMPCommunity := None; Site.InsertedAt := "2024-01-01T00:00:00Z" |}.

Definition ws : World (list http.Outcome) := httptest.NewServer [sanswer; sanswer].

Definition ws1 : World (list http.Outcome) :=
  {| remote := [sanswer]; calls := [Call "GET" "/api/v1/sites/S1" None] |}.

Definition ws2 : World (list http.Outcome) :=
  {| remote := [];
     calls := [Call "GET" "/api/v1/sites/S1" None; Call "GET" "/api/v1/sites/S1" None] |}.

End ReadRun.

(** A bound device at site-123 whose declaration now names site-B; the
    server deletes the old device and creates the new one. *)
Module ReparentRun.
Import DeviceResourceModel.

Definition r : DeviceResource.t (list http.Outcome) :=
  {| DeviceResource.client := httptest.client |}.

Definition prior : DeviceResourceModel.t := DeleteRun.state.

Definition config : DeviceResourceModel.t :=
  {| ID := types.Null; SiteID := types.Known "site-B";
     OrganizationID := types.Null; Name := types.Known "Test Device";
     IPAddress := types.Known "192.168.1.1"; Description := types.Null;
     MonitoringEnabled := types.Null; SNMPEnabled := types.Null;
     SNMPVersion := types.Null; SNMPPort := types.Null;
     SNMPv3SecurityLevel := types.Null; SNMPv3Username := types.Null;
     SNMPv3AuthProtocol := types.Null; SNMPv3AuthPassword := types.Null;
     SNMPv3PrivProtocol := types.Null; SNMPv3PrivPassword := types.Null;
     InsertedAt := types.Null |}.

Definition w : World (list http.Outcome) :=
  httptest.NewServer
    [http.Response 204 (Malformed "");
     http.Response 201
       (Document (JObject [("id", JString "D2"); ("site_id", JString "site-B");
                           ("name", JString "Test Device");
                           ("ip_address", JString "192.168.1.1");
                           ("inserted_at", JString "2024-03-03T00:00:00Z")]))].

End ReparentRun.

(** A bound device with both parents whose declaration changes only the
    address. *)
Module InPlaceRun.
Import DeviceResourceModel.

Definition prior : DeviceResourceModel.t :=
  {| ID := types.Known "D1"; SiteID := types.Known "site-A";
     OrganizationID := types.Known "org-1"; Name := types.Known "Core Router";
     IPAddress := types.Known "192.168.1.1"; Description := types.Null;
     MonitoringEnabled := types.Known true; SNMPEnabled := types.Known true;
     SNMPVersion := types.Known "2c"; SNMPPort := types.Known 161;
     SNMPv3SecurityLevel := types.Null; SNMPv3Username := types.Null;
     SNMPv3AuthProtocol := types.Null; SNMPv3AuthPassword := types.Null;
     SNMPv3PrivProtocol := types.Null; SNMPv3PrivPassword := types.Null;
     InsertedAt := types.Known "2024-01-01T00:00:00Z" |}.

Definition config : DeviceResourceModel.t :=
  set_IPAddress (types.Known "192.168.1.2") BothParentsRun.config.

Definition plan : DeviceResourceModel.t :=
  set_IPAddress (types.Known "192.168.1.2") prior.

End InPlaceRun.

(** An update of a site that meets a 404 and is created again, and updates
    of a site and of a device that go through. *)
Module SiteRun.
Import SiteResourceModel.

Definition r : SiteResource.t (list http.Outcome) :=
  {| SiteResource.client := httptest.client |}.

Definition plan : SiteResourceModel.t :=
  {| ID := types.Known "S1"; Name := types.Known "Updated Name";
     Location := types.Known "Boston"; SNMPCommunity := types.Null;
     InsertedAt := types.Known "2024-01-01T00:00:00Z" |}.

Definition created : Site.t :=
  {| Site.ID := "S2"; Site.Name := "Updated Name"; Site.Location := Some "Boston";
     Site.SNMPCommunity := None; Site.InsertedAt := "2024-02-02T00:00:00Z" |}.

Definition w : World (list http.Outcome) :=
  httptest.NewServer
    [http.Response 404 (Document (JObject [("error", JString "site not found")]));
     http.Response 201 (Document (Site.Marshal created))].

Definition w1 : World (list http.Outcome) :=
  Eval vm_compute in
    snd (Client.UpdateSite (SiteResource.client r) "S1" (SiteResource.site_of plan) w).

Definition w2 : World (list http.Outcome) :=
  Eval vm_compute in
    snd (Client.CreateSite (SiteResource.client r) (SiteResource.site_of plan) w1).

Definition updated : Site.t :=
  {| Site.ID := "S9"; Site.Name := "Updated Name"; Site.Location := None;
     Site.SNMPCommunity := None; Site.InsertedAt := "2030-01-01T00:00:00Z" |}.

Definition wu : World (list http.Outcome) :=
  httptest.NewServer [http.Response 200 (Document (Site.Marshal updated))].

Definition wu1 : World (list http.Outcome) :=
  Eval vm_compute in
    snd (Client.UpdateSite (SiteResource.client r) "S1" (SiteResource.site_of plan) wu).

Definition dupdated : Device.t := Device.set_ID "D9" CreateEchoRun.created.

Definition wd : World (list http.Outcome) :=
  httptest.NewServer [http.Response 200 (Document (Device.Marshal dupdated))].

Definition wd1 : World (list http.Outcome) :=
  Eval vm_compute in
    snd (Client.UpdateDevice (DeviceResource.client RecreateRun.r) "D1"
                             (DeviceResource.device_of RecreateRun.plan) wd).

Definition wc1 : World (list http.Outcome) :=
  Eval vm_compute in
    snd (Client.CreateDevice (DeviceResource.client CreateEchoRun.r)
                             (DeviceResource.device_of CreateEchoRun.plan) CreateEchoRun.w).

End SiteRun.

(** An update that meets a 404 on a server that runs the device with
    SNMPv3: the declaration asks for version 3 and leaves the six SNMPv3
    attributes out, the server answers the update with 404 and the create
    with a device that carries the security level, user and protocols it
    uses. *)
Module SNMPv3Run.
Import DeviceResourceModel.

Definition r : DeviceResource.t (list http.Outcome) :=
  {| DeviceResource.client := httptest.client |}.

Definition plan : DeviceResourceModel.t :=
  {| ID := types.Known "D1"; SiteID := types.Known "site-123";
     OrganizationID := types.Null; Name := types.Known "Core Router";
     IPAddress := types.Known "192.168.1.2"; Description := types.Null;
     MonitoringEnabled := types.Known true; SNMPEnabled := types.Known true;
     SNMPVersion := types.Known "3"; SNMPPort := types.Known 161;
     SNMPv3SecurityLevel := types.Null; SNMPv3Username := types.Null;
     SNMPv3AuthProtocol := types.Null; SNMPv3AuthPassword := types.Null;
     SNMPv3PrivProtocol := types.Null; SNMPv3PrivPassword := types.Null;
     InsertedAt := types.Known "2024-01-01T00:00:00Z" |}.

Definition created : Device.t :=
  {| Device.ID := "D2"; Device.SiteID := Some "site-123"; Device.OrganizationID := None;
     Device.Name := Some "Core Router"; Device.IPAddress := "192.168.1.2";
     Device.Description := None;
     Device.MonitoringEnabled := Some true; Device.SNMPEnabled := Some true;
     Device.SNMPVersion := Some "3"; Device.SNMPPort := Some 161;
     Device.SNMPv3SecurityLevel := Some "authPriv"; Device.SNMPv3Username := Some "admin";
     Device.SNMPv3AuthProtocol := Some "SHA-256"; Device.SNMPv3AuthPassword := None;
     Device.SNMPv3PrivProtocol := Some "AES"; Device.SNMPv3PrivPassword := None;
     Device.CheckIntervalSeconds := None;
     Device.InsertedAt := "2024-02-02T00:00:00Z" |}.

Definition w : World (list http.Outcome) :=
  httptest.NewServer
    [http.Response 404 (Document (JObject [("error", JString "device not found")]));
     http.Response 201 (Document (Device.Marshal created))].

Definition w1 : World (list http.Outcome) :=
  Eval vm_compute in
    snd (Client.UpdateDevice (DeviceResource.client r) "D1"
                             (DeviceResource.device_of plan) w).

Definition w2 : World (list http.Outcome) :=
  Eval vm_compute in
    snd (Client.CreateDevice (DeviceResource.client r) (DeviceResource.device_of plan) w1).

(** The same server when the device is still there: the update is answered
    with the device. *)
Definition wu : World (list http.Outcome) :=
  httptest.NewServer [http.Response 200 (Document (Device.Marshal created))].

Definition written : DeviceResourceModel.t :=
  {| ID := types.Known "D2"; SiteID := types.Known "site-123";
     OrganizationID := types.Null; Name := types.Known "Core Router";
     IPAddress := types.Known "192.168.1.2"; Description := types.Null;
     MonitoringEnabled := types.Known true; SNMPEnabled := types.Known true;
     SNMPVersion := types.Known "3"; SNMPPort := types.Known 161;
     SNMPv3SecurityLevel := types.Null; SNMPv3Username := types.Null;
     SNMPv3AuthProtocol := types.Null; SNMPv3AuthPassword := types.Null;
     SNMPv3PrivProtocol := types.Null; SNMPv3PrivPassword := types.Null;
     InsertedAt := types.Known "2024-02-02T00:00:00Z" |}.

End SNMPv3Run.

(** A bound device with both parents whose declaration no longer names the
    site and is otherwise as before; a server that is never asked. *)
Module DropParentRun.
Import DeviceResourceModel.

Definition r : DeviceResource.t (list http.Outcome) :=
  {| DeviceResource.client := httptest.client |}.

Definition prior : DeviceResourceModel.t := InPlaceRun.prior.

Definition config : DeviceResourceModel.t :=
  set_SiteID types.Null BothParentsRun.config.

Definition w : World (list http.Outcome) := httptest.NewServer [].

End DropParentRun.

(** * Vocabulary of the statements *)
Section Vocabulary.
Context {S : Type}.
Import DeviceResourceModel.

(** The three operations that change a device. *)
Inductive operation : Type :=
| ApplyCreate (plan : DeviceResourceModel.t)
| ApplyUpdate (plan : DeviceResourceModel.t)
| ApplyDelete (state : DeviceResourceModel.t).

Definition run (r : DeviceResource.t S) (op : operation)
  : M S (Response DeviceResourceModel.t) :=
  match op with
  | ApplyCreate plan => DeviceResource.Create r plan
  | ApplyUpdate plan => DeviceResource.Update r plan
  | ApplyDelete state => DeviceResource.Delete r state
  end.

Definition stored_after (op : operation) (prior : option DeviceResourceModel.t)
           (resp : Response DeviceResourceModel.t) : option DeviceResourceModel.t :=
  match op with
  | ApplyDelete _ => fwserver.commit_delete prior resp
  | _ => fwserver.commit prior resp
  end.

Definition failed {A} (res : Result A) : bool :=
  match res with Err _ => true | Ok _ => false end.

Definition failed_other_than_not_found {A} (res : Result A) : bool :=
  match res with Err err => negb (errors_Is_ErrNotFound err) | Ok _ => false end.

(** The client call of the operation fails with an error other than
    [ErrNotFound]; or, for an update, it fails with [ErrNotFound] and the
    create that follows fails. *)
Definition client_fails (r : DeviceResource.t S) (op : operation) (w : World S) : bool :=
  let c := DeviceResource.client r in
  match op with
  | ApplyCreate plan =>
      failed_other_than_not_found (fst (Client.CreateDevice c (DeviceResource.device_of plan) w))
  | ApplyUpdate plan =>
      let device := DeviceResource.device_of plan in
      let (res, w1) := Client.UpdateDevice c (types.ValueString (ID plan)) device w in
      failed_other_than_not_found res
      || (failed res && failed (fst (Client.CreateDevice c device w1)))
  | ApplyDelete state =>
      match fst (Client.DeleteDevice c (types.ValueString (ID state)) w) with
      | Some err => negb (errors_Is_ErrNotFound err)
      | None => false
      end
  end.

(** Two refreshes in a row. *)
Definition RefreshDeviceTwice (r : DeviceResource.t S) (stored : option DeviceResourceModel.t)
  : M S (list Diagnostic * option DeviceResourceModel.t) :=
  first <- fwserver.Device.Refresh r stored ;;
  fwserver.Device.Refresh r (snd first).

Definition RefreshSiteTwice (r : SiteResource.t S) (stored : option SiteResourceModel.t)
  : M S (list Diagnostic * option SiteResourceModel.t) :=
  first <- fwserver.Site.Refresh r stored ;;
  fwserver.Site.Refresh r (snd first).

(** What a client method sends: the one call it adds to the record. *)
Definition sends {A} (m : M S A) (w : World S) (method path : string) (body : option json)
  : Prop :=
  calls (snd (m w)) = (calls w ++ [Call method path body])%list.

(** What a client method returns: the bytes [doRequest] gave, decoded
    directly into the resource. *)
Definition returns_decoded {A} (c : Client.t S) (unmarshal : bytes -> option A)
           (m : M S (Result A)) (w : World S) (method path : string) (body : option json)
  : Prop :=
  fst (m w) = Client.decode unmarshal (fst (Client.doRequest c method path body w)).

End Vocabulary.


(** The integers of a device fit Go's [int]. *)
Definition Device_in_range (d : Device.t) : bool :=
  match Device.SNMPPort d with Some n => in_int64 n | None => true end
  && match Device.CheckIntervalSeconds d with Some n => in_int64 n | None => true end.

(** A remote system that gives the same answer to every request. *)
Module httpfixed.

Definition always (out : http.Outcome) : http.Client unit :=
  {| http.NewRequest_ok := fun _ _ => true;
     http.Do := fun _ s => (out, s) |}.

Definition client (out : http.Outcome) : Client.t unit :=
  Client.NewClient "test-token" "http://127.0.0.1" (always out).

Definition start : World unit := {| remote := tt; calls := [] |}.

End httpfixed.

Section ClientVocabulary.
Context {S : Type}.

(** The request [doRequest] builds for a call. *)
Definition request_of (c : Client.t S) (method path : string) (body : option json)
  : http.Request :=
  {| http.Method := method;
     http.URL := Client.BaseURL c ++ path;
     http.Header := [("Authorization", "Bearer " ++ Client.Token c);
                     ("Content-Type", "application/json");
                     ("Accept", "application/json")];
     http.Body := body |}.

(** What [doRequest] makes of the outcome of the round trip. *)
Definition outcome_result (out : http.Outcome) : Result bytes :=
  match out with
  | http.DoError cause => Err (ErrRequestFailed cause)
  | http.ReadError cause => Err (ErrReadBody cause)
  | http.Response code respBody =>
      if code >=? 400 then
        if code =? 404 then Err ErrNotFound
        else
          match APIError.Unmarshal respBody with
          | Some apiErr =>
              if negb (APIError.Error apiErr =? "")%string then
                Err (ErrAPI code (APIError.Error apiErr))
              else if (0 <? length (APIError.Errors apiErr))%nat then
                Err (ErrAPIValidation code (APIError.Errors apiErr))
              else Err (ErrAPIBody code respBody)
          | None => Err (ErrAPIBody code respBody)
          end
      else Ok respBody
  end.

(** In the state [s], the remote system accepts every method and URL and
    gives every request the answer [code] with [body]. *)
Definition always_answers (h : http.Client S) (s : S) (code : Z) (body : bytes) : Prop :=
  (forall method url, http.NewRequest_ok h method url = true) /\
  (forall req, fst (http.Do h req s) = http.Response code body).

End ClientVocabulary.

(** The calls of an update: the PATCH, and a POST after it exactly when the
    PATCH came back with [ErrNotFound]. *)
Definition update_calls {A} (res : Result A) (kind id : string) (body : json) : list call :=
  Call "PATCH" ("/api/v1/" ++ kind ++ "/" ++ id) (Some body)
  :: match res with
     | Err err =>
         if errors_Is_ErrNotFound err
         then [Call "POST" ("/api/v1/" ++ kind) (Some body)]
         else []
     | Ok _ => []
     end.

(** The member a planned attribute contributes to a payload: none when the
    attribute is null, one otherwise (an unknown attribute contributes the
    zero value its accessor returns). *)
Definition member {A B} (key : string) (enc : B -> json) (get : types.Value A -> B)
           (v : types.Value A) : list (string * json) :=
  if types.IsNull v then [] else [(key, enc (get v))].

(** In the object [fields], the member [key] is there exactly when the
    planned attribute [v] is not null, and then with the value the accessor
    [get] returns for it. *)
Definition member_when_set {A B} (fields : list (string * json)) (key : string)
           (enc : B -> json) (get : types.Value A -> B) (v : types.Value A) : Prop :=
  forall value,
    In (key, value) fields <-> types.IsNull v = false /\ value = enc (get v).

(** * Properties *)

(** ** The client: what a call records and returns *)
Section ClientFacts.
Context {S : Type}.
Implicit Types (c : Client.t S) (w : World S).

(** Running a computation after another. *)
Lemma bind_run {A B} (m : M S A) (k : A -> M S B) w :
  bind m k w = k (fst (m w)) (snd (m w)).
Proof. unfold bind. destruct (m w); reflexivity. Qed.

(** Every call of [doRequest] is recorded, once, whatever comes of it. *)
Lemma doRequest_calls c method path body w :
  calls (snd (Client.doRequest c method path body w))
  = (calls w ++ [Call method path body])%list.
Proof.
  unfold Client.doRequest.
  rewrite bind_run. cbn [record_call fst snd].
  destruct (negb _); [reflexivity|].
  rewrite bind_run. unfold round_trip at 2. cbn [remote calls].
  destruct (http.Do _ _ _) as [out s] eqn:E.
  unfold round_trip. cbn [remote calls]. rewrite E. cbn [fst snd].
  destruct out as [cause|cause|code respBody]; try reflexivity.
  destruct (code >=? 400); [|reflexivity].
  destruct (code =? http.StatusNotFound); [reflexivity|].
  destruct (APIError.Unmarshal respBody) as [apiErr|]; [|reflexivity].
  destruct (negb _); [reflexivity|].
  destruct (0 <? _)%nat; reflexivity.
Qed.

(** Lines 347-350 of [doRequest]: a 404 answer is [ErrNotFound], whatever the
    body says. *)
Lemma doRequest_not_found c method path body w respBody s :
  http.NewRequest_ok (Client.HTTPClient c) method (Client.BaseURL c ++ path) = true ->
  http.Do (Client.HTTPClient c)
          {| http.Method := method;
             http.URL := Client.BaseURL c ++ path;
             http.Header := [("Authorization", "Bearer " ++ Client.Token c);
                             ("Content-Type", "application/json");
                             ("Accept", "application/json")];
             http.Body := body |}
          (remote w) = (http.Response 404 respBody, s) ->
  Client.doRequest c method path body w
  = (Err ErrNotFound, {| remote := s; calls := calls w ++ [Call method path body] |}).
Proof.
  intros Hok Hdo. unfold Client.doRequest.
  rewrite bind_run. cbn [record_call fst snd].
  rewrite Hok. cbn [negb].
  rewrite bind_run. unfold round_trip. cbn [remote calls].
  rewrite Hdo. reflexivity.
Qed.

Lemma CreateDevice_run c device w :
  Client.CreateDevice c device w
  = (Client.decode Device.Unmarshal
       (fst (Client.doRequest c http.MethodPost "/api/v1/devices"
                              (Some (Client.device_body device)) w)),
     snd (Client.doRequest c http.MethodPost "/api/v1/devices"
                           (Some (Client.device_body device)) w)).
Proof. unfold Client.CreateDevice. rewrite bind_run. reflexivity. Qed.

Lemma UpdateDevice_run c id device w :
  Client.UpdateDevice c id device w
  = (Client.decode Device.Unmarshal
       (fst (Client.doRequest c http.MethodPatch ("/api/v1/devices/" ++ id)
                              (Some (Client.device_body device)) w)),
     snd (Client.doRequest c http.MethodPatch ("/api/v1/devices/" ++ id)
                           (Some (Client.device_body device)) w)).
Proof. unfold Client.UpdateDevice. rewrite bind_run. reflexivity. Qed.

Lemma GetDevice_run c id w :
  Client.GetDevice c id w
  = (Client.decode Device.Unmarshal
       (fst (Client.doRequest c http.MethodGet ("/api/v1/devices/" ++ id) None w)),
     snd (Client.doRequest c http.MethodGet ("/api/v1/devices/" ++ id) None w)).
Proof. unfold Client.GetDevice. rewrite bind_run. reflexivity. Qed.

Lemma DeleteDevice_run c id w :
  Client.DeleteDevice c id w
  = (Client.only_error
       (fst (Client.doRequest c http.MethodDelete ("/api/v1/devices/" ++ id) None w)),
     snd (Client.doRequest c http.MethodDelete ("/api/v1/devices/" ++ id) None w)).
Proof. unfold Client.DeleteDevice. rewrite bind_run. reflexivity. Qed.

Lemma CreateSite_run c site w :
  Client.CreateSite c site w
  = (Client.decode Site.Unmarshal
       (fst (Client.doRequest c http.MethodPost "/api/v1/sites"
                              (Some (Client.site_body site)) w)),
     snd (Client.doRequest c http.MethodPost "/api/v1/sites"
                           (Some (Client.site_body site)) w)).
Proof. unfold Client.CreateSite. rewrite bind_run. reflexivity. Qed.

Lemma UpdateSite_run c id site w :
  Client.UpdateSite c id site w
  = (Client.decode Site.Unmarshal
       (fst (Client.doRequest c http.MethodPatch ("/api/v1/sites/" ++ id)
                              (Some (Client.site_body site)) w)),
     snd (Client.doRequest c http.MethodPatch ("/api/v1/sites/" ++ id)
                           (Some (Client.site_body site)) w)).
Proof. unfold Client.UpdateSite. rewrite bind_run. reflexivity. Qed.

Lemma GetSite_run c id w :
  Client.GetSite c id w
  = (Client.decode Site.Unmarshal
       (fst (Client.doRequest c http.MethodGet ("/api/v1/sites/" ++ id) None w)),
     snd (Client.doRequest c http.MethodGet ("/api/v1/sites/" ++ id) None w)).
Proof. unfold Client.GetSite. rewrite bind_run. reflexivity. Qed.

Lemma DeleteSite_run c id w :
  Client.DeleteSite c id w
  = (Client.only_error
       (fst (Client.doRequest c http.MethodDelete ("/api/v1/sites/" ++ id) None w)),
     snd (Client.doRequest c http.MethodDelete ("/api/v1/sites/" ++ id) None w)).
Proof. unfold Client.DeleteSite. rewrite bind_run. reflexivity. Qed.

(** The calls a client method adds. *)
Lemma CreateDevice_calls c device w :
  calls (snd (Client.CreateDevice c device w))
  = (calls w ++ [Call "POST" "/api/v1/devices" (Some (Client.device_body device))])%list.
Proof. rewrite CreateDevice_run. apply doRequest_calls. Qed.

Lemma UpdateDevice_calls c id device w :
  calls (snd (Client.UpdateDevice c id device w))
  = (calls w ++ [Call "PATCH" ("/api/v1/devices/" ++ id) (Some (Client.device_body device))])%list.
Proof. rewrite UpdateDevice_run. apply doRequest_calls. Qed.

Lemma GetDevice_calls c id w :
  calls (snd (Client.GetDevice c id w))
  = (calls w ++ [Call "GET" ("/api/v1/devices/" ++ id) None])%list.
Proof. rewrite GetDevice_run. apply doRequest_calls. Qed.

Lemma DeleteDevice_calls c id w :
  calls (snd (Client.DeleteDevice c id w))
  = (calls w ++ [Call "DELETE" ("/api/v1/devices/" ++ id) None])%list.
Proof. rewrite DeleteDevice_run. apply doRequest_calls. Qed.

End ClientFacts.

Lemma doRequest_not_found_witness :
  Client.doRequest httptest.client "DELETE" "/api/v1/devices/D1" None DeleteRun.w
  = (Err ErrNotFound, DeleteRun.w1).
Proof.
  exact (doRequest_not_found httptest.client "DELETE" "/api/v1/devices/D1" None DeleteRun.w
                             (Document (JObject [("error", JString "device not found")]))
                             [] eq_refl eq_refl).
Defined.

(** ** The handlers: how a run decomposes *)
Section HandlerFacts.
Context {S : Type}.

Lemma Create_calls (r : DeviceResource.t S) (plan : DeviceResourceModel.t) (w : World S) :
  calls (snd (DeviceResource.Create r plan w))
  = (calls w ++ [Call "POST" "/api/v1/devices"
                      (Some (Client.device_body (DeviceResource.device_of plan)))])%list.
Proof.
  unfold DeviceResource.Create. rewrite bind_run.
  pose proof (CreateDevice_calls (DeviceResource.client r)
                                 (DeviceResource.device_of plan) w) as Hc.
  destruct (Client.CreateDevice _ _ w) as [[created|err] w1]; exact Hc.
Qed.

Lemma Delete_run (r : DeviceResource.t S) (state : DeviceResourceModel.t) (w : World S) :
  DeviceResource.Delete r state w
  = (match fst (Client.DeleteDevice (DeviceResource.client r)
                  (types.ValueString (DeviceResourceModel.ID state)) w) with
     | Some err => {| Diagnostics := [AddError "Failed to delete device" err];
                      State := Untouched |}
     | None => {| Diagnostics := []; State := Untouched |}
     end,
     snd (Client.DeleteDevice (DeviceResource.client r)
            (types.ValueString (DeviceResourceModel.ID state)) w)).
Proof.
  unfold DeviceResource.Delete. rewrite bind_run.
  destruct (fst (Client.DeleteDevice _ _ w)); reflexivity.
Qed.

End HandlerFacts.

(** ** Recovery when the device vanished before an update *)

(** C1 at its failing input.  The update meets a 404 and the create that
    follows returns the device D2 with snmp_version "3", security level
    "authPriv", user "admin" and the protocols "SHA-256" and "AES".  The
    state [Update] writes takes the id D2, inserted_at and snmp_version "3"
    from that response and leaves the SNMPv3 attributes null, as planned.
    On the same plan and the same device, the branch of [Update] after a
    successful PATCH stores all four, and so does [Read] on the state just
    written. *)
Lemma recreate_leaves_out_the_servers_snmpv3 :
  fst (Client.UpdateDevice (DeviceResource.client SNMPv3Run.r) "D1"
         (DeviceResource.device_of SNMPv3Run.plan) SNMPv3Run.w)
  = Err ErrNotFound /\
  fst (Client.CreateDevice (DeviceResource.client SNMPv3Run.r)
         (DeviceResource.device_of SNMPv3Run.plan) SNMPv3Run.w1)
  = Ok SNMPv3Run.created /\
  DeviceResource.Update SNMPv3Run.r SNMPv3Run.plan SNMPv3Run.w
  = ({| Diagnostics := []; State := Written SNMPv3Run.written |}, SNMPv3Run.w2) /\
  (DeviceResourceModel.ID SNMPv3Run.written,
   DeviceResourceModel.InsertedAt SNMPv3Run.written,
   DeviceResourceModel.SNMPVersion SNMPv3Run.written)
  = (types.Known "D2", types.Known "2024-02-02T00:00:00Z", types.Known "3") /\
  (Device.SNMPv3SecurityLevel SNMPv3Run.created, Device.SNMPv3Username SNMPv3Run.created,
   Device.SNMPv3AuthProtocol SNMPv3Run.created, Device.SNMPv3PrivProtocol SNMPv3Run.created)
  = (Some "authPriv", Some "admin", Some "SHA-256", Some "AES") /\
  (DeviceResourceModel.SNMPv3SecurityLevel SNMPv3Run.written,
   DeviceResourceModel.SNMPv3Username SNMPv3Run.written,
   DeviceResourceModel.SNMPv3AuthProtocol SNMPv3Run.written,
   DeviceResourceModel.SNMPv3PrivProtocol SNMPv3Run.written)
  = (types.Null, types.Null, types.Null, types.Null) /\
  (exists updated,
      fst (DeviceResource.Update SNMPv3Run.r SNMPv3Run.plan SNMPv3Run.wu)
      = {| Diagnostics := []; State := Written updated |} /\
      (DeviceResourceModel.SNMPv3SecurityLevel updated,
       DeviceResourceModel.SNMPv3Username updated,
       DeviceResourceModel.SNMPv3AuthProtocol updated,
       DeviceResourceModel.SNMPv3PrivProtocol updated)
      = (types.Known "authPriv", types.Known "admin",
         types.Known "SHA-256", types.Known "AES")) /\
  (exists refreshed,
      fst (DeviceResource.Read SNMPv3Run.r SNMPv3Run.written SNMPv3Run.wu)
      = {| Diagnostics := []; State := Written refreshed |} /\
      (DeviceResourceModel.SNMPv3SecurityLevel refreshed,
       DeviceResourceModel.SNMPv3Username refreshed,
       DeviceResourceModel.SNMPv3AuthProtocol refreshed,
       DeviceResourceModel.SNMPv3PrivProtocol refreshed)
      = (types.Known "authPriv", types.Known "admin",
         types.Known "SHA-256", types.Known "AES")).
Proof.
  repeat split.
  - eexists. split; reflexivity.
  - eexists. split; reflexivity.
Qed.

Section Recreate.
Context {S : Type}.
Import DeviceResourceModel.

(** X20.  The recovery of a device.  When the update call of [Update] comes
    back with [ErrNotFound], the handler calls [CreateDevice] once, with the
    device it had sent in the update, and nothing else.  If that create
    succeeds, the state it writes carries the created device's id (whatever
    id the plan held), its [inserted_at], [ip_address], [site_id] and
    [organization_id], and each of name, description, monitoring_enabled,
    snmp_enabled, snmp_version and snmp_port the response carries (the
    planned one otherwise); the six SNMPv3 attributes stay as planned,
    whatever the response carries.  If it fails, the only diagnostic is
    "Failed to create device (after 404 on update)" with the create error,
    which is not the summary of a failed update, and no state is written. *)
Theorem update_not_found_recreates
        (r : DeviceResource.t S) (plan : DeviceResourceModel.t)
        (w w1 w2 : World S) (cres : Result Device.t) :
  Client.UpdateDevice (DeviceResource.client r) (types.ValueString (ID plan))
                      (DeviceResource.device_of plan) w = (Err ErrNotFound, w1) ->
  Client.CreateDevice (DeviceResource.client r) (DeviceResource.device_of plan) w1
  = (cres, w2) ->
  exists resp,
    DeviceResource.Update r plan w = (resp, w2) /\
    calls w2
    = (calls w
       ++ [Call "PATCH" ("/api/v1/devices/" ++ types.ValueString (ID plan))
                (Some (Client.device_body (DeviceResource.device_of plan)));
           Call "POST" "/api/v1/devices"
                (Some (Client.device_body (DeviceResource.device_of plan)))])%list /\
    match cres with
    | Ok created =>
        Diagnostics resp = [] /\
        exists data,
          State resp = Written data /\
          ID data = types.Known (Device.ID created) /\
          InsertedAt data = types.Known (Device.InsertedAt created) /\
          IPAddress data = types.Known (Device.IPAddress created) /\
          SiteID data = ptr_or_null (Device.SiteID created) /\
          OrganizationID data = ptr_or_null (Device.OrganizationID created) /\
          Name data = ptr_or_keep (Device.Name created) (Name plan) /\
          Description data = ptr_or_keep (Device.Description created) (Description plan) /\
          MonitoringEnabled data
          = ptr_or_keep (Device.MonitoringEnabled created) (MonitoringEnabled plan) /\
          SNMPEnabled data = ptr_or_keep (Device.SNMPEnabled created) (SNMPEnabled plan) /\
          SNMPVersion data = ptr_or_keep (Device.SNMPVersion created) (SNMPVersion plan) /\
          SNMPPort data
          = ptr_or_keep (option_map int64 (Device.SNMPPort created)) (SNMPPort plan) /\
          SNMPv3SecurityLevel data = SNMPv3SecurityLevel plan /\
          SNMPv3Username data = SNMPv3Username plan /\
          SNMPv3AuthProtocol data = SNMPv3AuthProtocol plan /\
          SNMPv3AuthPassword data = SNMPv3AuthPassword plan /\
          SNMPv3PrivProtocol data = SNMPv3PrivProtocol plan /\
          SNMPv3PrivPassword data = SNMPv3PrivPassword plan
    | Err createErr =>
        Diagnostics resp
        = [AddError "Failed to create device (after 404 on update)" createErr] /\
        State resp = Untouched /\
        "Failed to create device (after 404 on update)" <> "Failed to update device"
    end.
Proof.
  intros Hupd Hcre.
  assert (Hcalls : calls w2
    = (calls w
       ++ [Call "PATCH" ("/api/v1/devices/" ++ types.ValueString (ID plan))
                (Some (Client.device_body (DeviceResource.device_of plan)));
           Call "POST" "/api/v1/devices"
                (Some (Client.device_body (DeviceResource.device_of plan)))])%list).
  { pose proof (CreateDevice_calls (DeviceResource.client r)
                                   (DeviceResource.device_of plan) w1) as H2.
    pose proof (UpdateDevice_calls (DeviceResource.client r)
                  (types.ValueString (ID plan)) (DeviceResource.device_of plan) w) as H1.
    rewrite Hcre in H2. rewrite Hupd in H1. cbn [snd] in H1, H2.
    rewrite H2, H1, <- app_assoc. reflexivity. }
  unfold DeviceResource.Update.
  rewrite bind_run, Hupd. cbn [fst snd errors_Is_ErrNotFound].
  rewrite bind_run, Hcre. cbn [fst snd].
  destruct cres as [created|createErr]; eexists; (split; [reflexivity|]);
    (split; [exact Hcalls|]); cbn [Diagnostics State].
  - split; [reflexivity|]. eexists. split; [reflexivity|].
    repeat split.
  - repeat split. discriminate.
Qed.

End Recreate.

Lemma update_not_found_recreates_witness :
  exists resp,
    DeviceResource.Update RecreateRun.r RecreateRun.plan RecreateRun.w
    = (resp, RecreateRun.w2) /\
    length (calls RecreateRun.w2) = 2%nat /\
    exists data, State resp = Written data /\
                 DeviceResourceModel.ID data = types.Known "D2".
Proof.
  destruct (update_not_found_recreates RecreateRun.r RecreateRun.plan
              RecreateRun.w RecreateRun.w1 RecreateRun.w2 RecreateRun.cres
              eq_refl eq_refl)
    as (resp & Hrun & Hcalls & Hdiag & data & Hstate & Hid & _).
  exists resp. split; [exact Hrun|]. split; [reflexivity|].
  exists data. split; [exact Hstate|exact Hid].
Defined.

(** ** Delete *)

(** C2, as stated, fails: the delete call returns [ErrNotFound], and [Delete]
    reports it as an error; the instance keeps its state. *)
Lemma delete_not_found_is_reported :
  Client.DeleteDevice (DeviceResource.client DeleteRun.r) "D1" DeleteRun.w
  = (Some ErrNotFound, DeleteRun.w1) /\
  DeviceResource.Delete DeleteRun.r DeleteRun.state DeleteRun.w
  = ({| Diagnostics := [AddError "Failed to delete device" ErrNotFound];
        State := Untouched |}, DeleteRun.w1) /\
  HasError (fst (DeviceResource.Delete DeleteRun.r DeleteRun.state DeleteRun.w)) = true /\
  fwserver.commit_delete
    (Some DeleteRun.state)
    (fst (DeviceResource.Delete DeleteRun.r DeleteRun.state DeleteRun.w))
  = Some DeleteRun.state.
Proof. repeat split. Qed.

Section DeleteFacts.
Context {S : Type}.

(** C2, amended.  [Delete] of a device or a site succeeds, and the instance
    loses its state, exactly when the delete call returns no error.  Every
    error of the call, [ErrNotFound] like any other, is reported as "Failed to
    delete device" (or "site") with that error, and the instance keeps its
    state. *)
Theorem delete_surfaces_every_error
        (rd : DeviceResource.t S) (dstate : DeviceResourceModel.t)
        (rs : SiteResource.t S) (sstate : SiteResourceModel.t) (w : World S) :
  (exists resp,
      DeviceResource.Delete rd dstate w
      = (resp, snd (Client.DeleteDevice (DeviceResource.client rd)
                      (types.ValueString (DeviceResourceModel.ID dstate)) w)) /\
      match fst (Client.DeleteDevice (DeviceResource.client rd)
                   (types.ValueString (DeviceResourceModel.ID dstate)) w) with
      | Some err =>
          Diagnostics resp = [AddError "Failed to delete device" err] /\
          fwserver.commit_delete (Some dstate) resp = Some dstate
      | None =>
          Diagnostics resp = [] /\
          fwserver.commit_delete (Some dstate) resp = None
      end) /\
  (exists resp,
      SiteResource.Delete rs sstate w
      = (resp, snd (Client.DeleteSite (SiteResource.client rs)
                      (types.ValueString (SiteResourceModel.ID sstate)) w)) /\
      match fst (Client.DeleteSite (SiteResource.client rs)
                   (types.ValueString (SiteResourceModel.ID sstate)) w) with
      | Some err =>
          Diagnostics resp = [AddError "Failed to delete site" err] /\
          fwserver.commit_delete (Some sstate) resp = Some sstate
      | None =>
          Diagnostics resp = [] /\
          fwserver.commit_delete (Some sstate) resp = None
      end).
Proof.
  split.
  - unfold DeviceResource.Delete. rewrite bind_run.
    destruct (fst (Client.DeleteDevice _ _ w)) as [err|];
      eexists; (split; [reflexivity|]); split; reflexivity.
  - unfold SiteResource.Delete. rewrite bind_run.
    destruct (fst (Client.DeleteSite _ _ w)) as [err|];
      eexists; (split; [reflexivity|]); split; reflexivity.
Qed.

End DeleteFacts.

(** ** No write on a failed operation *)
Section Atomicity.
Context {S : Type}.
Import DeviceResourceModel.

(** C10.  When the client call of Create, Update or Delete fails with an
    error other than [ErrNotFound], or Update's create after a 404 fails, the
    handler reports an error and leaves [resp.State] alone, so the stored
    state after the operation is the stored state before it. *)
Theorem failed_operation_writes_nothing
        (r : DeviceResource.t S) (op : operation)
        (prior : option DeviceResourceModel.t) (w : World S) :
  client_fails r op w = true ->
  HasError (fst (run r op w)) = true /\
  State (fst (run r op w)) = Untouched /\
  stored_after op prior (fst (run r op w)) = prior.
Proof.
  destruct op as [plan|plan|state]; cbn [client_fails run stored_after].
  - unfold DeviceResource.Create. rewrite bind_run.
    destruct (fst (Client.CreateDevice _ _ w)) as [created|err]; cbn; [intros H; discriminate H|].
    intros _. repeat split.
  - unfold DeviceResource.Update. rewrite bind_run.
    destruct (Client.UpdateDevice _ _ _ w) as [[updated|err] w1]; cbn [fst snd].
    + cbn. intros H; discriminate H.
    + destruct err; cbn [errors_Is_ErrNotFound failed failed_other_than_not_found negb orb andb];
        try solve [intros _; repeat split].
      rewrite bind_run.
      destruct (fst (Client.CreateDevice _ _ w1)) as [created|createErr]; cbn;
        [intros H; discriminate H|].
      intros _. repeat split.
  - unfold DeviceResource.Delete. rewrite bind_run.
    destruct (fst (Client.DeleteDevice _ _ w)) as [err|]; cbn; [|intros H; discriminate H].
    intros _. repeat split.
Qed.

End Atomicity.

Lemma failed_operation_writes_nothing_witness :
  HasError (fst (run RecreateRun.r (ApplyUpdate RecreateRun.plan) FailedUpdateRun.w)) = true /\
  State (fst (run RecreateRun.r (ApplyUpdate RecreateRun.plan) FailedUpdateRun.w)) = Untouched /\
  stored_after (ApplyUpdate RecreateRun.plan) (Some DeleteRun.state)
               (fst (run RecreateRun.r (ApplyUpdate RecreateRun.plan) FailedUpdateRun.w))
  = Some DeleteRun.state.
Proof.
  apply (failed_operation_writes_nothing
           RecreateRun.r (ApplyUpdate RecreateRun.plan) (Some DeleteRun.state)
           FailedUpdateRun.w).
  vm_compute. reflexivity.
Defined.

(** ** Validation and defaults before Create *)

(** C3, as stated, fails: a device declared with both [site_id] and
    [organization_id] passes validation, and Create sends it, both parents in
    the payload. *)
Lemma both_parents_pass_validation :
  fwserver.Device.ValidateConfig BothParentsRun.config = [] /\
  exists resp,
    fwserver.Device.ApplyCreate BothParentsRun.r BothParentsRun.config BothParentsRun.w
    = (inr resp, {| remote := []; calls := [BothParentsRun.sent] |}) /\
    HasError resp = false.
Proof. split; [reflexivity|]. eexists. split; reflexivity. Qed.

Section Validation.
Context {S : Type}.
Import DeviceResourceModel.

Lemma in_check {A} (name : string) (a : schema.Attribute A) (v : types.Value A)
      (e : fwserver.FieldError) :
  In e (fwserver.check name a v) ->
  (schema.Required a = true /\ e = fwserver.MissingRequired name) \/
  (schema.Required a = false /\ schema.Optional a = false /\ e = fwserver.NotConfigurable name).
Proof.
  unfold fwserver.check. rewrite in_app_iff.
  destruct (schema.Required a), (schema.Optional a), (types.IsNull v); cbn; intuition.
Qed.

(** What validation can report at all: a missing [ip_address], or a value
    for the read-only [id] or [inserted_at]. *)
Lemma ValidateConfig_errors (config : DeviceResourceModel.t) (e : fwserver.FieldError) :
  In e (fwserver.Device.ValidateConfig config) ->
  e = fwserver.MissingRequired "ip_address" \/
  e = fwserver.NotConfigurable "id" \/
  e = fwserver.NotConfigurable "inserted_at".
Proof.
  unfold fwserver.Device.ValidateConfig. rewrite !in_app_iff.
  intros H.
  repeat match type of H with
         | _ \/ _ => destruct H as [H|H]
         end;
    apply in_check in H; cbn in H;
    destruct H as [[H1 H2]|(H1 & H2 & H3)]; try discriminate; auto.
Qed.

(** C3, amended.  No local check looks at the pair of parents: validation
    reports nothing but a missing [ip_address] or a configured [id] or
    [inserted_at].  When a device with both parents supplied passes it,
    Create makes its one call, POST /api/v1/devices, and the device sent
    carries both [site_id] and [organization_id]; refusing the pair is left
    to the server. *)
Theorem both_parents_are_sent
        (r : DeviceResource.t S) (config : DeviceResourceModel.t) (w : World S) :
  types.IsNull (SiteID config) = false ->
  types.IsNull (OrganizationID config) = false ->
  (forall e, In e (fwserver.Device.ValidateConfig config) ->
             e = fwserver.MissingRequired "ip_address" \/
             e = fwserver.NotConfigurable "id" \/
             e = fwserver.NotConfigurable "inserted_at") /\
  (fwserver.Device.ValidateConfig config = [] ->
   let device := DeviceResource.device_of (fwserver.Device.PlanCreate config) in
   exists resp w',
     fwserver.Device.ApplyCreate r config w = (inr resp, w') /\
     calls w' = (calls w ++ [Call "POST" "/api/v1/devices" (Some (Client.device_body device))])%list /\
     Device.SiteID device = Some (types.ValueString (SiteID config)) /\
     Device.OrganizationID device = Some (types.ValueString (OrganizationID config))).
Proof.
  intros Hs Ho. split; [apply ValidateConfig_errors|].
  intros Hvalid device.
  unfold fwserver.Device.ApplyCreate. rewrite Hvalid.
  rewrite bind_run. cbn [ret].
  exists (fst (DeviceResource.Create r (fwserver.Device.PlanCreate config) w)).
  exists (snd (DeviceResource.Create r (fwserver.Device.PlanCreate config) w)).
  split; [reflexivity|]. split.
  - unfold DeviceResource.Create. rewrite bind_run.
    pose proof (CreateDevice_calls (DeviceResource.client r) device w) as Hc.
    fold device.
    destruct (Client.CreateDevice (DeviceResource.client r) device w) as [[created|err] w1];
      exact Hc.
  - subst device. cbn [DeviceResource.device_of Device.SiteID Device.OrganizationID
                       fwserver.Device.PlanCreate SiteID OrganizationID].
    destruct (SiteID config), (OrganizationID config); try discriminate; split; reflexivity.
Qed.

(** C7.  A device declared without [monitoring_enabled], [snmp_enabled],
    [snmp_version] and [snmp_port] is planned with (true, true, "2c", 161),
    the defaults of the schema; the device Create builds from that plan holds
    the four values, Create's one call is the POST of that device, and the
    four members are in the JSON object sent. *)
Theorem defaults_reach_the_create_payload
        (r : DeviceResource.t S) (config : DeviceResourceModel.t) (w : World S) :
  MonitoringEnabled config = types.Null ->
  SNMPEnabled config = types.Null ->
  SNMPVersion config = types.Null ->
  SNMPPort config = types.Null ->
  let plan := fwserver.Device.PlanCreate config in
  let device := DeviceResource.device_of plan in
  (MonitoringEnabled plan, SNMPEnabled plan, SNMPVersion plan, SNMPPort plan)
  = (types.Known true, types.Known true, types.Known "2c", types.Known 161) /\
  (Device.MonitoringEnabled device, Device.SNMPEnabled device,
   Device.SNMPVersion device, Device.SNMPPort device)
  = (Some true, Some true, Some "2c", Some 161) /\
  calls (snd (DeviceResource.Create r plan w))
  = (calls w ++ [Call "POST" "/api/v1/devices" (Some (Client.device_body device))])%list /\
  exists fields,
    Client.device_body device = JObject [("device", JObject fields)] /\
    In ("monitoring_enabled", JBool true) fields /\
    In ("snmp_enabled", JBool true) fields /\
    In ("snmp_version", JString "2c") fields /\
    In ("snmp_port", JNumber 161) fields.
Proof.
  intros Hm He Hv Hp plan device.
  assert (Hplan : (MonitoringEnabled plan, SNMPEnabled plan, SNMPVersion plan, SNMPPort plan)
                  = (types.Known true, types.Known true, types.Known "2c", types.Known 161)).
  { subst plan. cbn [fwserver.Device.PlanCreate MonitoringEnabled SNMPEnabled SNMPVersion SNMPPort].
    rewrite Hm, He, Hv, Hp. reflexivity. }
  assert (Hdev : (Device.MonitoringEnabled device, Device.SNMPEnabled device,
                  Device.SNMPVersion device, Device.SNMPPort device)
                 = (Some true, Some true, Some "2c", Some 161)).
  { subst device plan.
    cbn [DeviceResource.device_of Device.MonitoringEnabled Device.SNMPEnabled
         Device.SNMPVersion Device.SNMPPort fwserver.Device.PlanCreate
         MonitoringEnabled SNMPEnabled SNMPVersion SNMPPort].
    rewrite Hm, He, Hv, Hp. reflexivity. }
  split; [exact Hplan|]. split; [exact Hdev|]. split.
  - unfold DeviceResource.Create. rewrite bind_run.
    pose proof (CreateDevice_calls (DeviceResource.client r) device w) as Hc.
    fold device.
    destruct (Client.CreateDevice (DeviceResource.client r) device w) as [[created|err] w1];
      exact Hc.
  - unfold Client.device_body, Device.Marshal. eexists. split; [reflexivity|].
    clear Hplan Hdev. subst device plan.
    cbn [DeviceResource.device_of Device.MonitoringEnabled Device.SNMPEnabled
         Device.SNMPVersion Device.SNMPPort fwserver.Device.PlanCreate
         MonitoringEnabled SNMPEnabled SNMPVersion SNMPPort].
    rewrite Hm, He, Hv, Hp.
    cbn [unless_null types.IsNull negb types.ValueBool types.ValueString types.ValueInt64
         encoding_json.omitempty_ptr].
    change (int 161) with 161.
    repeat split; rewrite !in_app_iff; cbn [In];
      repeat first [ left; left; reflexivity | right ].
Qed.

End Validation.

Lemma both_parents_are_sent_witness :
  exists resp w',
    fwserver.Device.ApplyCreate BothParentsRun.r BothParentsRun.config BothParentsRun.w
    = (inr resp, w') /\
    calls w' = [BothParentsRun.sent].
Proof.
  destruct (both_parents_are_sent BothParentsRun.r BothParentsRun.config BothParentsRun.w
                                  eq_refl eq_refl) as [_ H].
  destruct (H eq_refl) as (resp & w' & Hrun & Hcalls & _).
  exists resp, w'. split; [exact Hrun|exact Hcalls].
Defined.

Lemma defaults_reach_the_create_payload_witness :
  calls (snd (DeviceResource.Create BothParentsRun.r
                (fwserver.Device.PlanCreate BothParentsRun.config) BothParentsRun.w))
  = [BothParentsRun.sent].
Proof.
  exact (proj1 (proj2 (proj2 (defaults_reach_the_create_payload
                                BothParentsRun.r BothParentsRun.config BothParentsRun.w
                                eq_refl eq_refl eq_refl eq_refl)))).
Defined.

(** ** Create: what is taken from the response *)

(** C4 at its failing input.  The create call returns a device with
    description "Rack 4, row B", snmp_version "3" and snmp_port 162; the
    state [Create] writes takes id, inserted_at, site_id, organization_id and
    name from it, and keeps the planned "Rack 4", "2c" and 161.  The recovery
    branch of [Update] stores all three from the same response. *)
Lemma create_keeps_planned_description_version_port :
  fst (Client.CreateDevice (DeviceResource.client CreateEchoRun.r)
         (DeviceResource.device_of CreateEchoRun.plan) CreateEchoRun.w)
  = Ok CreateEchoRun.created /\
  fst (DeviceResource.Create CreateEchoRun.r CreateEchoRun.plan CreateEchoRun.w)
  = {| Diagnostics := []; State := Written CreateEchoRun.written |} /\
  DeviceResourceModel.Description CreateEchoRun.written = types.Known "Rack 4" /\
  DeviceResourceModel.SNMPVersion CreateEchoRun.written = types.Known "2c" /\
  DeviceResourceModel.SNMPPort CreateEchoRun.written = types.Known 161 /\
  DeviceResourceModel.Description
    (DeviceResource.Update_recreate_merge CreateEchoRun.plan CreateEchoRun.created)
  = types.Known "Rack 4, row B" /\
  DeviceResourceModel.SNMPVersion
    (DeviceResource.Update_recreate_merge CreateEchoRun.plan CreateEchoRun.created)
  = types.Known "3" /\
  DeviceResourceModel.SNMPPort
    (DeviceResource.Update_recreate_merge CreateEchoRun.plan CreateEchoRun.created)
  = types.Known 162.
Proof. repeat split. Qed.

(** ** Read *)

(** C5, as stated, fails: the answer to the read carries no
    [monitoring_enabled], [snmp_enabled], [snmp_version] or [snmp_port], and
    the state [Read] writes still holds the cached false, true, "2c" and 161
    (while the description, left out as well, is cleared). *)
Lemma read_keeps_cached_defaults :
  Client.GetDevice (DeviceResource.client ReadRun.r) "D1" ReadRun.w
  = (Ok ReadRun.device, ReadRun.w1) /\
  (Device.MonitoringEnabled ReadRun.device, Device.SNMPEnabled ReadRun.device,
   Device.SNMPVersion ReadRun.device, Device.SNMPPort ReadRun.device)
  = (None, None, None, None) /\
  DeviceResource.Read ReadRun.r ReadRun.state ReadRun.w
  = ({| Diagnostics := []; State := Written ReadRun.refreshed |}, ReadRun.w1) /\
  (DeviceResourceModel.MonitoringEnabled ReadRun.refreshed,
   DeviceResourceModel.SNMPEnabled ReadRun.refreshed,
   DeviceResourceModel.SNMPVersion ReadRun.refreshed,
   DeviceResourceModel.SNMPPort ReadRun.refreshed)
  = (types.Known false, types.Known true, types.Known "2c", types.Known 161) /\
  DeviceResourceModel.Description ReadRun.refreshed = types.Null.
Proof. repeat split. Qed.

Section ReadFacts.
Context {S : Type}.

(** C5, amended.  A successful [Read] keeps the id and writes every other
    attribute from the answer when the answer carries it.  For an attribute
    the answer leaves out: [site_id], [organization_id], [name],
    [description] and the six SNMPv3 attributes of a device, and [location]
    and [snmp_community] of a site, become null; [ip_address], [inserted_at]
    and a site's [name] become the empty string; [monitoring_enabled],
    [snmp_enabled], [snmp_version] and [snmp_port] keep their cached
    values. *)
Theorem read_takes_the_servers_values
        (rd : DeviceResource.t S) (dstate : DeviceResourceModel.t)
        (rs : SiteResource.t S) (sstate : SiteResourceModel.t)
        (w w1 ws ws1 : World S) (device : Device.t) (site : Site.t) :
  Client.GetDevice (DeviceResource.client rd)
                   (types.ValueString (DeviceResourceModel.ID dstate)) w
  = (Ok device, w1) ->
  Client.GetSite (SiteResource.client rs)
                 (types.ValueString (SiteResourceModel.ID sstate)) ws
  = (Ok site, ws1) ->
  (exists data,
      DeviceResource.Read rd dstate w = ({| Diagnostics := []; State := Written data |}, w1) /\
      DeviceResourceModel.ID data = DeviceResourceModel.ID dstate /\
      DeviceResourceModel.SiteID data = ptr_or_null (Device.SiteID device) /\
      DeviceResourceModel.OrganizationID data = ptr_or_null (Device.OrganizationID device) /\
      DeviceResourceModel.Name data = ptr_or_null (Device.Name device) /\
      DeviceResourceModel.IPAddress data = types.Known (Device.IPAddress device) /\
      DeviceResourceModel.InsertedAt data = types.Known (Device.InsertedAt device) /\
      DeviceResourceModel.Description data = ptr_or_null (Device.Description device) /\
      DeviceResourceModel.MonitoringEnabled data
      = ptr_or_keep (Device.MonitoringEnabled device)
                    (DeviceResourceModel.MonitoringEnabled dstate) /\
      DeviceResourceModel.SNMPEnabled data
      = ptr_or_keep (Device.SNMPEnabled device) (DeviceResourceModel.SNMPEnabled dstate) /\
      DeviceResourceModel.SNMPVersion data
      = ptr_or_keep (Device.SNMPVersion device) (DeviceResourceModel.SNMPVersion dstate) /\
      DeviceResourceModel.SNMPPort data
      = ptr_or_keep (option_map int64 (Device.SNMPPort device))
                    (DeviceResourceModel.SNMPPort dstate) /\
      DeviceResourceModel.SNMPv3SecurityLevel data
      = ptr_or_null (Device.SNMPv3SecurityLevel device) /\
      DeviceResourceModel.SNMPv3Username data = ptr_or_null (Device.SNMPv3Username device) /\
      DeviceResourceModel.SNMPv3AuthProtocol data
      = ptr_or_null (Device.SNMPv3AuthProtocol device) /\
      DeviceResourceModel.SNMPv3AuthPassword data
      = ptr_or_null (Device.SNMPv3AuthPassword device) /\
      DeviceResourceModel.SNMPv3PrivProtocol data
      = ptr_or_null (Device.SNMPv3PrivProtocol device) /\
      DeviceResourceModel.SNMPv3PrivPassword data
      = ptr_or_null (Device.SNMPv3PrivPassword device)) /\
  (exists data,
      SiteResource.Read rs sstate ws = ({| Diagnostics := []; State := Written data |}, ws1) /\
      SiteResourceModel.ID data = SiteResourceModel.ID sstate /\
      SiteResourceModel.Name data = types.Known (Site.Name site) /\
      SiteResourceModel.InsertedAt data = types.Known (Site.InsertedAt site) /\
      SiteResourceModel.Location data = ptr_or_null (Site.Location site) /\
      SiteResourceModel.SNMPCommunity data = ptr_or_null (Site.SNMPCommunity site)).
Proof.
  intros Hd Hs. split.
  - exists (DeviceResource.Read_merge dstate device). split.
    + unfold DeviceResource.Read. rewrite bind_run, Hd. reflexivity.
    + repeat split.
  - exists (SiteResource.Read_merge sstate site). split.
    + unfold SiteResource.Read. rewrite bind_run, Hs. reflexivity.
    + repeat split.
Qed.

(** Merging the same answer a second time changes nothing. *)
Lemma ptr_or_keep_idem {A} (p : option A) (old : types.Value A) :
  ptr_or_keep p (ptr_or_keep p old) = ptr_or_keep p old.
Proof. destruct p; reflexivity. Qed.

(** Two device models with the same attributes are the same model. *)
Lemma DeviceResourceModel_ext (a b : DeviceResourceModel.t) :
  DeviceResourceModel.ID a = DeviceResourceModel.ID b ->
  DeviceResourceModel.SiteID a = DeviceResourceModel.SiteID b ->
  DeviceResourceModel.OrganizationID a = DeviceResourceModel.OrganizationID b ->
  DeviceResourceModel.Name a = DeviceResourceModel.Name b ->
  DeviceResourceModel.IPAddress a = DeviceResourceModel.IPAddress b ->
  DeviceResourceModel.Description a = DeviceResourceModel.Description b ->
  DeviceResourceModel.MonitoringEnabled a = DeviceResourceModel.MonitoringEnabled b ->
  DeviceResourceModel.SNMPEnabled a = DeviceResourceModel.SNMPEnabled b ->
  DeviceResourceModel.SNMPVersion a = DeviceResourceModel.SNMPVersion b ->
  DeviceResourceModel.SNMPPort a = DeviceResourceModel.SNMPPort b ->
  DeviceResourceModel.SNMPv3SecurityLevel a = DeviceResourceModel.SNMPv3SecurityLevel b ->
  DeviceResourceModel.SNMPv3Username a = DeviceResourceModel.SNMPv3Username b ->
  DeviceResourceModel.SNMPv3AuthProtocol a = DeviceResourceModel.SNMPv3AuthProtocol b ->
  DeviceResourceModel.SNMPv3AuthPassword a = DeviceResourceModel.SNMPv3AuthPassword b ->
  DeviceResourceModel.SNMPv3PrivProtocol a = DeviceResourceModel.SNMPv3PrivProtocol b ->
  DeviceResourceModel.SNMPv3PrivPassword a = DeviceResourceModel.SNMPv3PrivPassword b ->
  DeviceResourceModel.InsertedAt a = DeviceResourceModel.InsertedAt b ->
  a = b.
Proof. destruct a, b; cbn; intros; subst; reflexivity. Qed.

Lemma Device_Read_merge_idem (data : DeviceResourceModel.t) (device : Device.t) :
  DeviceResource.Read_merge (DeviceResource.Read_merge data device) device
  = DeviceResource.Read_merge data device.
Proof.
  apply DeviceResourceModel_ext; try reflexivity.
  - exact (ptr_or_keep_idem (Device.MonitoringEnabled device)
                            (DeviceResourceModel.MonitoringEnabled data)).
  - exact (ptr_or_keep_idem (Device.SNMPEnabled device)
                            (DeviceResourceModel.SNMPEnabled data)).
  - exact (ptr_or_keep_idem (Device.SNMPVersion device)
                            (DeviceResourceModel.SNMPVersion data)).
  - exact (ptr_or_keep_idem (option_map int64 (Device.SNMPPort device))
                            (DeviceResourceModel.SNMPPort data)).
Qed.

Lemma Site_Read_merge_idem (data : SiteResourceModel.t) (site : Site.t) :
  SiteResource.Read_merge (SiteResource.Read_merge data site) site
  = SiteResource.Read_merge data site.
Proof. reflexivity. Qed.

Lemma Device_Read_merge_ID (data : DeviceResourceModel.t) (device : Device.t) :
  DeviceResourceModel.ID (DeviceResource.Read_merge data device) = DeviceResourceModel.ID data.
Proof. reflexivity. Qed.

(** C8.  When the server gives the same answer to the read of a device (of a
    site) both times, refreshing twice in a row leaves the same diagnostics
    and the same stored state as refreshing once; and the answer merged into
    a state twice is the answer merged once. *)
Theorem refresh_twice_is_refresh_once
        (rd : DeviceResource.t S) (dstate : DeviceResourceModel.t)
        (rs : SiteResource.t S) (sstate : SiteResourceModel.t)
        (w w1 w2 ws ws1 ws2 : World S) (dres : Result Device.t) (sres : Result Site.t) :
  Client.GetDevice (DeviceResource.client rd)
                   (types.ValueString (DeviceResourceModel.ID dstate)) w = (dres, w1) ->
  Client.GetDevice (DeviceResource.client rd)
                   (types.ValueString (DeviceResourceModel.ID dstate)) w1 = (dres, w2) ->
  Client.GetSite (SiteResource.client rs)
                 (types.ValueString (SiteResourceModel.ID sstate)) ws = (sres, ws1) ->
  Client.GetSite (SiteResource.client rs)
                 (types.ValueString (SiteResourceModel.ID sstate)) ws1 = (sres, ws2) ->
  fst (RefreshDeviceTwice rd (Some dstate) w) = fst (fwserver.Device.Refresh rd (Some dstate) w) /\
  fst (RefreshSiteTwice rs (Some sstate) ws) = fst (fwserver.Site.Refresh rs (Some sstate) ws) /\
  (forall device, DeviceResource.Read_merge (DeviceResource.Read_merge dstate device) device
                  = DeviceResource.Read_merge dstate device) /\
  (forall site, SiteResource.Read_merge (SiteResource.Read_merge sstate site) site
                = SiteResource.Read_merge sstate site).
Proof.
  intros Hd1 Hd2 Hs1 Hs2.
  split; [|split; [|split; [intros; apply Device_Read_merge_idem
                            |intros; apply Site_Read_merge_idem]]].
  - unfold RefreshDeviceTwice. rewrite bind_run.
    unfold fwserver.Device.Refresh at 2 3 4. unfold DeviceResource.Read.
    rewrite !bind_run, Hd1. cbn [fst snd].
    destruct dres as [device|err].
    + cbn [ret fst snd fwserver.commit State Diagnostics fwserver.Device.Refresh].
      unfold DeviceResource.Read. rewrite !bind_run.
      rewrite Device_Read_merge_ID, Hd2. cbn [fst snd ret State Diagnostics fwserver.commit].
      rewrite Device_Read_merge_idem. reflexivity.
    + destruct (errors_Is_ErrNotFound err) eqn:Hnf.
      * reflexivity.
      * cbn [ret fst snd fwserver.commit State Diagnostics fwserver.Device.Refresh].
        unfold DeviceResource.Read. rewrite !bind_run, Hd2. cbn [fst snd].
        rewrite Hnf. reflexivity.
  - unfold RefreshSiteTwice. rewrite bind_run.
    unfold fwserver.Site.Refresh at 2 3 4. unfold SiteResource.Read.
    rewrite !bind_run, Hs1. cbn [fst snd].
    destruct sres as [site|err].
    + cbn [ret fst snd fwserver.commit State Diagnostics fwserver.Site.Refresh].
      unfold SiteResource.Read. rewrite !bind_run.
      change (SiteResourceModel.ID (SiteResource.Read_merge sstate site))
        with (SiteResourceModel.ID sstate).
      rewrite Hs2. reflexivity.
    + destruct (errors_Is_ErrNotFound err) eqn:Hnf.
      * reflexivity.
      * cbn [ret fst snd fwserver.commit State Diagnostics fwserver.Site.Refresh].
        unfold SiteResource.Read. rewrite !bind_run, Hs2. cbn [fst snd].
        rewrite Hnf. reflexivity.
Qed.

End ReadFacts.

Lemma read_takes_the_servers_values_witness :
  DeviceResource.Read ReadRun.r ReadRun.state ReadRun.w
  = ({| Diagnostics := []; State := Written ReadRun.refreshed |}, ReadRun.w1) /\
  exists data,
    SiteResource.Read ReadRun.rs ReadRun.sstate ReadRun.ws
    = ({| Diagnostics := []; State := Written data |}, ReadRun.ws1) /\
    SiteResourceModel.Location data = types.Null.
Proof.
  destruct (read_takes_the_servers_values
              ReadRun.r ReadRun.state ReadRun.rs ReadRun.sstate
              ReadRun.w ReadRun.w1 ReadRun.ws ReadRun.ws1 ReadRun.device ReadRun.site
              eq_refl eq_refl)
    as [_ (data & Hrun & _ & _ & _ & Hloc & _)].
  split; [reflexivity|].
  exists data. split; [exact Hrun|exact Hloc].
Defined.

Lemma refresh_twice_is_refresh_once_witness :
  fst (RefreshDeviceTwice ReadRun.r (Some ReadRun.state) ReadRun.w)
  = ([], Some ReadRun.refreshed) /\
  fst (RefreshSiteTwice ReadRun.rs (Some ReadRun.sstate) ReadRun.ws)
  = fst (fwserver.Site.Refresh ReadRun.rs (Some ReadRun.sstate) ReadRun.ws).
Proof.
  destruct (refresh_twice_is_refresh_once
              ReadRun.r ReadRun.state ReadRun.rs ReadRun.sstate
              ReadRun.w ReadRun.w1 ReadRun.w2 ReadRun.ws ReadRun.ws1 ReadRun.ws2
              (Ok ReadRun.device) (Ok ReadRun.site)
              eq_refl eq_refl eq_refl eq_refl)
    as (Hd & Hs & _).
  split; [rewrite Hd; reflexivity|exact Hs].
Defined.

(** ** A changed parent *)


Section Replacement.
Context {S : Type}.
Import DeviceResourceModel.




Lemma Equal_string_eq (a b : types.String) :
  types.Equal String.eqb a b = true -> a = b.
Proof.
  destruct a as [| |x], b as [| |y]; cbn; try discriminate; try reflexivity.
  intros H. apply String.eqb_eq in H. subst. reflexivity.
Qed.

(** The other direction: an update in place is planned only when both
    parents are planned as they are in the state, so the PATCH that
    [Update] sends for it names the parents the server already has. *)
Lemma in_place_update_keeps_parents (config prior plan : DeviceResourceModel.t) :
  fwserver.Device.PlanResourceChange config prior = fwserver.Device.InPlace plan ->
  SiteID plan = SiteID prior /\ OrganizationID plan = OrganizationID prior.
Proof.
  unfold fwserver.Device.PlanResourceChange.
  destruct (fwserver.Device.RequiresReplace prior _) as [|name rest] eqn:Hrr;
    [|discriminate].
  destruct (fwserver.Device.Model_eqb _ prior); [discriminate|].
  intros H. injection H as <-.
  unfold fwserver.Device.RequiresReplace in Hrr.
  repeat match type of Hrr with
         | (_ ++ _)%list = [] => apply app_eq_nil in Hrr as [? Hrr]
         end.
  unfold fwserver.replace_if_changed in *.
  split; apply Equal_string_eq.
  - match goal with
    | H : (if _ && negb (types.Equal _ (SiteID _) _) then _ else _) = [] |- _ =>
        destruct (types.Equal _ (SiteID _) _); [reflexivity|cbn in H; discriminate H]
    end.
  - match goal with
    | H : (if _ && negb (types.Equal _ (OrganizationID _) _) then _ else _) = [] |- _ =>
        destruct (types.Equal _ (OrganizationID _) _); [reflexivity|cbn in H; discriminate H]
    end.
Qed.

Lemma in_place_update_keeps_parents_witness :
  DeviceResourceModel.SiteID InPlaceRun.plan = types.Known "site-A" /\
  DeviceResourceModel.OrganizationID InPlaceRun.plan = types.Known "org-1".
Proof.
  exact (in_place_update_keeps_parents InPlaceRun.config InPlaceRun.prior InPlaceRun.plan
                                       eq_refl).
Defined.


End Replacement.


(** ** The envelope *)

(** Decoding the members of an object piece by piece. *)
Section Decoding.
Context {T : Type} (step : T -> string -> json -> option T).

Lemma members_app (l1 l2 : list (string * json)) (acc : T) :
  encoding_json.members step (l1 ++ l2) acc
  = match encoding_json.members step l1 acc with
    | Some acc' => encoding_json.members step l2 acc'
    | None => None
    end.
Proof.
  revert acc. induction l1 as [|[k v] l1 IH]; intros acc; cbn; [reflexivity|].
  destruct (step acc (encoding_json.fold_key k) v); [apply IH|reflexivity].
Qed.

Lemma members_one (key : string) (v : json) (acc acc' : T) :
  step acc (encoding_json.fold_key key) v = Some acc' ->
  encoding_json.members step [(key, v)] acc = Some acc'.
Proof. intros H. cbn. rewrite H. reflexivity. Qed.

Lemma members_omitempty_ptr {A} (key : string) (enc : A -> json)
      (set : option A -> T -> T) (p : option A) (acc : T) :
  (forall a, p = Some a ->
             step acc (encoding_json.fold_key key) (enc a) = Some (set (Some a) acc)) ->
  set None acc = acc ->
  encoding_json.members step (encoding_json.omitempty_ptr key enc p) acc = Some (set p acc).
Proof.
  intros Hsome Hnone. destruct p as [a|]; cbn.
  - rewrite (Hsome a eq_refl). reflexivity.
  - rewrite Hnone. reflexivity.
Qed.

Lemma members_omitempty_string (key : string) (set : string -> T -> T)
      (s : string) (acc : T) :
  step acc (encoding_json.fold_key key) (JString s) = Some (set s acc) ->
  set "" acc = acc ->
  encoding_json.members step (encoding_json.omitempty_string key s) acc = Some (set s acc).
Proof.
  intros Hsome Hnone. unfold encoding_json.omitempty_string.
  destruct (String.eqb_spec s "") as [->|_]; cbn.
  - rewrite Hnone. reflexivity.
  - rewrite Hsome. reflexivity.
Qed.

End Decoding.

(** A site written as a bare JSON object is read back as that site. *)
Lemma Site_round_trip (site : Site.t) :
  Site.Unmarshal (Document (Site.Marshal site)) = Some site.
Proof.
  destruct site as [id name location community inserted].
  unfold Site.Unmarshal, Site.Marshal, encoding_json.Unmarshal.
  cbn [Site.ID Site.Name Site.Location Site.SNMPCommunity Site.InsertedAt].
  rewrite members_app, (members_omitempty_string _ _ Site.set_ID) by reflexivity.
  rewrite members_app, (members_one _ _ _ _ (Site.set_Name name _)) by reflexivity.
  rewrite members_app, (members_omitempty_ptr _ _ _ Site.set_Location)
    by (intros; reflexivity).
  rewrite members_app, (members_omitempty_ptr _ _ _ Site.set_SNMPCommunity)
    by (intros; reflexivity).
  rewrite (members_omitempty_string _ _ Site.set_InsertedAt) by reflexivity.
  reflexivity.
Qed.

(** Bringing the device decoded so far back to a record of its fields. *)
Ltac device_record :=
  cbv [Device.set_ID Device.set_SiteID Device.set_OrganizationID Device.set_Name
       Device.set_IPAddress Device.set_Description Device.set_MonitoringEnabled
       Device.set_SNMPEnabled Device.set_SNMPVersion Device.set_SNMPPort
       Device.set_SNMPv3SecurityLevel Device.set_SNMPv3Username
       Device.set_SNMPv3AuthProtocol Device.set_SNMPv3AuthPassword
       Device.set_SNMPv3PrivProtocol Device.set_SNMPv3PrivPassword
       Device.set_CheckIntervalSeconds Device.set_InsertedAt Device.ID Device.SiteID
       Device.OrganizationID Device.Name Device.IPAddress Device.Description
       Device.MonitoringEnabled Device.SNMPEnabled Device.SNMPVersion Device.SNMPPort
       Device.SNMPv3SecurityLevel Device.SNMPv3Username Device.SNMPv3AuthProtocol
       Device.SNMPv3AuthPassword Device.SNMPv3PrivProtocol Device.SNMPv3PrivPassword
       Device.CheckIntervalSeconds Device.InsertedAt Device.zero].

(** A device written as a bare JSON object is read back as that device. *)
Lemma Device_round_trip (device : Device.t) :
  Device_in_range device = true ->
  Device.Unmarshal (Document (Device.Marshal device)) = Some device.
Proof.
  destruct device as [id site org name ip descr mon snmp ver port
                      lvl user authp authpw privp privpw interval inserted].
  unfold Device_in_range. cbn [Device.SNMPPort Device.CheckIntervalSeconds].
  intros Hrange. apply andb_prop in Hrange as [Hport Hinterval].
  unfold Device.Unmarshal, Device.Marshal, encoding_json.Unmarshal.
  cbn [Device.ID Device.SiteID Device.OrganizationID Device.Name Device.IPAddress
       Device.Description Device.MonitoringEnabled Device.SNMPEnabled Device.SNMPVersion
       Device.SNMPPort Device.SNMPv3SecurityLevel Device.SNMPv3Username
       Device.SNMPv3AuthProtocol Device.SNMPv3AuthPassword Device.SNMPv3PrivProtocol
       Device.SNMPv3PrivPassword Device.CheckIntervalSeconds Device.InsertedAt].
  device_record.
  rewrite members_app, (members_omitempty_string _ _ Device.set_ID) by reflexivity.
  device_record.
  rewrite members_app, (members_omitempty_ptr _ _ _ Device.set_SiteID)
    by (intros; reflexivity).
  device_record.
  rewrite members_app, (members_omitempty_ptr _ _ _ Device.set_OrganizationID)
    by (intros; reflexivity).
  device_record.
  rewrite members_app, (members_omitempty_ptr _ _ _ Device.set_Name)
    by (intros; reflexivity).
  device_record.
  rewrite members_app, (members_one _ _ _ _ (Device.set_IPAddress ip _)) by reflexivity.
  device_record.
  rewrite members_app, (members_omitempty_ptr _ _ _ Device.set_Description)
    by (intros; reflexivity).
  device_record.
  rewrite members_app, (members_omitempty_ptr _ _ _ Device.set_MonitoringEnabled)
    by (intros; reflexivity).
  device_record.
  rewrite members_app, (members_omitempty_ptr _ _ _ Device.set_SNMPEnabled)
    by (intros; reflexivity).
  device_record.
  rewrite members_app, (members_omitempty_ptr _ _ _ Device.set_SNMPVersion)
    by (intros; reflexivity).
  device_record.
  rewrite members_app, (members_omitempty_ptr _ _ _ Device.set_SNMPPort)
    by (first [ reflexivity
              | intros a Ha; rewrite Ha in Hport;
                cbv -[in_int64]; rewrite Hport; reflexivity ]).
  device_record.
  rewrite members_app, (members_omitempty_ptr _ _ _ Device.set_SNMPv3SecurityLevel)
    by (intros; reflexivity).
  device_record.
  rewrite members_app, (members_omitempty_ptr _ _ _ Device.set_SNMPv3Username)
    by (intros; reflexivity).
  device_record.
  rewrite members_app, (members_omitempty_ptr _ _ _ Device.set_SNMPv3AuthProtocol)
    by (intros; reflexivity).
  device_record.
  rewrite members_app, (members_omitempty_ptr _ _ _ Device.set_SNMPv3AuthPassword)
    by (intros; reflexivity).
  device_record.
  rewrite members_app, (members_omitempty_ptr _ _ _ Device.set_SNMPv3PrivProtocol)
    by (intros; reflexivity).
  device_record.
  rewrite members_app, (members_omitempty_ptr _ _ _ Device.set_SNMPv3PrivPassword)
    by (intros; reflexivity).
  device_record.
  rewrite members_app, (members_omitempty_ptr _ _ _ Device.set_CheckIntervalSeconds)
    by (first [ reflexivity
              | intros a Ha; rewrite Ha in Hinterval;
                cbv -[in_int64]; rewrite Hinterval; reflexivity ]).
  device_record.
  rewrite (members_omitempty_string _ _ Device.set_InsertedAt) by reflexivity.
  reflexivity.
Qed.

(** An object with a member unknown to the struct decodes to the struct
    unchanged: an enveloped answer gives the empty resource. *)
Lemma Site_enveloped_answer (j : json) :
  Site.Unmarshal (Document (JObject [("site", j)])) = Some Site.zero.
Proof. reflexivity. Qed.

Lemma Device_enveloped_answer (j : json) :
  Device.Unmarshal (Document (JObject [("device", j)])) = Some Device.zero.
Proof. reflexivity. Qed.

(** C6, as stated, fails: the read of a site sends no body at all, and the
    answer it parses is the bare object of the site's fields; the same fields
    inside a "site" envelope would be read as the empty site. *)
Lemma read_has_no_body_and_parses_bare :
  Client.GetSite httptest.client "S1" ReadRun.ws = (Ok ReadRun.site, ReadRun.ws1) /\
  map call_body (calls ReadRun.ws1) = [None] /\
  ReadRun.sanswer
  = http.Response 200
      (Document (JObject [("id", JString "S1"); ("name", JString "Main Office");
                          ("inserted_at", JString "2024-01-01T00:00:00Z")])) /\
  Site.Unmarshal
    (Document (JObject [("site",
                         JObject [("id", JString "S1"); ("name", JString "Main Office");
                                  ("inserted_at", JString "2024-01-01T00:00:00Z")])]))
  = Some Site.zero.
Proof. repeat split. Qed.

Section Envelope.
Context {S : Type}.

(** C6, amended.  Create and update of a site or a device send a JSON object
    with the single member "site" (or "device") whose value is the object of
    the resource's fields; read and delete send no body.  An answer is
    decoded directly into the resource, with no envelope: the bare object of
    a resource's fields is read back as that resource, and the same object
    inside a "site" or "device" member is read as the empty resource. *)
Theorem envelope_on_create_and_update_only
        (c : Client.t S) (site : Site.t) (device : Device.t) (id : string) (w : World S) :
  (* request bodies *)
  (sends (Client.CreateSite c site) w "POST" "/api/v1/sites"
         (Some (JObject [("site", Site.Marshal site)])) /\
   sends (Client.UpdateSite c id site) w "PATCH" ("/api/v1/sites/" ++ id)
         (Some (JObject [("site", Site.Marshal site)])) /\
   sends (Client.CreateDevice c device) w "POST" "/api/v1/devices"
         (Some (JObject [("device", Device.Marshal device)])) /\
   sends (Client.UpdateDevice c id device) w "PATCH" ("/api/v1/devices/" ++ id)
         (Some (JObject [("device", Device.Marshal device)])) /\
   (exists fields, Site.Marshal site = JObject fields) /\
   (exists fields, Device.Marshal device = JObject fields)) /\
  (sends (Client.GetSite c id) w "GET" ("/api/v1/sites/" ++ id) None /\
   sends (Client.DeleteSite c id) w "DELETE" ("/api/v1/sites/" ++ id) None /\
   sends (Client.GetDevice c id) w "GET" ("/api/v1/devices/" ++ id) None /\
   sends (Client.DeleteDevice c id) w "DELETE" ("/api/v1/devices/" ++ id) None) /\
  (* answers *)
  (returns_decoded c Site.Unmarshal (Client.CreateSite c site) w
                   "POST" "/api/v1/sites" (Some (Client.site_body site)) /\
   returns_decoded c Site.Unmarshal (Client.GetSite c id) w
                   "GET" ("/api/v1/sites/" ++ id) None /\
   returns_decoded c Site.Unmarshal (Client.UpdateSite c id site) w
                   "PATCH" ("/api/v1/sites/" ++ id) (Some (Client.site_body site)) /\
   returns_decoded c Device.Unmarshal (Client.CreateDevice c device) w
                   "POST" "/api/v1/devices" (Some (Client.device_body device)) /\
   returns_decoded c Device.Unmarshal (Client.GetDevice c id) w
                   "GET" ("/api/v1/devices/" ++ id) None /\
   returns_decoded c Device.Unmarshal (Client.UpdateDevice c id device) w
                   "PATCH" ("/api/v1/devices/" ++ id) (Some (Client.device_body device))) /\
  (Site.Unmarshal (Document (Site.Marshal site)) = Some site /\
   (Device_in_range device = true ->
    Device.Unmarshal (Document (Device.Marshal device)) = Some device) /\
   Site.Unmarshal (Document (JObject [("site", Site.Marshal site)])) = Some Site.zero /\
   Device.Unmarshal (Document (JObject [("device", Device.Marshal device)]))
   = Some Device.zero).
Proof.
  unfold sends, returns_decoded.
  split; [|split; [|split]].
  - split; [rewrite CreateSite_run; apply doRequest_calls|].
    split; [rewrite UpdateSite_run; apply doRequest_calls|].
    split; [apply CreateDevice_calls|].
    split; [apply UpdateDevice_calls|].
    split; eexists; reflexivity.
  - split; [rewrite GetSite_run; apply doRequest_calls|].
    split; [rewrite DeleteSite_run; apply doRequest_calls|].
    split; [apply GetDevice_calls|apply DeleteDevice_calls].
  - rewrite CreateSite_run, GetSite_run, UpdateSite_run,
      CreateDevice_run, GetDevice_run, UpdateDevice_run.
    repeat split.
  - split; [apply Site_round_trip|].
    split; [apply Device_round_trip|].
    split; [apply Site_enveloped_answer|apply Device_enveloped_answer].
Qed.

End Envelope.

Lemma envelope_on_create_and_update_only_witness :
  Device.Unmarshal (Document (Device.Marshal CreateEchoRun.created))
  = Some CreateEchoRun.created.
Proof.
  destruct (envelope_on_create_and_update_only
              httptest.client ReadRun.site CreateEchoRun.created "D1" CreateEchoRun.w)
    as (_ & _ & _ & _ & Hdevice & _).
  exact (Hdevice eq_refl).
Defined.

(** * Further properties *)

From Stdlib Require Import Lia.

(** ** [doRequest]: from the round trip to the result *)
Section RequestFacts.
Context {S : Type}.
Implicit Types (c : Client.t S) (w : World S).

(** One run of [doRequest], step by step. *)
Lemma doRequest_run c method path body w :
  Client.doRequest c method path body w
  = if http.NewRequest_ok (Client.HTTPClient c) method (Client.BaseURL c ++ path) then
      (outcome_result
         (fst (http.Do (Client.HTTPClient c) (request_of c method path body) (remote w))),
       {| remote := snd (http.Do (Client.HTTPClient c) (request_of c method path body)
                                 (remote w));
          calls := calls w ++ [Call method path body] |})
    else
      (Err ErrCreateRequest,
       {| remote := remote w; calls := calls w ++ [Call method path body] |}).
Proof.
  unfold Client.doRequest. rewrite bind_run. cbn [record_call fst snd].
  destruct (http.NewRequest_ok _ _ _); cbn [negb]; [|reflexivity].
  rewrite bind_run. unfold round_trip, request_of. cbn [remote calls].
  destruct (http.Do _ _ _) as [out s]. cbn [fst snd].
  destruct out as [cause|cause|code respBody]; cbn [outcome_result]; try reflexivity.
  destruct (code >=? 400); [|reflexivity].
  change http.StatusNotFound with 404.
  destruct (code =? 404); [reflexivity|].
  destruct (APIError.Unmarshal respBody) as [apiErr|]; [|reflexivity].
  destruct (negb _); [reflexivity|].
  destruct (0 <? _)%nat; reflexivity.
Qed.

Lemma outcome_result_ok (out : http.Outcome) (body : bytes) :
  outcome_result out = Ok body <-> exists code, code < 400 /\ out = http.Response code body.
Proof.
  split.
  - destruct out as [cause|cause|code respBody]; cbn [outcome_result]; try discriminate.
    destruct (Z.geb_spec code 400) as [Hge|Hlt].
    + destruct (code =? 404); [discriminate|].
      destruct (APIError.Unmarshal respBody) as [apiErr|]; [|discriminate].
      destruct (negb _); [discriminate|].
      destruct (0 <? _)%nat; discriminate.
    + intros H. injection H as ->. exists code. split; [lia|reflexivity].
  - intros (code & Hlt & ->). cbn [outcome_result].
    destruct (Z.geb_spec code 400) as [Hge|_]; [lia|reflexivity].
Qed.

Lemma outcome_result_not_found (out : http.Outcome) :
  outcome_result out = Err ErrNotFound <-> exists body, out = http.Response 404 body.
Proof.
  split.
  - destruct out as [cause|cause|code respBody]; cbn [outcome_result]; try discriminate.
    destruct (Z.geb_spec code 400) as [Hge|Hlt]; [|discriminate].
    destruct (Z.eqb_spec code 404) as [->|Hne]; [intros _; eexists; reflexivity|].
    destruct (APIError.Unmarshal respBody) as [apiErr|]; [|discriminate].
    destruct (negb _); [discriminate|].
    destruct (0 <? _)%nat; discriminate.
  - intros (body & ->). reflexivity.
Qed.

(** X3.  [doRequest] succeeds exactly when the request could be built and
    the answer has a status below 400 (redirects and informational statuses
    included); the result is then the body of the answer, untouched. *)
Theorem doRequest_ok_iff c method path body w (respBody : bytes) :
  fst (Client.doRequest c method path body w) = Ok respBody
  <-> http.NewRequest_ok (Client.HTTPClient c) method (Client.BaseURL c ++ path) = true /\
      exists code,
        code < 400 /\
        fst (http.Do (Client.HTTPClient c) (request_of c method path body) (remote w))
        = http.Response code respBody.
Proof.
  rewrite doRequest_run.
  destruct (http.NewRequest_ok _ _ _); cbn [fst].
  - rewrite outcome_result_ok. split; [intros H; split; [reflexivity|exact H]|intros [_ H]; exact H].
  - split; [discriminate|intros [H _]; discriminate H].
Qed.

(** X4.  [ErrNotFound] comes from nowhere but a 404: when [doRequest]
    returns it, the request was built and sent, and the answer had status
    404. *)
Theorem doRequest_not_found_only_from_404 c method path body w :
  fst (Client.doRequest c method path body w) = Err ErrNotFound ->
  http.NewRequest_ok (Client.HTTPClient c) method (Client.BaseURL c ++ path) = true /\
  exists respBody,
    fst (http.Do (Client.HTTPClient c) (request_of c method path body) (remote w))
    = http.Response 404 respBody.
Proof.
  rewrite doRequest_run.
  destruct (http.NewRequest_ok _ _ _); cbn [fst]; [|discriminate].
  intros H. split; [reflexivity|]. apply outcome_result_not_found. exact H.
Qed.

(** X5.  An answer with a status of 400 or more other than 404 is an error
    that carries that status and is not [ErrNotFound], whatever the body
    holds (an error message, a map of field errors, or neither). *)
Theorem doRequest_remote_error_carries_status c method path body w
        (code : Z) (respBody : bytes) :
  http.NewRequest_ok (Client.HTTPClient c) method (Client.BaseURL c ++ path) = true ->
  fst (http.Do (Client.HTTPClient c) (request_of c method path body) (remote w))
  = http.Response code respBody ->
  400 <= code -> code <> 404 ->
  exists err,
    fst (Client.doRequest c method path body w) = Err err /\
    status_of err = Some code /\
    errors_Is_ErrNotFound err = false.
Proof.
  intros Hok Hdo Hge Hne. rewrite doRequest_run, Hok, Hdo. cbn [fst outcome_result].
  destruct (Z.geb_spec code 400) as [_|Hlt]; [|lia].
  destruct (Z.eqb_spec code 404) as [Heq|_]; [contradiction|].
  destruct (APIError.Unmarshal respBody) as [apiErr|];
    [destruct (negb _); [|destruct (0 <? _)%nat]|];
    eexists; repeat split.
Qed.

End RequestFacts.

(** ** What reaches the transport *)
Section SpyFacts.
Context {S : Type}.

(** X6.  One call of [doRequest] hands the transport one request when the
    URL is accepted and none otherwise, never more.  That request has the
    client's base URL before the path, the body as given, and the headers
    Authorization (Bearer and the token), Content-Type and Accept (both
    application/json).  Watching changes neither the result nor the remote
    state. *)
Theorem doRequest_one_authenticated_round_trip
        (c : Client.t S) (method path : string) (body : option json)
        (w : World (S * list http.Request)) :
  httpspy.seen (snd (Client.doRequest (httpspy.watch c) method path body w))
  = (httpspy.seen w
     ++ if http.NewRequest_ok (Client.HTTPClient c) method (Client.BaseURL c ++ path)
        then [request_of c method path body]
        else [])%list /\
  request_of c method path body
  = {| http.Method := method;
       http.URL := Client.BaseURL c ++ path;
       http.Header := [("Authorization", "Bearer " ++ Client.Token c);
                       ("Content-Type", "application/json");
                       ("Accept", "application/json")];
       http.Body := body |} /\
  fst (Client.doRequest (httpspy.watch c) method path body w)
  = fst (Client.doRequest c method path body (httpspy.unwatched w)) /\
  httpspy.unwatched (snd (Client.doRequest (httpspy.watch c) method path body w))
  = snd (Client.doRequest c method path body (httpspy.unwatched w)).
Proof.
  rewrite !doRequest_run.
  cbn [httpspy.watch Client.HTTPClient Client.BaseURL httpspy.spy http.NewRequest_ok
       httpspy.unwatched remote calls].
  destruct (http.NewRequest_ok _ _ _); cbn [fst snd httpspy.seen remote].
  - unfold request_of.
    cbn [httpspy.watch httpspy.spy Client.BaseURL Client.Token Client.HTTPClient http.Do].
    destruct (http.Do _ _ (fst (remote w))) as [out s]. cbn [fst snd].
    repeat split.
  - rewrite app_nil_r. repeat split.
Qed.

End SpyFacts.

(** ** The client calls on a server with one answer *)
Section FixedAnswer.
Context {S : Type}.
Implicit Types (c : Client.t S) (w : World S).

Lemma doRequest_always_ok c method path body w (code : Z) (respBody : bytes) :
  always_answers (Client.HTTPClient c) (remote w) code respBody ->
  code < 400 ->
  fst (Client.doRequest c method path body w) = Ok respBody.
Proof.
  intros [Hok Hdo] Hlt. rewrite doRequest_run, Hok. cbn [fst].
  apply outcome_result_ok. exists code. split; [exact Hlt|apply Hdo].
Qed.

(** X7.  On a success status with a body that is not JSON, the six calls
    that return a resource fail with the unmarshal error; the two delete
    calls do not look at the body and succeed. *)
Theorem body_that_is_not_json
        c (site : Site.t) (device : Device.t) (id : string) w (code : Z) (raw : string) :
  always_answers (Client.HTTPClient c) (remote w) code (Malformed raw) ->
  code < 400 ->
  fst (Client.CreateSite c site w) = Err ErrUnmarshal /\
  fst (Client.GetSite c id w) = Err ErrUnmarshal /\
  fst (Client.UpdateSite c id site w) = Err ErrUnmarshal /\
  fst (Client.CreateDevice c device w) = Err ErrUnmarshal /\
  fst (Client.GetDevice c id w) = Err ErrUnmarshal /\
  fst (Client.UpdateDevice c id device w) = Err ErrUnmarshal /\
  fst (Client.DeleteSite c id w) = None /\
  fst (Client.DeleteDevice c id w) = None.
Proof.
  intros Hall Hlt.
  rewrite CreateSite_run, GetSite_run, UpdateSite_run, CreateDevice_run, GetDevice_run,
    UpdateDevice_run, DeleteSite_run, DeleteDevice_run.
  cbn [fst].
  rewrite !(doRequest_always_ok _ _ _ _ _ _ _ Hall Hlt).
  repeat split.
Qed.

(** X8.  What the server sends is what the client returns: when the answer
    to a create, read or update is the JSON object of a site (of a device
    whose integers fit [int]) with a success status, the call returns that
    site (that device), whatever was sent. *)
Theorem client_returns_what_the_server_sent
        (cs cd : Client.t S) (ws wd : World S) (sent_site answer_site : Site.t)
        (sent_device answer_device : Device.t) (id : string) (code_s code_d : Z) :
  always_answers (Client.HTTPClient cs) (remote ws) code_s
                 (Document (Site.Marshal answer_site)) ->
  always_answers (Client.HTTPClient cd) (remote wd) code_d
                 (Document (Device.Marshal answer_device)) ->
  code_s < 400 -> code_d < 400 ->
  Device_in_range answer_device = true ->
  (fst (Client.CreateSite cs sent_site ws) = Ok answer_site /\
   fst (Client.GetSite cs id ws) = Ok answer_site /\
   fst (Client.UpdateSite cs id sent_site ws) = Ok answer_site) /\
  (fst (Client.CreateDevice cd sent_device wd) = Ok answer_device /\
   fst (Client.GetDevice cd id wd) = Ok answer_device /\
   fst (Client.UpdateDevice cd id sent_device wd) = Ok answer_device).
Proof.
  intros Hs Hd Hls Hld Hrange.
  rewrite CreateSite_run, GetSite_run, UpdateSite_run, CreateDevice_run, GetDevice_run,
    UpdateDevice_run.
  cbn [fst].
  rewrite !(doRequest_always_ok _ _ _ _ _ _ _ Hs Hls).
  rewrite !(doRequest_always_ok _ _ _ _ _ _ _ Hd Hld).
  unfold Client.decode. rewrite Site_round_trip, (Device_round_trip _ Hrange).
  repeat split.
Qed.

End FixedAnswer.

(** ** The handlers of a site, and Update in general *)
Section SiteFacts.
Context {S : Type}.
Implicit Types (c : Client.t S) (w : World S).

Lemma CreateSite_calls c site w :
  calls (snd (Client.CreateSite c site w))
  = (calls w ++ [Call "POST" "/api/v1/sites" (Some (Client.site_body site))])%list.
Proof. rewrite CreateSite_run. apply doRequest_calls. Qed.

Lemma UpdateSite_calls c id site w :
  calls (snd (Client.UpdateSite c id site w))
  = (calls w ++ [Call "PATCH" ("/api/v1/sites/" ++ id) (Some (Client.site_body site))])%list.
Proof. rewrite UpdateSite_run. apply doRequest_calls. Qed.

Lemma GetSite_calls c id w :
  calls (snd (Client.GetSite c id w))
  = (calls w ++ [Call "GET" ("/api/v1/sites/" ++ id) None])%list.
Proof. rewrite GetSite_run. apply doRequest_calls. Qed.

Lemma DeleteSite_calls c id w :
  calls (snd (Client.DeleteSite c id w))
  = (calls w ++ [Call "DELETE" ("/api/v1/sites/" ++ id) None])%list.
Proof. rewrite DeleteSite_run. apply doRequest_calls. Qed.

(** X9.  The recovery of a site.  When the update call of
    [SiteResource.Update] comes back with [ErrNotFound], the handler calls
    [CreateSite] once with the site it had sent.  On success the state
    written has the created site's id, inserted_at and name, and its location
    and snmp_community when the response carries them (the planned ones
    otherwise).  On failure the only diagnostic is "Failed to create site
    (after 404 on update)" and no state is written. *)
Theorem site_update_not_found_recreates
        (r : SiteResource.t S) (plan : SiteResourceModel.t)
        (w w1 w2 : World S) (cres : Result Site.t) :
  Client.UpdateSite (SiteResource.client r) (types.ValueString (SiteResourceModel.ID plan))
                    (SiteResource.site_of plan) w = (Err ErrNotFound, w1) ->
  Client.CreateSite (SiteResource.client r) (SiteResource.site_of plan) w1 = (cres, w2) ->
  exists resp,
    SiteResource.Update r plan w = (resp, w2) /\
    calls w2
    = (calls w
       ++ [Call "PATCH" ("/api/v1/sites/" ++ types.ValueString (SiteResourceModel.ID plan))
                (Some (Client.site_body (SiteResource.site_of plan)));
           Call "POST" "/api/v1/sites"
                (Some (Client.site_body (SiteResource.site_of plan)))])%list /\
    match cres with
    | Ok created =>
        Diagnostics resp = [] /\
        exists data,
          State resp = Written data /\
          SiteResourceModel.ID data = types.Known (Site.ID created) /\
          SiteResourceModel.InsertedAt data = types.Known (Site.InsertedAt created) /\
          SiteResourceModel.Name data = types.Known (Site.Name created) /\
          SiteResourceModel.Location data
          = ptr_or_keep (Site.Location created) (SiteResourceModel.Location plan) /\
          SiteResourceModel.SNMPCommunity data
          = ptr_or_keep (Site.SNMPCommunity created) (SiteResourceModel.SNMPCommunity plan)
    | Err createErr =>
        Diagnostics resp = [AddError "Failed to create site (after 404 on update)" createErr] /\
        State resp = Untouched
    end.
Proof.
  intros Hupd Hcre.
  pose proof (CreateSite_calls (SiteResource.client r) (SiteResource.site_of plan) w1) as H2.
  pose proof (UpdateSite_calls (SiteResource.client r)
                (types.ValueString (SiteResourceModel.ID plan))
                (SiteResource.site_of plan) w) as H1.
  rewrite Hcre in H2. rewrite Hupd in H1. cbn [snd] in H1, H2.
  unfold SiteResource.Update.
  rewrite bind_run, Hupd. cbn [fst snd errors_Is_ErrNotFound].
  rewrite bind_run, Hcre. cbn [fst snd].
  destruct cres as [created|createErr]; eexists; (split; [reflexivity|]);
    (split; [rewrite H2, H1, <- app_assoc; reflexivity|]); cbn [Diagnostics State].
  - split; [reflexivity|]. eexists. split; [reflexivity|]. repeat split.
  - repeat split.
Qed.

(** X10.  Create of a site makes one call, the POST of the planned site.
    Whatever error that call returns, [ErrNotFound] included, is reported as
    "Failed to create site" and nothing is written.  On success the state
    takes the id and inserted_at of the created site, and its location and
    snmp_community when the response carries them; the name stays the
    planned one, whatever name the response carries. *)
Theorem site_create_outcome (r : SiteResource.t S) (plan : SiteResourceModel.t) (w : World S) :
  calls (snd (SiteResource.Create r plan w))
  = (calls w ++ [Call "POST" "/api/v1/sites"
                      (Some (Client.site_body (SiteResource.site_of plan)))])%list /\
  match fst (Client.CreateSite (SiteResource.client r) (SiteResource.site_of plan) w) with
  | Err err =>
      fst (SiteResource.Create r plan w)
      = {| Diagnostics := [AddError "Failed to create site" err]; State := Untouched |}
  | Ok created =>
      exists data,
        fst (SiteResource.Create r plan w) = {| Diagnostics := []; State := Written data |} /\
        SiteResourceModel.ID data = types.Known (Site.ID created) /\
        SiteResourceModel.InsertedAt data = types.Known (Site.InsertedAt created) /\
        SiteResourceModel.Name data = SiteResourceModel.Name plan /\
        SiteResourceModel.Location data
        = ptr_or_keep (Site.Location created) (SiteResourceModel.Location plan) /\
        SiteResourceModel.SNMPCommunity data
        = ptr_or_keep (Site.SNMPCommunity created) (SiteResourceModel.SNMPCommunity plan)
  end.
Proof.
  unfold SiteResource.Create. rewrite !bind_run.
  pose proof (CreateSite_calls (SiteResource.client r) (SiteResource.site_of plan) w) as Hc.
  destruct (Client.CreateSite _ _ w) as [[created|err] w1]; cbn [fst snd] in *.
  - split; [exact Hc|]. eexists. split; [reflexivity|]. repeat split.
  - split; [exact Hc|reflexivity].
Qed.

End SiteFacts.

Section UpdateFacts.
Context {S : Type}.

Lemma Device_Update_calls (rd : DeviceResource.t S) (dplan : DeviceResourceModel.t)
      (w : World S) :
  calls (snd (DeviceResource.Update rd dplan w))
  = (calls w
     ++ update_calls
          (fst (Client.UpdateDevice (DeviceResource.client rd)
                  (types.ValueString (DeviceResourceModel.ID dplan))
                  (DeviceResource.device_of dplan) w))
          "devices" (types.ValueString (DeviceResourceModel.ID dplan))
          (Client.device_body (DeviceResource.device_of dplan)))%list.
Proof.
  unfold DeviceResource.Update. rewrite bind_run.
  pose proof (UpdateDevice_calls (DeviceResource.client rd)
                (types.ValueString (DeviceResourceModel.ID dplan))
                (DeviceResource.device_of dplan) w) as Hu.
  destruct (Client.UpdateDevice _ _ _ w) as [[updated|err] w1];
    unfold update_calls; cbn [fst snd] in *; [exact Hu|].
  destruct (errors_Is_ErrNotFound err); [|exact Hu].
  rewrite bind_run.
  pose proof (CreateDevice_calls (DeviceResource.client rd)
                                 (DeviceResource.device_of dplan) w1) as Hc.
  destruct (Client.CreateDevice _ _ w1) as [[created|cerr] w2];
    unfold ret; cbn [fst snd] in *; rewrite Hc, Hu, <- app_assoc; reflexivity.
Qed.

Lemma Site_Update_calls (rs : SiteResource.t S) (splan : SiteResourceModel.t) (w : World S) :
  calls (snd (SiteResource.Update rs splan w))
  = (calls w
     ++ update_calls
          (fst (Client.UpdateSite (SiteResource.client rs)
                  (types.ValueString (SiteResourceModel.ID splan))
                  (SiteResource.site_of splan) w))
          "sites" (types.ValueString (SiteResourceModel.ID splan))
          (Client.site_body (SiteResource.site_of splan)))%list.
Proof.
  unfold SiteResource.Update. rewrite bind_run.
  pose proof (UpdateSite_calls (SiteResource.client rs)
                (types.ValueString (SiteResourceModel.ID splan))
                (SiteResource.site_of splan) w) as Hu.
  destruct (Client.UpdateSite _ _ _ w) as [[updated|err] w1];
    unfold update_calls; cbn [fst snd] in *; [exact Hu|].
  destruct (errors_Is_ErrNotFound err); [|exact Hu].
  rewrite bind_run.
  pose proof (CreateSite_calls (SiteResource.client rs) (SiteResource.site_of splan) w1)
    as Hc.
  destruct (Client.CreateSite _ _ w1) as [[created|cerr] w2];
    unfold ret; cbn [fst snd] in *; rewrite Hc, Hu, <- app_assoc; reflexivity.
Qed.

(** X11.  Update sends one PATCH to the id in the plan.  It sends anything
    more only when that PATCH comes back with [ErrNotFound], and then one
    POST with the same body; after any other error, and after a success,
    there is no further call.  So with devices, so with sites. *)
Theorem update_creates_only_after_not_found
        (rd : DeviceResource.t S) (dplan : DeviceResourceModel.t)
        (rs : SiteResource.t S) (splan : SiteResourceModel.t) (w : World S) :
  calls (snd (DeviceResource.Update rd dplan w))
  = (calls w
     ++ update_calls
          (fst (Client.UpdateDevice (DeviceResource.client rd)
                  (types.ValueString (DeviceResourceModel.ID dplan))
                  (DeviceResource.device_of dplan) w))
          "devices" (types.ValueString (DeviceResourceModel.ID dplan))
          (Client.device_body (DeviceResource.device_of dplan)))%list /\
  calls (snd (SiteResource.Update rs splan w))
  = (calls w
     ++ update_calls
          (fst (Client.UpdateSite (SiteResource.client rs)
                  (types.ValueString (SiteResourceModel.ID splan))
                  (SiteResource.site_of splan) w))
          "sites" (types.ValueString (SiteResourceModel.ID splan))
          (Client.site_body (SiteResource.site_of splan)))%list.
Proof. split; [apply Device_Update_calls|apply Site_Update_calls]. Qed.

(** X12.  A successful update never changes the identity: the state written
    keeps the planned id and inserted_at, whatever the response carries.
    For a device it takes ip_address, site_id and organization_id from the
    response, clears each SNMPv3 attribute the response leaves out, and
    keeps the planned name, description, monitoring_enabled, snmp_enabled,
    snmp_version and snmp_port where the response leaves them out; for a
    site it takes the name and keeps the planned location and
    snmp_community where the response leaves them out. *)
Theorem successful_update_keeps_identity
        (rd : DeviceResource.t S) (dplan : DeviceResourceModel.t)
        (rs : SiteResource.t S) (splan : SiteResourceModel.t)
        (w w1 ws ws1 : World S) (updated : Device.t) (supdated : Site.t) :
  Client.UpdateDevice (DeviceResource.client rd)
                      (types.ValueString (DeviceResourceModel.ID dplan))
                      (DeviceResource.device_of dplan) w = (Ok updated, w1) ->
  Client.UpdateSite (SiteResource.client rs)
                    (types.ValueString (SiteResourceModel.ID splan))
                    (SiteResource.site_of splan) ws = (Ok supdated, ws1) ->
  (exists data,
      DeviceResource.Update rd dplan w = ({| Diagnostics := []; State := Written data |}, w1) /\
      DeviceResourceModel.ID data = DeviceResourceModel.ID dplan /\
      DeviceResourceModel.InsertedAt data = DeviceResourceModel.InsertedAt dplan /\
      DeviceResourceModel.IPAddress data = types.Known (Device.IPAddress updated) /\
      DeviceResourceModel.SiteID data = ptr_or_null (Device.SiteID updated) /\
      DeviceResourceModel.OrganizationID data = ptr_or_null (Device.OrganizationID updated) /\
      DeviceResourceModel.Name data
      = ptr_or_keep (Device.Name updated) (DeviceResourceModel.Name dplan) /\
      DeviceResourceModel.Description data
      = ptr_or_keep (Device.Description updated) (DeviceResourceModel.Description dplan) /\
      DeviceResourceModel.MonitoringEnabled data
      = ptr_or_keep (Device.MonitoringEnabled updated)
                    (DeviceResourceModel.MonitoringEnabled dplan) /\
      DeviceResourceModel.SNMPEnabled data
      = ptr_or_keep (Device.SNMPEnabled updated) (DeviceResourceModel.SNMPEnabled dplan) /\
      DeviceResourceModel.SNMPVersion data
      = ptr_or_keep (Device.SNMPVersion updated) (DeviceResourceModel.SNMPVersion dplan) /\
      DeviceResourceModel.SNMPPort data
      = ptr_or_keep (option_map int64 (Device.SNMPPort updated))
                    (DeviceResourceModel.SNMPPort dplan) /\
      DeviceResourceModel.SNMPv3SecurityLevel data
      = ptr_or_null (Device.SNMPv3SecurityLevel updated) /\
      DeviceResourceModel.SNMPv3Username data = ptr_or_null (Device.SNMPv3Username updated) /\
      DeviceResourceModel.SNMPv3AuthProtocol data
      = ptr_or_null (Device.SNMPv3AuthProtocol updated) /\
      DeviceResourceModel.SNMPv3AuthPassword data
      = ptr_or_null (Device.SNMPv3AuthPassword updated) /\
      DeviceResourceModel.SNMPv3PrivProtocol data
      = ptr_or_null (Device.SNMPv3PrivProtocol updated) /\
      DeviceResourceModel.SNMPv3PrivPassword data
      = ptr_or_null (Device.SNMPv3PrivPassword updated)) /\
  (exists data,
      SiteResource.Update rs splan ws = ({| Diagnostics := []; State := Written data |}, ws1) /\
      SiteResourceModel.ID data = SiteResourceModel.ID splan /\
      SiteResourceModel.InsertedAt data = SiteResourceModel.InsertedAt splan /\
      SiteResourceModel.Name data = types.Known (Site.Name supdated) /\
      SiteResourceModel.Location data
      = ptr_or_keep (Site.Location supdated) (SiteResourceModel.Location splan) /\
      SiteResourceModel.SNMPCommunity data
      = ptr_or_keep (Site.SNMPCommunity supdated) (SiteResourceModel.SNMPCommunity splan)).
Proof.
  intros Hd Hs. split.
  - exists (DeviceResource.Update_merge dplan updated). split.
    + unfold DeviceResource.Update. rewrite bind_run, Hd. reflexivity.
    + repeat split.
  - exists (SiteResource.Update_merge splan supdated). split.
    + unfold SiteResource.Update. rewrite bind_run, Hs. reflexivity.
    + repeat split.
Qed.

(** X19.  Create of a device makes one call, the POST of the planned
    device, and never a second one.  Whatever error that call returns,
    [ErrNotFound] included, is reported as "Failed to create device" with
    that error and nothing is written; there is no recovery as in Update.  On
    success the state takes the id and inserted_at of the created device. *)
Theorem device_create_outcome
        (r : DeviceResource.t S) (plan : DeviceResourceModel.t) (w : World S) :
  calls (snd (DeviceResource.Create r plan w))
  = (calls w ++ [Call "POST" "/api/v1/devices"
                      (Some (Client.device_body (DeviceResource.device_of plan)))])%list /\
  match fst (Client.CreateDevice (DeviceResource.client r)
               (DeviceResource.device_of plan) w) with
  | Err err =>
      fst (DeviceResource.Create r plan w)
      = {| Diagnostics := [AddError "Failed to create device" err]; State := Untouched |}
  | Ok created =>
      exists data,
        fst (DeviceResource.Create r plan w) = {| Diagnostics := []; State := Written data |} /\
        DeviceResourceModel.ID data = types.Known (Device.ID created) /\
        DeviceResourceModel.InsertedAt data = types.Known (Device.InsertedAt created)
  end.
Proof.
  split; [apply Create_calls|].
  unfold DeviceResource.Create. rewrite !bind_run.
  destruct (Client.CreateDevice _ _ w) as [[created|err] w1]; cbn [fst snd].
  - eexists. split; [reflexivity|]. split; reflexivity.
  - reflexivity.
Qed.

End UpdateFacts.

(** ** Read: when the state goes, and what it depends on *)
Section MoreReadFacts.
Context {S : Type}.

Lemma errors_Is_ErrNotFound_eq (err : error) :
  errors_Is_ErrNotFound err = true <-> err = ErrNotFound.
Proof. destruct err; cbn; split; congruence. Qed.

Lemma Device_Read_calls (rd : DeviceResource.t S) (dstate : DeviceResourceModel.t)
      (w : World S) :
  calls (snd (DeviceResource.Read rd dstate w))
  = (calls w ++ [Call "GET" ("/api/v1/devices/"
                              ++ types.ValueString (DeviceResourceModel.ID dstate)) None])%list.
Proof.
  unfold DeviceResource.Read. rewrite bind_run.
  pose proof (GetDevice_calls (DeviceResource.client rd)
                (types.ValueString (DeviceResourceModel.ID dstate)) w) as Hc.
  destruct (Client.GetDevice _ _ w) as [[device|err] w1]; cbn [fst snd] in *; [exact Hc|].
  destruct (errors_Is_ErrNotFound err); exact Hc.
Qed.

(** X13.  Read makes one call, the GET of the id in the state.  It removes
    the resource from the state exactly when that call returns
    [ErrNotFound], and then reports nothing; it reports an error exactly
    when the call fails otherwise.  So with devices, so with sites. *)
Theorem read_removes_exactly_on_not_found
        (rd : DeviceResource.t S) (dstate : DeviceResourceModel.t)
        (rs : SiteResource.t S) (sstate : SiteResourceModel.t) (w : World S) :
  (calls (snd (DeviceResource.Read rd dstate w))
   = (calls w ++ [Call "GET" ("/api/v1/devices/"
                               ++ types.ValueString (DeviceResourceModel.ID dstate)) None])%list /\
   (State (fst (DeviceResource.Read rd dstate w)) = Removed
    <-> fst (Client.GetDevice (DeviceResource.client rd)
               (types.ValueString (DeviceResourceModel.ID dstate)) w) = Err ErrNotFound) /\
   (State (fst (DeviceResource.Read rd dstate w)) = Removed ->
    Diagnostics (fst (DeviceResource.Read rd dstate w)) = []) /\
   (HasError (fst (DeviceResource.Read rd dstate w)) = true
    <-> exists err,
        fst (Client.GetDevice (DeviceResource.client rd)
               (types.ValueString (DeviceResourceModel.ID dstate)) w) = Err err /\
        err <> ErrNotFound)) /\
  (calls (snd (SiteResource.Read rs sstate w))
   = (calls w ++ [Call "GET" ("/api/v1/sites/"
                               ++ types.ValueString (SiteResourceModel.ID sstate)) None])%list /\
   (State (fst (SiteResource.Read rs sstate w)) = Removed
    <-> fst (Client.GetSite (SiteResource.client rs)
               (types.ValueString (SiteResourceModel.ID sstate)) w) = Err ErrNotFound) /\
   (State (fst (SiteResource.Read rs sstate w)) = Removed ->
    Diagnostics (fst (SiteResource.Read rs sstate w)) = []) /\
   (HasError (fst (SiteResource.Read rs sstate w)) = true
    <-> exists err,
        fst (Client.GetSite (SiteResource.client rs)
               (types.ValueString (SiteResourceModel.ID sstate)) w) = Err err /\
        err <> ErrNotFound)).
Proof.
  split.
  - unfold DeviceResource.Read. rewrite !bind_run.
    pose proof (GetDevice_calls (DeviceResource.client rd)
                  (types.ValueString (DeviceResourceModel.ID dstate)) w) as Hc.
    destruct (Client.GetDevice _ _ w) as [[device|err] w1]; cbn [fst snd] in *.
    + split; [exact Hc|]. cbn. repeat split; try discriminate.
      intros (err & H & _). discriminate H.
    + destruct (errors_Is_ErrNotFound err) eqn:Hnf.
      * apply errors_Is_ErrNotFound_eq in Hnf. subst err.
        split; [exact Hc|]. cbn. repeat split; try discriminate.
        intros (err & H & Hne). injection H as <-. contradiction.
      * split; [exact Hc|]. cbn. repeat split; try discriminate.
        -- intros H. injection H as ->. discriminate Hnf.
        -- intros _. exists err. split; [reflexivity|].
           intros ->. discriminate Hnf.
  - unfold SiteResource.Read. rewrite !bind_run.
    pose proof (GetSite_calls (SiteResource.client rs)
                  (types.ValueString (SiteResourceModel.ID sstate)) w) as Hc.
    destruct (Client.GetSite _ _ w) as [[site|err] w1]; cbn [fst snd] in *.
    + split; [exact Hc|]. cbn. repeat split; try discriminate.
      intros (err & H & _). discriminate H.
    + destruct (errors_Is_ErrNotFound err) eqn:Hnf.
      * apply errors_Is_ErrNotFound_eq in Hnf. subst err.
        split; [exact Hc|]. cbn. repeat split; try discriminate.
        intros (err & H & Hne). injection H as <-. contradiction.
      * split; [exact Hc|]. cbn. repeat split; try discriminate.
        -- intros H. injection H as ->. discriminate Hnf.
        -- intros _. exists err. split; [reflexivity|].
           intros ->. discriminate Hnf.
Qed.

(** X14.  What a read leaves of the cache.  When the answer carries
    monitoring_enabled, snmp_enabled, snmp_version and snmp_port, the state a
    device's Read writes depends on the cached state through its id alone:
    two states with the same id are refreshed to the same state.  A site's
    Read depends on the cached state through its id alone, always. *)
Theorem read_forgets_the_cache
        (rd : DeviceResource.t S) (d1 d2 : DeviceResourceModel.t) (device : Device.t)
        (rs : SiteResource.t S) (s1 s2 : SiteResourceModel.t) (w : World S) :
  DeviceResourceModel.ID d1 = DeviceResourceModel.ID d2 ->
  SiteResourceModel.ID s1 = SiteResourceModel.ID s2 ->
  Device.MonitoringEnabled device <> None ->
  Device.SNMPEnabled device <> None ->
  Device.SNMPVersion device <> None ->
  Device.SNMPPort device <> None ->
  DeviceResource.Read_merge d1 device = DeviceResource.Read_merge d2 device /\
  (fst (Client.GetDevice (DeviceResource.client rd)
          (types.ValueString (DeviceResourceModel.ID d1)) w) = Ok device ->
   DeviceResource.Read rd d1 w = DeviceResource.Read rd d2 w) /\
  SiteResource.Read rs s1 w = SiteResource.Read rs s2 w.
Proof.
  intros Hid Hsid Hm He Hv Hp.
  assert (Hmerge : DeviceResource.Read_merge d1 device = DeviceResource.Read_merge d2 device).
  { apply DeviceResourceModel_ext; try reflexivity.
    - exact Hid.
    - change (ptr_or_keep (Device.MonitoringEnabled device)
                          (DeviceResourceModel.MonitoringEnabled d1)
              = ptr_or_keep (Device.MonitoringEnabled device)
                            (DeviceResourceModel.MonitoringEnabled d2)).
      destruct (Device.MonitoringEnabled device); [reflexivity|contradiction].
    - change (ptr_or_keep (Device.SNMPEnabled device) (DeviceResourceModel.SNMPEnabled d1)
              = ptr_or_keep (Device.SNMPEnabled device) (DeviceResourceModel.SNMPEnabled d2)).
      destruct (Device.SNMPEnabled device); [reflexivity|contradiction].
    - change (ptr_or_keep (Device.SNMPVersion device) (DeviceResourceModel.SNMPVersion d1)
              = ptr_or_keep (Device.SNMPVersion device) (DeviceResourceModel.SNMPVersion d2)).
      destruct (Device.SNMPVersion device); [reflexivity|contradiction].
    - change (ptr_or_keep (option_map int64 (Device.SNMPPort device))
                          (DeviceResourceModel.SNMPPort d1)
              = ptr_or_keep (option_map int64 (Device.SNMPPort device))
                            (DeviceResourceModel.SNMPPort d2)).
      destruct (Device.SNMPPort device); [reflexivity|contradiction]. }
  split; [exact Hmerge|]. split.
  - intros Hget. unfold DeviceResource.Read. rewrite !bind_run, <- Hid.
    destruct (Client.GetDevice _ _ w) as [res w1]. cbn [fst snd] in *. subst res.
    rewrite Hmerge. reflexivity.
  - unfold SiteResource.Read. rewrite !bind_run, <- Hsid.
    destruct (Client.GetSite _ _ w) as [[site|err] w1]; cbn [fst snd]; [|reflexivity].
    destruct s1, s2. cbn in Hsid. subst. reflexivity.
Qed.

(** X15.  The id the server gave is the id every later call goes to.  After
    a create that returned a device, the state written carries that device's
    id, and Read, Update and Delete on that state send their GET, PATCH and
    DELETE to /api/v1/devices/ followed by that id. *)
Theorem later_calls_go_to_the_created_id
        (r : DeviceResource.t S) (plan : DeviceResourceModel.t)
        (w w1 w' : World S) (created : Device.t) :
  Client.CreateDevice (DeviceResource.client r) (DeviceResource.device_of plan) w
  = (Ok created, w1) ->
  exists state,
    DeviceResource.Create r plan w = ({| Diagnostics := []; State := Written state |}, w1) /\
    calls (snd (DeviceResource.Read r state w'))
    = (calls w' ++ [Call "GET" ("/api/v1/devices/" ++ Device.ID created) None])%list /\
    calls (snd (DeviceResource.Delete r state w'))
    = (calls w' ++ [Call "DELETE" ("/api/v1/devices/" ++ Device.ID created) None])%list /\
    exists rest,
      calls (snd (DeviceResource.Update r state w'))
      = (calls w' ++ Call "PATCH" ("/api/v1/devices/" ++ Device.ID created)
                          (Some (Client.device_body (DeviceResource.device_of state)))
                     :: rest)%list.
Proof.
  intros Hc. exists (DeviceResource.Create_merge plan created).
  split; [unfold DeviceResource.Create; rewrite bind_run, Hc; reflexivity|].
  split; [|split].
  - apply (Device_Read_calls r (DeviceResource.Create_merge plan created) w').
  - rewrite Delete_run. cbn [snd]. apply DeleteDevice_calls.
  - eexists. rewrite Device_Update_calls. unfold update_calls. reflexivity.
Qed.

End MoreReadFacts.

(** ** What a payload holds *)
Section PayloadFacts.

Lemma omitempty_unless_null {A B} (key : string) (enc : B -> json)
      (get : types.Value A -> B) (v : types.Value A) :
  encoding_json.omitempty_ptr key enc (unless_null get v) = member key enc get v.
Proof. destruct v; reflexivity. Qed.

Lemma in_member {A B} (key : string) (enc : B -> json) (get : types.Value A -> B)
      (v : types.Value A) (k : string) (j : json) :
  In (k, j) (member key enc get v) -> k = key /\ types.IsNull v = false.
Proof.
  unfold member. destruct (types.IsNull v); cbn; [contradiction|].
  intros [H|[]]. injection H as <- _. split; reflexivity.
Qed.

(** The members of the JSON object sent for a device. *)
Lemma device_payload (data : DeviceResourceModel.t) :
  Device.Marshal (DeviceResource.device_of data)
  = JObject
      (member "site_id" JString types.ValueString (DeviceResourceModel.SiteID data)
       ++ member "organization_id" JString types.ValueString
                 (DeviceResourceModel.OrganizationID data)
       ++ member "name" JString types.ValueString (DeviceResourceModel.Name data)
       ++ [("ip_address", JString (types.ValueString (DeviceResourceModel.IPAddress data)))]
       ++ member "description" JString types.ValueString (DeviceResourceModel.Description data)
       ++ member "monitoring_enabled" JBool types.ValueBool
                 (DeviceResourceModel.MonitoringEnabled data)
       ++ member "snmp_enabled" JBool types.ValueBool (DeviceResourceModel.SNMPEnabled data)
       ++ member "snmp_version" JString types.ValueString
                 (DeviceResourceModel.SNMPVersion data)
       ++ member "snmp_port" JNumber (fun v => int (types.ValueInt64 v))
                 (DeviceResourceModel.SNMPPort data)
       ++ member "snmpv3_security_level" JString types.ValueString
                 (DeviceResourceModel.SNMPv3SecurityLevel data)
       ++ member "snmpv3_username" JString types.ValueString
                 (DeviceResourceModel.SNMPv3Username data)
       ++ member "snmpv3_auth_protocol" JString types.ValueString
                 (DeviceResourceModel.SNMPv3AuthProtocol data)
       ++ member "snmpv3_auth_password" JString types.ValueString
                 (DeviceResourceModel.SNMPv3AuthPassword data)
       ++ member "snmpv3_priv_protocol" JString types.ValueString
                 (DeviceResourceModel.SNMPv3PrivProtocol data)
       ++ member "snmpv3_priv_password" JString types.ValueString
                 (DeviceResourceModel.SNMPv3PrivPassword data))%list.
Proof.
  unfold Device.Marshal, DeviceResource.device_of.
  cbn [Device.ID Device.SiteID Device.OrganizationID Device.Name Device.IPAddress
       Device.Description Device.MonitoringEnabled Device.SNMPEnabled Device.SNMPVersion
       Device.SNMPPort Device.SNMPv3SecurityLevel Device.SNMPv3Username
       Device.SNMPv3AuthProtocol Device.SNMPv3AuthPassword Device.SNMPv3PrivProtocol
       Device.SNMPv3PrivPassword Device.CheckIntervalSeconds Device.InsertedAt].
  rewrite !omitempty_unless_null.
  change (encoding_json.omitempty_string "id" "") with (@nil (string * json)).
  change (encoding_json.omitempty_string "inserted_at" "") with (@nil (string * json)).
  change (encoding_json.omitempty_ptr "check_interval_seconds" JNumber None)
    with (@nil (string * json)).
  rewrite !app_nil_r. reflexivity.
Qed.

Lemma site_payload (data : SiteResourceModel.t) :
  Site.Marshal (SiteResource.site_of data)
  = JObject
      ([("name", JString (types.ValueString (SiteResourceModel.Name data)))]
       ++ member "location" JString types.ValueString (SiteResourceModel.Location data)
       ++ member "snmp_community" JString types.ValueString
                 (SiteResourceModel.SNMPCommunity data))%list.
Proof.
  unfold Site.Marshal, SiteResource.site_of.
  cbn [Site.ID Site.Name Site.Location Site.SNMPCommunity Site.InsertedAt].
  rewrite !omitempty_unless_null.
  change (encoding_json.omitempty_string "id" "") with (@nil (string * json)).
  change (encoding_json.omitempty_string "inserted_at" "") with (@nil (string * json)).
  rewrite !app_nil_r. reflexivity.
Qed.

Lemma in_member_iff {A B} (key : string) (enc : B -> json) (get : types.Value A -> B)
      (v : types.Value A) (k : string) (j : json) :
  In (k, j) (member key enc get v)
  <-> k = key /\ types.IsNull v = false /\ j = enc (get v).
Proof.
  unfold member. destruct (types.IsNull v); cbn.
  - split; [contradiction|]. intros (_ & H & _). discriminate H.
  - split.
    + intros [H|[]]. injection H as <- <-. repeat split.
    + intros (-> & _ & ->). left. reflexivity.
Qed.

Ltac payload_cases H :=
  repeat (apply in_app_or in H; destruct H as [H|H]);
  first [ apply in_member_iff in H | destruct H as [H|[]] ].

Ltac payload_here :=
  solve [ apply in_member_iff; repeat split; assumption || reflexivity
        | left; reflexivity ].

Ltac payload_pick :=
  repeat first [ apply in_or_app; left; payload_here | apply in_or_app; right ];
  try payload_here.

Ltac payload_member :=
  unfold member_when_set;
  let value := fresh "value" in
  let H := fresh "H" in
  let Hk := fresh "Hk" in
  let Hn := fresh "Hn" in
  let Hv := fresh "Hv" in
  intros value; split;
  [ intros H; payload_cases H;
    first [ destruct H as (Hk & Hn & Hv); first [discriminate Hk | split; assumption]
          | discriminate H ]
  | intros [Hn Hv]; payload_pick ].

(** X16.  What the payload of a device's create or update holds of the
    attributes whose JSON names are in [client.go].  ip_address is always
    there, with the planned address.  Each of name, description,
    monitoring_enabled, snmp_enabled, snmp_version and snmp_port is there
    exactly when it is not null in the plan, and then with the value its
    accessor returns; so an attribute that is unknown in the plan is sent
    with the zero value of its type: the empty string, false, or 0.  id,
    inserted_at and check_interval_seconds are never there. *)
Theorem device_payload_members (data : DeviceResourceModel.t) :
  exists fields,
    Device.Marshal (DeviceResource.device_of data) = JObject fields /\
    (forall value,
        In ("ip_address", value) fields
        <-> value = JString (types.ValueString (DeviceResourceModel.IPAddress data))) /\
    member_when_set fields "name" JString types.ValueString
                    (DeviceResourceModel.Name data) /\
    member_when_set fields "description" JString types.ValueString
                    (DeviceResourceModel.Description data) /\
    member_when_set fields "monitoring_enabled" JBool types.ValueBool
                    (DeviceResourceModel.MonitoringEnabled data) /\
    member_when_set fields "snmp_enabled" JBool types.ValueBool
                    (DeviceResourceModel.SNMPEnabled data) /\
    member_when_set fields "snmp_version" JString types.ValueString
                    (DeviceResourceModel.SNMPVersion data) /\
    member_when_set fields "snmp_port" JNumber (fun v => int (types.ValueInt64 v))
                    (DeviceResourceModel.SNMPPort data) /\
    (forall value,
        ~ In ("id", value) fields /\
        ~ In ("inserted_at", value) fields /\
        ~ In ("check_interval_seconds", value) fields) /\
    (DeviceResourceModel.Name data = types.Unknown ->
     In ("name", JString "") fields) /\
    (DeviceResourceModel.Description data = types.Unknown ->
     In ("description", JString "") fields) /\
    (DeviceResourceModel.MonitoringEnabled data = types.Unknown ->
     In ("monitoring_enabled", JBool false) fields) /\
    (DeviceResourceModel.SNMPEnabled data = types.Unknown ->
     In ("snmp_enabled", JBool false) fields) /\
    (DeviceResourceModel.SNMPVersion data = types.Unknown ->
     In ("snmp_version", JString "") fields) /\
    (DeviceResourceModel.SNMPPort data = types.Unknown ->
     In ("snmp_port", JNumber 0) fields).
Proof.
  pose proof (device_payload data) as Hpay.
  match type of Hpay with
  | _ = JObject ?l => remember l as fields eqn:Hfields
  end.
  exists fields. split; [exact Hpay|]. clear Hpay.
  assert (Hname : member_when_set fields "name" JString types.ValueString
                                  (DeviceResourceModel.Name data))
    by (subst fields; payload_member).
  assert (Hdesc : member_when_set fields "description" JString types.ValueString
                                  (DeviceResourceModel.Description data))
    by (subst fields; payload_member).
  assert (Hmon : member_when_set fields "monitoring_enabled" JBool types.ValueBool
                                 (DeviceResourceModel.MonitoringEnabled data))
    by (subst fields; payload_member).
  assert (Hsnmp : member_when_set fields "snmp_enabled" JBool types.ValueBool
                                  (DeviceResourceModel.SNMPEnabled data))
    by (subst fields; payload_member).
  assert (Hver : member_when_set fields "snmp_version" JString types.ValueString
                                 (DeviceResourceModel.SNMPVersion data))
    by (subst fields; payload_member).
  assert (Hport : member_when_set fields "snmp_port" JNumber
                                  (fun v => int (types.ValueInt64 v))
                                  (DeviceResourceModel.SNMPPort data))
    by (subst fields; payload_member).
  split.
  { subst fields. intros value. split.
    - intros H. payload_cases H;
        first [ destruct H as (Hk & _); discriminate Hk
              | injection H as <-; reflexivity ].
    - intros ->. payload_pick. }
  do 6 (split; [assumption|]).
  split.
  { subst fields. intros value. repeat split; intros H; payload_cases H;
      first [ destruct H as (Hk & _); discriminate Hk | discriminate H ]. }
  repeat split; intros Hu.
  - apply Hname. rewrite Hu. split; reflexivity.
  - apply Hdesc. rewrite Hu. split; reflexivity.
  - apply Hmon. rewrite Hu. split; reflexivity.
  - apply Hsnmp. rewrite Hu. split; reflexivity.
  - apply Hver. rewrite Hu. split; reflexivity.
  - apply Hport. rewrite Hu. split; reflexivity.
Qed.

(** X17.  What the payload of a site's create or update holds: the name,
    always; location and snmp_community, each exactly when it is not null in
    the plan; and nothing else, so never id or inserted_at. *)
Theorem site_payload_members (data : SiteResourceModel.t) :
  exists fields,
    Site.Marshal (SiteResource.site_of data) = JObject fields /\
    In ("name", JString (types.ValueString (SiteResourceModel.Name data))) fields /\
    ((exists value, In ("location", value) fields)
     <-> types.IsNull (SiteResourceModel.Location data) = false) /\
    ((exists value, In ("snmp_community", value) fields)
     <-> types.IsNull (SiteResourceModel.SNMPCommunity data) = false) /\
    (forall key value,
        In (key, value) fields ->
        key = "name" \/ key = "location" \/ key = "snmp_community").
Proof.
  eexists. split; [apply site_payload|].
  split; [left; reflexivity|].
  split; [|split].
  - split.
    + intros [value H]. rewrite !in_app_iff in H.
      destruct H as [[H|[]]|[H|H]]; [discriminate H| |];
        apply in_member in H as [Hk Hnull]; [exact Hnull|discriminate Hk].
    + intros Hnull. unfold member. rewrite Hnull.
      eexists. rewrite !in_app_iff. right. left. left. reflexivity.
  - split.
    + intros [value H]. rewrite !in_app_iff in H.
      destruct H as [[H|[]]|[H|H]]; [discriminate H| |];
        apply in_member in H as [Hk Hnull]; [discriminate Hk|exact Hnull].
    + intros Hnull. unfold member. rewrite Hnull.
      eexists. rewrite !in_app_iff. right. right. left. reflexivity.
  - intros key value H. rewrite !in_app_iff in H.
    destruct H as [[H|[]]|[H|H]].
    + injection H as <- _. auto.
    + apply in_member in H as [-> _]. auto.
    + apply in_member in H as [-> _]. auto.
Qed.

End PayloadFacts.

(** ** The provider's token *)
Section ConfigureFacts.
Context {C : Type} (NewClient : string -> C).

(** X18.  [Configure] hands out a client exactly when the token is known
    and not empty, and then it is the client made from that token, the same
    for resources and data sources, with no diagnostic.  In every other case
    (unknown, null or empty token) it hands out nothing and reports exactly
    one error. *)
Theorem configure_needs_a_token (token : types.String) :
  ToweropsProvider.ResourceData (ToweropsProvider.Configure NewClient token)
  = ToweropsProvider.DataSourceData (ToweropsProvider.Configure NewClient token) /\
  (forall client,
      ToweropsProvider.ResourceData (ToweropsProvider.Configure NewClient token) = Some client
      <-> exists t, token = types.Known t /\ t <> "" /\ client = NewClient t) /\
  length (ToweropsProvider.Diagnostics (ToweropsProvider.Configure NewClient token))
  = match ToweropsProvider.ResourceData (ToweropsProvider.Configure NewClient token) with
    | Some _ => 0%nat
    | None => 1%nat
    end.
Proof.
  unfold ToweropsProvider.Configure.
  destruct token as [| |t]; cbn.
  - repeat split; try discriminate. intros (t & H & _). discriminate H.
  - repeat split; try discriminate. intros (t & H & _). discriminate H.
  - destruct (String.eqb_spec t "") as [->|Hne]; cbn.
    + repeat split; try discriminate.
      intros (t & H & Hne & _). injection H as <-. contradiction.
    + repeat split.
      * intros H. injection H as <-. exists t. repeat split. exact Hne.
      * intros (t' & H & _ & ->). injection H as <-. reflexivity.
Qed.

End ConfigureFacts.

Lemma doRequest_not_found_only_from_404_witness :
  exists respBody,
    fst (http.Do httptest.scripted
                 (request_of httptest.client "DELETE" "/api/v1/devices/D1" None)
                 (remote DeleteRun.w))
    = http.Response 404 respBody.
Proof.
  exact (proj2 (doRequest_not_found_only_from_404
                  httptest.client "DELETE" "/api/v1/devices/D1" None DeleteRun.w eq_refl)).
Defined.

Lemma doRequest_remote_error_carries_status_witness :
  exists err,
    fst (Client.doRequest httptest.client "PATCH" "/api/v1/devices/D1" None FailedUpdateRun.w)
    = Err err /\
    status_of err = Some 500 /\
    errors_Is_ErrNotFound err = false.
Proof.
  apply (doRequest_remote_error_carries_status
           httptest.client "PATCH" "/api/v1/devices/D1" None FailedUpdateRun.w 500
           (Document (JObject [("error", JString "update failed")])));
    [reflexivity|reflexivity|lia|lia].
Defined.

Lemma body_that_is_not_json_witness :
  fst (Client.GetDevice (httpfixed.client (http.Response 200 (Malformed "invalid json")))
                        "device-123" httpfixed.start)
  = Err ErrUnmarshal /\
  fst (Client.DeleteSite (httpfixed.client (http.Response 200 (Malformed "invalid json")))
                         "device-123" httpfixed.start)
  = None.
Proof.
  destruct (body_that_is_not_json
              (httpfixed.client (http.Response 200 (Malformed "invalid json")))
              Site.zero Device.zero "device-123" httpfixed.start 200 "invalid json"
              (conj (fun _ _ => eq_refl) (fun _ => eq_refl)) ltac:(lia))
    as (_ & _ & _ & _ & Hget & _ & Hdel & _).
  split; [exact Hget|exact Hdel].
Defined.

Lemma client_returns_what_the_server_sent_witness :
  fst (Client.GetSite (httpfixed.client (http.Response 200 (Document (Site.Marshal ReadRun.site))))
                      "S1" httpfixed.start)
  = Ok ReadRun.site /\
  fst (Client.UpdateDevice
         (httpfixed.client (http.Response 200 (Document (Device.Marshal CreateEchoRun.created))))
         "D1" Device.zero httpfixed.start)
  = Ok CreateEchoRun.created.
Proof.
  destruct (client_returns_what_the_server_sent
              (httpfixed.client (http.Response 200 (Document (Site.Marshal ReadRun.site))))
              (httpfixed.client
                 (http.Response 200 (Document (Device.Marshal CreateEchoRun.created))))
              httpfixed.start httpfixed.start Site.zero ReadRun.site
              Device.zero CreateEchoRun.created "S1" 200 200
              (conj (fun _ _ => eq_refl) (fun _ => eq_refl))
              (conj (fun _ _ => eq_refl) (fun _ => eq_refl))
              ltac:(lia) ltac:(lia) eq_refl)
    as [(_ & Hsite & _) (_ & _ & Hdevice)].
  split; [exact Hsite|].
  destruct (client_returns_what_the_server_sent
              (httpfixed.client (http.Response 200 (Document (Site.Marshal ReadRun.site))))
              (httpfixed.client
                 (http.Response 200 (Document (Device.Marshal CreateEchoRun.created))))
              httpfixed.start httpfixed.start Site.zero ReadRun.site
              Device.zero CreateEchoRun.created "D1" 200 200
              (conj (fun _ _ => eq_refl) (fun _ => eq_refl))
              (conj (fun _ _ => eq_refl) (fun _ => eq_refl))
              ltac:(lia) ltac:(lia) eq_refl)
    as [_ (_ & _ & Hdevice')].
  exact Hdevice'.
Defined.

Lemma site_update_not_found_recreates_witness :
  exists resp data,
    SiteResource.Update SiteRun.r SiteRun.plan SiteRun.w = (resp, SiteRun.w2) /\
    State resp = Written data /\
    SiteResourceModel.ID data = types.Known "S2".
Proof.
  destruct (site_update_not_found_recreates
              SiteRun.r SiteRun.plan SiteRun.w SiteRun.w1 SiteRun.w2 (Ok SiteRun.created)
              eq_refl eq_refl)
    as (resp & Hrun & _ & _ & data & Hstate & Hid & _).
  exists resp, data. repeat split; assumption.
Defined.

Lemma successful_update_keeps_identity_witness :
  exists data,
    DeviceResource.Update RecreateRun.r RecreateRun.plan SiteRun.wd
    = ({| Diagnostics := []; State := Written data |}, SiteRun.wd1) /\
    DeviceResourceModel.ID data = types.Known "D1".
Proof.
  destruct (successful_update_keeps_identity
              RecreateRun.r RecreateRun.plan SiteRun.r SiteRun.plan
              SiteRun.wd SiteRun.wd1 SiteRun.wu SiteRun.wu1 SiteRun.dupdated SiteRun.updated
              eq_refl eq_refl)
    as [(data & Hrun & Hid & _) _].
  exists data. split; [exact Hrun|exact Hid].
Defined.

Lemma read_forgets_the_cache_witness :
  DeviceResource.Read_merge ReadRun.state CreateEchoRun.created
  = DeviceResource.Read_merge DeleteRun.state CreateEchoRun.created.
Proof.
  exact (proj1 (read_forgets_the_cache
                  ReadRun.r ReadRun.state DeleteRun.state CreateEchoRun.created
                  ReadRun.rs ReadRun.sstate ReadRun.sstate ReadRun.w
                  eq_refl eq_refl
                  ltac:(discriminate) ltac:(discriminate)
                  ltac:(discriminate) ltac:(discriminate))).
Defined.

Lemma later_calls_go_to_the_created_id_witness :
  exists state,
    DeviceResource.Create CreateEchoRun.r CreateEchoRun.plan CreateEchoRun.w
    = ({| Diagnostics := []; State := Written state |}, SiteRun.wc1) /\
    calls (snd (DeviceResource.Delete CreateEchoRun.r state SiteRun.wc1))
    = (calls SiteRun.wc1 ++ [Call "DELETE" "/api/v1/devices/D1" None])%list.
Proof.
  destruct (later_calls_go_to_the_created_id
              CreateEchoRun.r CreateEchoRun.plan CreateEchoRun.w SiteRun.wc1 SiteRun.wc1
              CreateEchoRun.created eq_refl)
    as (state & Hrun & _ & Hdel & _).
  exists state. split; [exact Hrun|exact Hdel].
Defined.
